(** * Millionaire-Trading: the signal-scoring and level engine

    A shallow embedding of the gap-fill strategy scripts
    ([ESTRATEGIA_TRADING_GAP_FILL.py], [ESTRATEGIA_TRADING_GAP_FILL_V3.py]
    and [Estrategia_Gaps_LiqBinance_v1.py]) and the properties their
    specification states about them.

    Numbers.  The scripts compute on IEEE doubles that may be NaN or
    infinite.  A double is modelled by its exact value: a rational, one of
    the two infinities, or NaN.  Arithmetic is exact (no rounding, no
    overflow, one zero), the special values follow IEEE: NaN is absorbing,
    every comparison with NaN is false, [inf - inf] and [0 * inf] are NaN.
    Results of arithmetic are kept in lowest terms, so that equal values
    are equal terms.  Where a statement of the specification is decided by
    the rounding of a double (the 0.5 % threshold of [detect_cme_gap], the
    RSI of a scaled series), the function is modelled a second time on
    binary64 numbers themselves, in the module [Doubles].

    Division comes in two flavours, as in the source: on numpy/pandas
    values [x / 0] is an infinity or NaN, on plain Python floats it raises
    [ZeroDivisionError].

    Frames.  A pandas frame is the list of its rows, oldest first; a
    rolling mean is the mean of its window.  What [yf.download] returns is
    an input.  The index of a frame is taken to be a proper time index, so
    that the time-zone conversions of [analyze_pre_ny] do not raise, and
    the labels of [analyze_technical_indicators], which downloads its own
    series, are an input as well. *)

From Stdlib Require Import Floats.
From Stdlib Require Import QArith Qpower Qabs Qround Qminmax Lqa Lia Bool String Ascii
  DecimalString Sorted Permutation.
From stdpp Require Import base option list sorting.

Local Open Scope Q_scope.

(** ** Floating-point values *)

Inductive num : Type :=
  | Fin (q : Q)
  | PInf
  | NInf
  | NaN.

Definition fin (q : Q) : num := Fin (Qred q).

Definition isnan (x : num) : bool :=
  match x with NaN => true | _ => false end.

Definition Qltb (a b : Q) : bool :=
  match a ?= b with Lt => true | _ => false end.

Definition Qleb (a b : Q) : bool :=
  match a ?= b with Gt => false | _ => true end.

Definition Qeqb (a b : Q) : bool :=
  match a ?= b with Eq => true | _ => false end.

Definition fneg (x : num) : num :=
  match x with
  | Fin a => fin (- a)
  | PInf => NInf
  | NInf => PInf
  | NaN => NaN
  end.

Definition fadd (x y : num) : num :=
  match x, y with
  | NaN, _ | _, NaN => NaN
  | Fin a, Fin b => fin (a + b)
  | PInf, NInf | NInf, PInf => NaN
  | PInf, _ | _, PInf => PInf
  | NInf, _ | _, NInf => NInf
  end.

Definition fsub (x y : num) : num := fadd x (fneg y).

(** Sign of an infinity times a rational: NaN at zero. *)
Definition inf_scaled (positive : bool) (a : Q) : num :=
  if Qeqb a 0 then NaN
  else if xorb positive (Qltb a 0) then PInf else NInf.

Definition fmul (x y : num) : num :=
  match x, y with
  | NaN, _ | _, NaN => NaN
  | Fin a, Fin b => fin (a * b)
  | PInf, Fin a | Fin a, PInf => inf_scaled true a
  | NInf, Fin a | Fin a, NInf => inf_scaled false a
  | PInf, PInf | NInf, NInf => PInf
  | PInf, NInf | NInf, PInf => NInf
  end.

(** numpy / pandas division: a zero divisor gives an infinity, [0/0] NaN. *)
Definition fdiv (x y : num) : num :=
  match x, y with
  | NaN, _ | _, NaN => NaN
  | Fin a, Fin b =>
      if Qeqb b 0 then
        (if Qeqb a 0 then NaN else if Qltb 0 a then PInf else NInf)
      else fin (a / b)
  | Fin _, PInf | Fin _, NInf => Fin 0
  | PInf, Fin b => if Qltb b 0 then NInf else PInf
  | NInf, Fin b => if Qltb b 0 then PInf else NInf
  | PInf, PInf | PInf, NInf | NInf, PInf | NInf, NInf => NaN
  end.

(** Python float division: [None] stands for [ZeroDivisionError]. *)
Definition pydiv (x y : num) : option num :=
  match y with
  | Fin b => if Qeqb b 0 then None else Some (fdiv x y)
  | _ => Some (fdiv x y)
  end.

Definition fabs (x : num) : num :=
  match x with
  | Fin a => fin (Qabs a)
  | PInf | NInf => PInf
  | NaN => NaN
  end.

Definition flt (x y : num) : bool :=
  match x, y with
  | NaN, _ | _, NaN => false
  | Fin a, Fin b => Qltb a b
  | NInf, Fin _ | NInf, PInf | Fin _, PInf => true
  | _, _ => false
  end.

Definition fle (x y : num) : bool :=
  match x, y with
  | NaN, _ | _, NaN => false
  | Fin a, Fin b => Qleb a b
  | NInf, _ | _, PInf => true
  | _, _ => false
  end.

Definition fgt (x y : num) : bool := flt y x.
Definition fge (x y : num) : bool := fle y x.

Definition feqb (x y : num) : bool :=
  match x, y with
  | Fin a, Fin b => Qeqb a b
  | PInf, PInf | NInf, NInf => true
  | _, _ => false
  end.

Declare Scope num_scope.
Delimit Scope num_scope with F.
Bind Scope num_scope with num.
Infix "+" := fadd : num_scope.
Infix "-" := fsub : num_scope.
Infix "*" := fmul : num_scope.
Infix "/" := fdiv : num_scope.
Infix "<?" := flt : num_scope.
Infix "<=?" := fle : num_scope.
Infix ">?" := fgt : num_scope.
Infix ">=?" := fge : num_scope.
Notation "- x" := (fneg x) : num_scope.

(** The order the comparisons decide, as propositions. *)
Definition num_lt (x y : num) : Prop := flt x y = true.
Definition num_le (x y : num) : Prop := fle x y = true.
Infix "<" := num_lt : num_scope.
Infix "<=" := num_le : num_scope.

(** ** Strings *)

(** Python's [sub in s]. *)
Fixpoint contains (sub s : string) : bool :=
  String.prefix sub s ||
  match s with
  | EmptyString => false
  | String _ t => contains sub t
  end.

(** ** Price bars and pandas series *)

(** One row of a flat OHLCV frame.  A frame whose five columns are present
    is the list of its rows, oldest first; [len(df)] is its length and
    [df.empty] is having no row. *)
Record Bar : Type := mkBar {
  Open : num;
  High : num;
  Low : num;
  Close : num;
  Volume : num
}.

Definition column (f : Bar -> num) (df : list Bar) : list num := map f df.

(** [s.iloc[-k]] for [k >= 1]; [None] is [IndexError]. *)
Definition iloc_neg {A} (k : nat) (l : list A) : option A :=
  if (k <=? length l)%nat then l !! (length l - k)%nat else None.

(** Where a slice that starts at [-n] begins: [-0] is [0], and a start
    before the first row is clipped to it. *)
Definition neg_start {A} (n : nat) (l : list A) : nat :=
  match n with
  | O => O
  | _ => (length l - n)%nat
  end.

(** [s.iloc[-n:]]: the last [n] rows, all of them when there are fewer. *)
Definition iloc_tail {A} (n : nat) (l : list A) : list A :=
  drop (neg_start n l) l.

(** [s.iloc[-n:-m]] for [m >= 1]: rows [len-n] up to, not including,
    [len-m]. *)
Definition iloc_window {A} (n m : nat) (l : list A) : list A :=
  drop (neg_start n l) (take (length l - m) l).

Definition fsum (l : list num) : num := foldr fadd (Fin 0) l.

Definition count (l : list num) : num := Fin (inject_Z (Z.of_nat (length l))).

Definition dropna (l : list num) : list num :=
  List.filter (fun x => negb (isnan x)) l.

(** [Series.max()], [Series.min()] and [Series.mean()] skip NaN and are NaN
    on a series without a value. *)
Definition fmax2 (x y : num) : num := if (x <? y)%F then y else x.
Definition fmin2 (x y : num) : num := if (y <? x)%F then y else x.

Definition series_max (l : list num) : num :=
  match dropna l with
  | [] => NaN
  | x :: t => foldl fmax2 x t
  end.

Definition series_min (l : list num) : num :=
  match dropna l with
  | [] => NaN
  | x :: t => foldl fmin2 x t
  end.

Definition series_mean (l : list num) : num :=
  (fsum (dropna l) / count (dropna l))%F.

(** [Series.diff()] and [Series.shift()]. *)
Definition shift (l : list num) : list num :=
  match l with
  | [] => []
  | _ => NaN :: take (length l - 1) l
  end.

Definition diff (l : list num) : list num :=
  zip_with fsub l (shift l).

(** One value of [Series.rolling(window=w).mean()]: the mean of the last [w]
    entries of the prefix that ends at that row, NaN while the prefix is
    shorter than the window or the window holds a NaN. *)
Definition window_mean (w : nat) (prefix : list num) : num :=
  if (length prefix <? w)%nat then NaN
  else
    let win := drop (length prefix - w) prefix in
    if existsb isnan win then NaN else (fsum win / count win)%F.

Definition rolling_mean (w : nat) (l : list num) : list num :=
  imap (fun i _ => window_mean w (take (S i) l)) l.

(** ** Basic functions *)

(** [safe_float] on a scalar: NaN stays NaN, any other double is itself. *)
Definition safe_float (x : num) : num :=
  if isnan x then NaN else x.

(** A missing row ([IndexError] inside [try], or the empty series) reads as
    NaN. *)
Definition safe_float_last (l : list num) : num :=
  match iloc_neg 1 l with
  | Some v => safe_float v
  | None => NaN
  end.

Definition check_high_volume (df : list Bar) (period : nat) (multiplier : num) : bool :=
  if (length df <? period)%nat then false
  else
    match iloc_neg 1 (column Volume df) with
    | None => false
    | Some v =>
        let last_volume := safe_float v in
        let avg_volume := series_mean (iloc_window period 1 (column Volume df)) in
        (last_volume >? safe_float avg_volume * multiplier)%F
    end.

Definition row_max3 (a b c : num) : num := series_max [a; b; c].

Definition true_range (df : list Bar) : list num :=
  let prev_close := shift (column Close df) in
  let high_low := zip_with fsub (column High df) (column Low df) in
  let high_close := map fabs (zip_with fsub (column High df) prev_close) in
  let low_close := map fabs (zip_with fsub (column Low df) prev_close) in
  zip_with (fun hl p => row_max3 hl p.1 p.2) high_low (zip high_close low_close).

Definition safe_atr (df : list Bar) (period : nat) : num :=
  if (length df <? period + 1)%nat then NaN
  else safe_float_last (rolling_mean period (true_range df)).

(** ** Pivot points *)

(** What [yf.download] hands back: an exception, or a frame with its column
    names and rows. *)
Inductive Download : Type :=
  | DownloadError (e : string)
  | Downloaded (cols : list string) (rows : list Bar).

Definition required_cols : list string :=
  ["Open"; "High"; "Low"; "Close"; "Volume"]%string.

Definition has_required_cols (cols : list string) : bool :=
  forallb (fun c => existsb (String.eqb c) cols) required_cols.

(** [df.empty]: no row or no column. *)
Definition frame_empty (cols : list string) (rows : list Bar) : bool :=
  match cols, rows with
  | [], _ | _, [] => true
  | _, _ => false
  end.

Record Pivots : Type := mkPivots {
  PP : num;
  R1 : num;
  S1 : num;
  df_1d : list Bar;
  error_1d : option string
}.

Definition pivot_formula (H_prev L_prev C_prev : num) : num * num * num :=
  let PP := ((H_prev + L_prev + C_prev) / Fin 3)%F in
  let R1 := (Fin 2 * PP - L_prev)%F in
  let S1 := (Fin 2 * PP - H_prev)%F in
  (PP, R1, S1).

Definition calculate_pivot_points (dl : Download) : Pivots :=
  match dl with
  | DownloadError e => mkPivots NaN NaN NaN [] (Some ("Error descarga: " ++ e)%string)
  | Downloaded cols df =>
      if frame_empty cols df || (length df <? 2)%nat || negb (has_required_cols cols)
      then mkPivots NaN NaN NaN df (Some "Datos insuficientes"%string)
      else
        match iloc_neg 2 df with
        | None => mkPivots NaN NaN NaN df (Some "Error: single positional indexer is out-of-bounds"%string)
        | Some prev =>
            let H_prev := safe_float (High prev) in
            let L_prev := safe_float (Low prev) in
            let C_prev := safe_float (Close prev) in
            if isnan H_prev || isnan L_prev || isnan C_prev
            then mkPivots NaN NaN NaN df (Some "Valores invalidos"%string)
            else
              let '(PP, R1, S1) := pivot_formula H_prev L_prev C_prev in
              mkPivots PP R1 S1 df None
        end
  end.

Definition find_historical_level (df : list Bar) (last_price : num)
    (is_resistance : bool) (lookback_days : nat) : num :=
  if (length df <? 3)%nat then NaN
  else
    let df_history := iloc_window lookback_days 2 df in
    match df_history with
    | [] => NaN
    | _ =>
        if is_resistance then
          let relevant_highs :=
            List.filter (fun h => (h >? last_price)%F) (column High df_history) in
          match relevant_highs with
          | [] => NaN
          | _ => safe_float (series_min relevant_highs)
          end
        else
          let relevant_lows :=
            List.filter (fun l => (l <? last_price)%F) (column Low df_history) in
          match relevant_lows with
          | [] => NaN
          | _ => safe_float (series_max relevant_lows)
          end
    end.

(** ** Technical indicators *)

Definition where_pos (delta : list num) : list num :=
  map (fun d => if (d >? Fin 0)%F then d else Fin 0) delta.

Definition where_neg (delta : list num) : list num :=
  map (fun d => if (d <? Fin 0)%F then d else Fin 0) delta.

Definition calculate_rsi (closes : list num) (period : nat) : num :=
  if (length closes <? period + 1)%nat then NaN
  else
    let delta := diff closes in
    let gain := rolling_mean period (where_pos delta) in
    let loss := rolling_mean period (map fneg (where_neg delta)) in
    let rs := zip_with fdiv gain loss in
    let rsi := map (fun r => (Fin 100 - Fin 100 / (Fin 1 + r))%F) rs in
    safe_float_last rsi.

(** ** Market structure *)

Record Consolidation : Type := mkConsolidation {
  is_consolidating : bool;
  range_pct : num;
  resistance_level : num;
  support_level : num
}.

Definition detect_consolidation (df : list Bar) (lookback : nat) : Consolidation :=
  if (length df <? lookback)%nat then mkConsolidation false (Fin 0) NaN NaN
  else
    let recent := iloc_tail lookback df in
    let highest := series_max (column High recent) in
    let lowest := series_min (column Low recent) in
    let range_pct := ((highest - lowest) / lowest * Fin 100)%F in
    mkConsolidation (range_pct <? Fin 5)%F range_pct highest lowest.

Record Wyckoff : Type := mkWyckoff {
  detected : bool;
  phase : string;
  score : Q;
  signals : list string;
  action : string
}.

(** The five sparse samples [for i in range(-10, 0, 2)]: RSI of the frame
    cut [k] rows short and the close [k] rows from the end, kept when the
    RSI is a number.  The detectors are called on frames of at least
    [lookback = 60] rows, where every sampled row exists. *)
Definition divergence_samples (df : list Bar) : list (num * num) :=
  omap (fun k =>
          let rsi := calculate_rsi (column Close (take (length df - k) df)) 14 in
          match iloc_neg k (column Close df) with
          | Some c =>
              let price := safe_float c in
              if negb (isnan rsi) then Some (rsi, price) else None
          | None => None
          end)
       [10; 8; 6; 4; 2]%nat.

Definition first_last {A} (l : list A) : option (A * A) :=
  match l, last l with
  | x :: _, Some y => Some (x, y)
  | _, _ => None
  end.

Definition price_trend_of (recent : list Bar) : num :=
  match column Close recent, last (column Close recent) with
  | c0 :: _, Some c1 => ((c1 - c0) / c0)%F
  | _, _ => NaN
  end.

Definition volume_decreasing_of (recent : list Bar) (lookback : nat) : bool :=
  let volume_first_half := series_mean (take (lookback / 2) (column Volume recent)) in
  let volume_second_half := series_mean (drop (lookback / 2) (column Volume recent)) in
  (volume_second_half <? volume_first_half)%F.

Definition range_recent_of (recent : list Bar) : num :=
  let last_20_days := iloc_tail 20 recent in
  ((series_max (column High last_20_days) - series_min (column Low last_20_days))
     / series_min (column Low last_20_days) * Fin 100)%F.

Definition detect_accumulation (df : list Bar) (lookback : nat) : Wyckoff :=
  if (length df <? lookback)%nat then mkWyckoff false "NONE" 0 [] ""
  else
    let recent := iloc_tail lookback df in
    let price_trend := price_trend_of recent in
    let volume_decreasing := volume_decreasing_of recent lookback in
    let forming_base := (range_recent_of recent <? Fin 8)%F in
    let samples := divergence_samples df in
    let bullish_divergence :=
      (3 <=? length samples)%nat &&
      match first_last samples with
      | Some ((rsi0, price0), (rsi1, price1)) =>
          (rsi1 >? rsi0)%F && (price1 <? price0)%F
      | None => false
      end in
    let s1 := if (price_trend <? Fin 0)%F || (fabs price_trend <? Fin 0.05)%F
              then (1, ["Precio zona baja"%string]) else (0, []) in
    let s2 := if volume_decreasing
              then (s1.1 + 1, s1.2 ++ ["Volumen decreciente"%string]) else s1 in
    let s3 := if forming_base
              then (s2.1 + 1.5, s2.2 ++ ["Formando base"%string]) else s2 in
    let s4 := if bullish_divergence
              then (s3.1 + 1.5, s3.2 ++ ["Divergencia RSI alcista"%string]) else s3 in
    let accumulation_score := s4.1 in
    let '(phase, action) :=
      if Qleb 3.0 accumulation_score
      then ("STRONG_ACCUMULATION", "ACUMULACION FUERTE - Preparar LONG")%string
      else if Qleb 2.0 accumulation_score
      then ("POSSIBLE_ACCUMULATION", "Posible acumulacion - Monitorear")%string
      else ("NONE", "")%string in
    mkWyckoff (Qleb 2.0 accumulation_score) phase accumulation_score s4.2 action.

Definition detect_distribution (df : list Bar) (lookback : nat) : Wyckoff :=
  if (length df <? lookback)%nat then mkWyckoff false "NONE" 0 [] ""
  else
    let recent := iloc_tail lookback df in
    let price_trend := price_trend_of recent in
    let volume_decreasing := volume_decreasing_of recent lookback in
    let forming_top := (range_recent_of recent <? Fin 8)%F in
    let samples := divergence_samples df in
    let bearish_divergence :=
      (3 <=? length samples)%nat &&
      match first_last samples with
      | Some ((rsi0, price0), (rsi1, price1)) =>
          (rsi1 <? rsi0)%F && (price1 >? price0)%F
      | None => false
      end in
    let s1 := if (price_trend >? Fin 0)%F || (fabs price_trend <? Fin 0.05)%F
              then (1, ["Precio zona alta"%string]) else (0, []) in
    let s2 := if volume_decreasing
              then (s1.1 + 1, s1.2 ++ ["Volumen decreciente"%string]) else s1 in
    let s3 := if forming_top
              then (s2.1 + 1.5, s2.2 ++ ["Formando techo"%string]) else s2 in
    let s4 := if bearish_divergence
              then (s3.1 + 1.5, s3.2 ++ ["Divergencia RSI bajista"%string]) else s3 in
    let distribution_score := s4.1 in
    let '(phase, action) :=
      if Qleb 3.0 distribution_score
      then ("STRONG_DISTRIBUTION", "DISTRIBUCION FUERTE - Preparar SHORT")%string
      else if Qleb 2.0 distribution_score
      then ("POSSIBLE_DISTRIBUTION", "Posible distribucion - Monitorear")%string
      else ("NONE", "")%string in
    mkWyckoff (Qleb 2.0 distribution_score) phase distribution_score s4.2 action.

Record ConsolidationInfo : Type := mkConsolidationInfo {
  ci_is_consolidating : bool;
  ci_range_pct : num;
  ci_resistance : num;
  ci_support : num;
  ci_position : string
}.

Record WyckoffInfo : Type := mkWyckoffInfo {
  wi_detected : bool;
  wi_phase : string;
  wi_score : Q;
  wi_signals : list string
}.

Record MarketStructure : Type := mkMarketStructure {
  primary_phase : string;
  recommendation : string;
  confidence_adjustment : Q;
  consolidation : ConsolidationInfo;
  accumulation : WyckoffInfo;
  distribution : WyckoffInfo
}.

Definition analyze_market_structure (df : list Bar) (last_price : num) : MarketStructure :=
  let c := detect_consolidation df 20 in
  let a := detect_accumulation df 60 in
  let d := detect_distribution df 60 in
  let (is_accum, accum_score) := (detected a, score a) in
  let (is_distrib, distrib_score) := (detected d, score d) in
  let current_price := last_price in
  let accum_info := mkWyckoffInfo is_accum (phase a) accum_score (signals a) in
  let distrib_info := mkWyckoffInfo is_distrib (phase d) distrib_score (signals d) in
  let not_consolidating := mkConsolidationInfo false (Fin 0) NaN NaN "N/A" in
  if is_consolidating c then
    let dist_to_resistance :=
      ((resistance_level c - current_price) / current_price * Fin 100)%F in
    let dist_to_support :=
      ((current_price - support_level c) / current_price * Fin 100)%F in
    let position :=
      if (dist_to_resistance <? Fin 1)%F then "NEAR_RESISTANCE"%string
      else if (dist_to_support <? Fin 1)%F then "NEAR_SUPPORT"%string
      else "MID_RANGE"%string in
    let consol_info :=
      mkConsolidationInfo true (range_pct c) (resistance_level c) (support_level c)
        position in
    if is_accum && Qltb distrib_score accum_score then
      mkMarketStructure "ACCUMULATION_IN_RANGE"
        "Consolidacion con acumulacion - ESPERAR breakout" 0.8
        consol_info accum_info distrib_info
    else if is_distrib && Qltb accum_score distrib_score then
      mkMarketStructure "DISTRIBUTION_IN_RANGE"
        "Consolidacion con distribucion - ESPERAR breakdown" 0.8
        consol_info accum_info distrib_info
    else
      mkMarketStructure "PURE_CONSOLIDATION"
        "CONSOLIDACION PURA - NO OPERAR" 0.5
        consol_info accum_info distrib_info
  else if is_accum && negb is_distrib then
    mkMarketStructure (phase a) (action a)
      (if contains "STRONG" (phase a) then 1.2 else 1.1)
      not_consolidating accum_info distrib_info
  else if is_distrib && negb is_accum then
    mkMarketStructure (phase d) (action d)
      (if contains "STRONG" (phase d) then 1.2 else 1.1)
      not_consolidating accum_info distrib_info
  else
    mkMarketStructure "TRENDING" "Tendencia clara - Operar normal" 1.0
      not_consolidating accum_info distrib_info.

(** ** Gap detection *)

Record Gap : Type := mkGap {
  level : num;
  bottom : num;
  top : num;
  gap_type : string;
  age_days : nat;
  size_pct : num;
  strength : string
}.

Definition strength_of (gap_size_pct : num) : string :=
  if (gap_size_pct >? Fin 2)%F then "STRONG"
  else if (gap_size_pct >? Fin 1)%F then "MEDIUM"
  else "WEAK".

(** [sorted(l, key=...)]: a stable sort that compares keys with [<] only.
    On keys that are totally ordered every stable sort returns the same
    list, so insertion from the right stands for Python's. *)
Fixpoint insert_by {A} (key : A -> num) (x : A) (l : list A) : list A :=
  match l with
  | [] => [x]
  | y :: t => if (key y <? key x)%F then y :: insert_by key x t
              else x :: y :: t
  end.

Definition sorted {A} (key : A -> num) (l : list A) : list A :=
  foldr (insert_by key) [] l.

(** [sorted(l, key=..., reverse=True)]: Python reverses, sorts, reverses
    back, which keeps equal keys in their original order. *)
Definition sorted_reverse {A} (key : A -> num) (l : list A) : list A :=
  rev (sorted key (rev l)).

(** Has some row from index [i] on a low at or under [gap_bottom]? *)
Definition filled_from_above (rows : list Bar) (gap_bottom : num) : bool :=
  existsb (fun b => let check_low := safe_float (Low b) in
                    negb (isnan check_low) && (check_low <=? gap_bottom)%F) rows.

Definition filled_from_below (rows : list Bar) (gap_top : num) : bool :=
  existsb (fun b => let check_high := safe_float (High b) in
                    negb (isnan check_high) && (check_high >=? gap_top)%F) rows.

Definition place_gap (current_price : num) (gap_info : Gap)
    (acc : list Gap * list Gap) : list Gap * list Gap :=
  if (level gap_info >? current_price)%F then (acc.1 ++ [gap_info], acc.2)
  else if (level gap_info <? current_price)%F then (acc.1, acc.2 ++ [gap_info])
  else acc.

(** The body of the loop [for i in range(1, len(df_recent))] up to the two
    [append]s: the gap record built at row [i], if the pair is an unfilled
    gap.  An exception in the body (a missing row, a division by zero) is
    [continue], so it builds nothing. *)
Definition gap_at (df_recent : list Bar) (i : nat) : option Gap :=
  match df_recent !! (i - 1)%nat, df_recent !! i with
  | Some prev, Some curr =>
      let prev_close := safe_float (Close prev) in
      let prev_high := safe_float (High prev) in
      let prev_low := safe_float (Low prev) in
      let curr_open := safe_float (Open curr) in
      let curr_high := safe_float (High curr) in
      let curr_low := safe_float (Low curr) in
      if existsb isnan [prev_close; curr_open; prev_high; prev_low; curr_high; curr_low]
      then None
      else if (curr_low >? prev_high)%F then
        let gap_bottom := prev_high in
        let gap_top := curr_low in
        if filled_from_above (drop i df_recent) gap_bottom then None
        else
          let gap_mid := ((gap_bottom + gap_top) / Fin 2)%F in
          match pydiv (gap_top - gap_bottom)%F gap_bottom with
          | None => None
          | Some r =>
              let gap_size_pct := (r * Fin 100)%F in
              Some (mkGap gap_mid gap_bottom gap_top "GAP_UP"
                      (length df_recent - i) gap_size_pct (strength_of gap_size_pct))
          end
      else if (curr_high <? prev_low)%F then
        let gap_top := prev_low in
        let gap_bottom := curr_high in
        if filled_from_below (drop i df_recent) gap_top then None
        else
          let gap_mid := ((gap_bottom + gap_top) / Fin 2)%F in
          match pydiv (gap_top - gap_bottom)%F gap_bottom with
          | None => None
          | Some r =>
              let gap_size_pct := (r * Fin 100)%F in
              Some (mkGap gap_mid gap_bottom gap_top "GAP_DOWN"
                      (length df_recent - i) gap_size_pct (strength_of gap_size_pct))
          end
      else None
  | _, _ => None
  end.

(** One turn of the loop on the pair of lists. *)
Definition scan_pair (df_recent : list Bar) (current_price : num)
    (acc : list Gap * list Gap) (i : nat) : list Gap * list Gap :=
  match gap_at df_recent i with
  | Some gap_info => place_gap current_price gap_info acc
  | None => acc
  end.

(** [df.iloc[-lookback_days:] if len(df) >= lookback_days else df] *)
Definition recent_rows (df : list Bar) (lookback_days : nat) : list Bar :=
  if (lookback_days <=? length df)%nat then iloc_tail lookback_days df else df.

Definition find_all_gaps_comprehensive (df : list Bar) (current_price : num)
    (lookback_days : nat) : list Gap * list Gap :=
  if (length df <? 3)%nat then ([], [])
  else
    let df_recent := recent_rows df lookback_days in
    let '(gaps_above, gaps_below) :=
      foldl (scan_pair df_recent current_price) ([], [])
        (seq 1 (length df_recent - 1)) in
    (sorted level gaps_above, sorted_reverse level gaps_below).

Record RecentGap : Type := mkRecentGap {
  rg_level : num;
  rg_type : string;
  rg_size_pct : num;
  rg_age_days : nat;
  rg_direction : string
}.

Definition GAP_THRESHOLD_PCT : num := Fin 0.3.

(** One turn of [for i in range(-7, 0)] with [i = -k]. *)
Definition recent_gap_at (df : list Bar) (last_price : num) (k : nat)
    : option RecentGap :=
  if (length df <? k)%nat then None
  else
    match iloc_neg (S k) df, iloc_neg k df with
    | Some prev, Some curr =>
        let prev_close := safe_float (Close prev) in
        let prev_high := safe_float (High prev) in
        let prev_low := safe_float (Low prev) in
        let curr_open := safe_float (Open curr) in
        let curr_low := safe_float (Low curr) in
        let curr_high := safe_float (High curr) in
        if existsb isnan [prev_close; curr_open; prev_high; prev_low; curr_high; curr_low]
        then None
        else if (curr_low >? prev_high)%F then
          match pydiv (curr_low - prev_high)%F prev_high with
          | None => None
          | Some r =>
              let gap_size_pct := (r * Fin 100)%F in
              if (gap_size_pct >? GAP_THRESHOLD_PCT)%F then
                let gap_filled := filled_from_above (iloc_tail k df) prev_high in
                if negb gap_filled && (prev_high <? last_price)%F
                then Some (mkRecentGap prev_high "GAP_UP" gap_size_pct k "DOWN_TO_FILL")
                else None
              else None
          end
        else if (curr_high <? prev_low)%F then
          match pydiv (prev_low - curr_high)%F curr_high with
          | None => None
          | Some r =>
              let gap_size_pct := (r * Fin 100)%F in
              if (gap_size_pct >? GAP_THRESHOLD_PCT)%F then
                let gap_filled := filled_from_below (iloc_tail k df) prev_low in
                if negb gap_filled && (prev_low >? last_price)%F
                then Some (mkRecentGap prev_low "GAP_DOWN" gap_size_pct k "UP_TO_FILL")
                else None
              else None
          end
        else None
    | _, _ => None
    end.

Definition detect_cme_gap_improved (df : list Bar) (last_price : num)
    : string * num * list RecentGap :=
  if (length df <? 5)%nat then ("NO_GAP"%string, NaN, [])
  else
    let recent_gaps := omap (recent_gap_at df last_price) [7; 6; 5; 4; 3; 2; 1]%nat in
    match sorted (fun g => fabs (rg_level g - last_price)%F) recent_gaps with
    | [] => ("NO_GAP"%string, NaN, [])
    | closest_gap :: rest =>
        if String.eqb (rg_direction closest_gap) "DOWN_TO_FILL"
        then ("SHORT_TO_FILL"%string, rg_level closest_gap, closest_gap :: rest)
        else if String.eqb (rg_direction closest_gap) "UP_TO_FILL"
        then ("LONG_TO_FILL"%string, rg_level closest_gap, closest_gap :: rest)
        else ("NO_GAP"%string, NaN, [])
    end.

(** ** Level validation *)

Definition validate_levels (decision : string) (entry_p sl_p tp1_p tp2_p atr : num)
    : num * num * num * num :=
  if isnan entry_p || isnan atr then (entry_p, sl_p, tp1_p, tp2_p)
  else if contains "SHORT" decision then
    let sl_p := if negb (isnan sl_p) && (sl_p <=? entry_p)%F
                then (entry_p + atr * Fin 1.5)%F else sl_p in
    let tp1_p := if negb (isnan tp1_p) && (tp1_p >=? entry_p)%F
                 then (entry_p - atr * Fin 1)%F else tp1_p in
    let tp2_p :=
      if negb (isnan tp2_p) then
        let tp2_p := if (tp2_p >=? entry_p)%F then (entry_p - atr * Fin 2)%F else tp2_p in
        if negb (isnan tp1_p) && (tp2_p >=? tp1_p)%F
        then (tp1_p - atr * Fin 1)%F else tp2_p
      else tp2_p in
    (entry_p, sl_p, tp1_p, tp2_p)
  else if contains "LONG" decision then
    let sl_p := if negb (isnan sl_p) && (sl_p >=? entry_p)%F
                then (entry_p - atr * Fin 1.5)%F else sl_p in
    let tp1_p := if negb (isnan tp1_p) && (tp1_p <=? entry_p)%F
                 then (entry_p + atr * Fin 1)%F else tp1_p in
    let tp2_p :=
      if negb (isnan tp2_p) then
        let tp2_p := if (tp2_p <=? entry_p)%F then (entry_p + atr * Fin 2)%F else tp2_p in
        if negb (isnan tp1_p) && (tp2_p <=? tp1_p)%F
        then (tp1_p + atr * Fin 1)%F else tp2_p
      else tp2_p in
    (entry_p, sl_p, tp1_p, tp2_p)
  else (entry_p, sl_p, tp1_p, tp2_p).

(** The TP3 step that follows [validate_levels] in [analyze_pre_ny]. *)
Definition fix_tp3 (decision : string) (tp2_p tp3_p atr : num) : num :=
  if contains "SHORT" decision && negb (isnan tp3_p) then
    if negb (isnan tp2_p) && (tp3_p >=? tp2_p)%F
    then (tp2_p - atr * Fin 1)%F else tp3_p
  else if contains "LONG" decision && negb (isnan tp3_p) then
    if negb (isnan tp2_p) && (tp3_p <=? tp2_p)%F
    then (tp2_p + atr * Fin 1)%F else tp3_p
  else tp3_p.

(** ** The analysis of one instrument (version 3) *)

(** The signal labels of [analyze_technical_indicators]; its numeric fields
    are only displayed.  The function downloads its own series, so its
    result is an input here. *)
Record Indicators : Type := mkIndicators {
  rsi_signal : string;
  macd_signal : string;
  ema_signal : string
}.

Definition str_in (x : string) (l : list string) : bool :=
  existsb (String.eqb x) l.

(** [f"{q:.1f}"] on an exact value: round to one decimal, ties to even. *)
Definition round_half_even (q : Q) : Z :=
  let f := Qfloor q in
  let r := q - inject_Z f in
  if Qltb r (1#2) then f
  else if Qltb (1#2) r then (f + 1)%Z
  else if Z.even f then f else (f + 1)%Z.

Definition digits (z : Z) : string :=
  NilZero.string_of_uint (N.to_uint (Z.to_N z)).

Definition format_1f (q : Q) : string :=
  let t := round_half_even (Qabs q * 10) in
  ((if Qltb q 0 then "-" else "") ++ digits (t / 10) ++ "." ++ digits (t mod 10))%string.

Record Levels : Type := mkLevels {
  lv_decision : string;
  lv_confidence : Q;
  lv_indicator_score : Q;
  lv_entry : num;
  lv_sl : num;
  lv_tp1 : num;
  lv_tp2 : num;
  lv_tp3 : num
}.

(** What one analysis hands to the report. *)
Record TradePlan : Type := mkTradePlan {
  decision : string;
  confidence_before_structure : Q;
  confidence : Q;
  confidence_pct : Q;
  indicator_score : Q;
  entry_p : num;
  sl_p : num;
  tp1_p : num;
  tp2_p : num;
  tp3_p : num;
  atr_used : num;
  structure : MarketStructure
}.

(** [Raised] is an exception that leaves [analyze_pre_ny]; [ErrorText] is
    the string it returns instead of a plan. *)
Inductive Outcome : Type :=
  | Raised
  | ErrorText (msg : string)
  | Plan (p : TradePlan).

Definition py_min (a b : Q) : Q := if Qltb b a then b else a.

Definition gap_short_branch (PP R1 S1 last_price atr gap_level R2_hist S2_hist : num)
    (high_volume : bool) (indicators : Indicators) (gaps_below : list Gap) : Levels :=
  let confidence := 0 + 2.0 in
  let sl_p :=
    if (R1 >? last_price)%F then R1
    else if negb (isnan R2_hist) && (R2_hist >? last_price)%F then R2_hist
    else (last_price + atr * Fin 1.5)%F in
  let tp1_p := gap_level in
  let tp2_p := S1 in
  let fallback :=
    if negb (isnan S2_hist) && (S2_hist <? tp2_p)%F then S2_hist
    else (tp2_p - atr * Fin 2)%F in
  let tp3_p :=
    match gaps_below with
    | _ :: _ =>
        let strong_gaps :=
          List.filter (fun g => str_in (strength g) ["STRONG"; "MEDIUM"]%string
                                && (level g <? tp2_p)%F) gaps_below in
        match strong_gaps with
        | g :: _ => level g
        | [] => fallback
        end
    | [] => fallback
    end in
  let price_above_pp := (last_price >? PP)%F in
  let confidence := if price_above_pp then confidence + 1.0 else confidence - 0.5 in
  let indicator_score := 0.0 in
  let indicator_score :=
    if str_in (rsi_signal indicators) ["OVERBOUGHT"; "BEARISH_ZONE"]%string
    then indicator_score
         + (if String.eqb (rsi_signal indicators) "OVERBOUGHT" then 1.0 else 0.5)
    else indicator_score - 0.5 in
  let indicator_score :=
    if str_in (macd_signal indicators) ["BEARISH_CROSS"; "BEARISH"]%string
    then indicator_score
         + (if String.eqb (macd_signal indicators) "BEARISH_CROSS" then 1.0 else 0.5)
    else if str_in (macd_signal indicators) ["BULLISH_CROSS"; "BULLISH"]%string
    then indicator_score - 0.5
    else indicator_score in
  let indicator_score :=
    if str_in (ema_signal indicators) ["BELOW_STRONG"; "BELOW"]%string
    then indicator_score + 0.5 else indicator_score in
  let confidence := confidence + indicator_score in
  let confidence := confidence + (if high_volume then 1 else 0) in
  let min_confidence := 3.0 in
  let ATR_TOLERANCE :=
    if negb (isnan atr) && (atr >? Fin 0)%F then (atr * Fin 0.5)%F
    else (last_price * Fin 0.001)%F in
  if Qleb min_confidence confidence && Qleb 0 indicator_score then
    if (last_price >=? PP)%F || (fabs (last_price - PP) <? ATR_TOLERANCE)%F then
      mkLevels (if Qleb 4.5 confidence
                then "SHORT_FUERTE (Activacion Inmediata)"
                else "SHORT_MODERADO (Activacion Inmediata)")
        confidence indicator_score last_price sl_p tp1_p tp2_p tp3_p
    else
      mkLevels "SHORT_PENDIENTE (Esperar Retroceso a PP)"
        confidence indicator_score PP sl_p tp1_p tp2_p tp3_p
  else
    mkLevels ("NO_OPERAR (Gap SHORT detectado pero confianza baja: "
                ++ format_1f confidence ++ "/6.0)")
      confidence indicator_score NaN sl_p tp1_p tp2_p tp3_p.

Definition gap_long_branch (PP R1 S1 last_price atr gap_level R2_hist S2_hist : num)
    (high_volume : bool) (indicators : Indicators) (gaps_above : list Gap) : Levels :=
  let confidence := 0 + 2.0 in
  let sl_p :=
    if (S1 <? last_price)%F then S1
    else if negb (isnan S2_hist) && (S2_hist <? last_price)%F then S2_hist
    else (last_price - atr * Fin 1.5)%F in
  let tp1_p := gap_level in
  let tp2_p := R1 in
  let fallback :=
    if negb (isnan R2_hist) && (R2_hist >? tp2_p)%F then R2_hist
    else (tp2_p + atr * Fin 2)%F in
  let tp3_p :=
    match gaps_above with
    | _ :: _ =>
        let strong_gaps :=
          List.filter (fun g => str_in (strength g) ["STRONG"; "MEDIUM"]%string
                                && (level g >? tp2_p)%F) gaps_above in
        match strong_gaps with
        | g :: _ => level g
        | [] => fallback
        end
    | [] => fallback
    end in
  let price_below_pp := (last_price <? PP)%F in
  let confidence := if price_below_pp then confidence + 1.0 else confidence - 0.5 in
  let indicator_score := 0.0 in
  let indicator_score :=
    if str_in (rsi_signal indicators) ["OVERSOLD"; "BULLISH_ZONE"]%string
    then indicator_score
         + (if String.eqb (rsi_signal indicators) "OVERSOLD" then 1.0 else 0.5)
    else indicator_score - 0.5 in
  let indicator_score :=
    if str_in (macd_signal indicators) ["BULLISH_CROSS"; "BULLISH"]%string
    then indicator_score
         + (if String.eqb (macd_signal indicators) "BULLISH_CROSS" then 1.0 else 0.5)
    else if str_in (macd_signal indicators) ["BEARISH_CROSS"; "BEARISH"]%string
    then indicator_score - 0.5
    else indicator_score in
  let indicator_score :=
    if str_in (ema_signal indicators) ["ABOVE_STRONG"; "ABOVE"]%string
    then indicator_score + 0.5 else indicator_score in
  let confidence := confidence + indicator_score in
  let confidence := confidence + (if high_volume then 1 else 0) in
  let min_confidence := 3.0 in
  let ATR_TOLERANCE :=
    if negb (isnan atr) && (atr >? Fin 0)%F then (atr * Fin 0.5)%F
    else (last_price * Fin 0.001)%F in
  if Qleb min_confidence confidence && Qleb 0 indicator_score then
    if (last_price <=? PP)%F || (fabs (last_price - PP) <? ATR_TOLERANCE)%F then
      mkLevels (if Qleb 4.5 confidence
                then "LONG_FUERTE (Activacion Inmediata)"
                else "LONG_MODERADO (Activacion Inmediata)")
        confidence indicator_score last_price sl_p tp1_p tp2_p tp3_p
    else
      mkLevels "LONG_PENDIENTE (Esperar Retroceso a PP)"
        confidence indicator_score PP sl_p tp1_p tp2_p tp3_p
  else
    mkLevels ("NO_OPERAR (Gap LONG detectado pero confianza baja: "
                ++ format_1f confidence ++ "/6.0)")
      confidence indicator_score NaN sl_p tp1_p tp2_p tp3_p.

(** The [NO_GAP] branch.  [None] is the [ZeroDivisionError] of a distance
    relative to a zero price. *)
Definition near_price (g : Gap) (last_price : num) : option bool :=
  r ← pydiv (fabs (level g - last_price)%F) last_price;
  Some (r <? Fin 0.02)%F.

Definition no_signal : Levels :=
  mkLevels "NO_OPERAR (Sin Señal Clara)" 0 0.0 NaN NaN NaN NaN NaN.

Definition bearish_points (indicators : Indicators) : Q :=
  let indicator_score := 0.0 in
  let indicator_score :=
    if str_in (rsi_signal indicators) ["OVERBOUGHT"; "BEARISH_ZONE"]%string
    then indicator_score + 1.0 else indicator_score in
  if str_in (macd_signal indicators) ["BEARISH_CROSS"; "BEARISH"]%string
  then indicator_score + 1.0 else indicator_score.

Definition bullish_points (indicators : Indicators) : Q :=
  let indicator_score := 0.0 in
  let indicator_score :=
    if str_in (rsi_signal indicators) ["OVERSOLD"; "BULLISH_ZONE"]%string
    then indicator_score + 1.0 else indicator_score in
  if str_in (macd_signal indicators) ["BULLISH_CROSS"; "BULLISH"]%string
  then indicator_score + 1.0 else indicator_score.

Definition head_near (gaps : list Gap) (last_price : num) : option bool :=
  match gaps with
  | [] => Some false
  | g :: _ => near_price g last_price
  end.

Definition no_gap_branch (PP R1 S1 last_price atr R2_hist S2_hist : num)
    (strong_resistance strong_support high_volume : bool)
    (indicators : Indicators) (gaps_above gaps_below : list Gap) : option Levels :=
  near_above ← (head_near gaps_above last_price : option bool);
  if (near_above : bool) then
    let confidence := 0 + 1.5 in
    let sl_p := (default NaN (top <$> head gaps_above) + atr * Fin 0.5)%F in
    let tp1_p := if (PP <? last_price)%F then PP else (last_price - atr * Fin 2)%F in
    let tp2_p := S1 in
    let tp3_p := match gaps_below with g :: _ => level g | [] => S2_hist end in
    let indicator_score := bearish_points indicators in
    let confidence := confidence + indicator_score in
    if Qleb 3.0 confidence
    then Some (mkLevels "SHORT_GAP_HISTORICO (Resistencia)"
                 confidence indicator_score last_price sl_p tp1_p tp2_p tp3_p)
    else Some (mkLevels (lv_decision no_signal)
                 confidence indicator_score NaN sl_p tp1_p tp2_p tp3_p)
  else
    near_below ← (head_near gaps_below last_price : option bool);
    if (near_below : bool) then
      let confidence := 0 + 1.5 in
      let sl_p := (default NaN (bottom <$> head gaps_below) - atr * Fin 0.5)%F in
      let tp1_p := if (PP >? last_price)%F then PP else (last_price + atr * Fin 2)%F in
      let tp2_p := R1 in
      let tp3_p := match gaps_above with g :: _ => level g | [] => R2_hist end in
      let indicator_score := bullish_points indicators in
      let confidence := confidence + indicator_score in
      if Qleb 3.0 confidence
      then Some (mkLevels "LONG_GAP_HISTORICO (Soporte)"
                   confidence indicator_score last_price sl_p tp1_p tp2_p tp3_p)
      else Some (mkLevels (lv_decision no_signal)
                   confidence indicator_score NaN sl_p tp1_p tp2_p tp3_p)
    else if strong_resistance && (last_price >=? R2_hist)%F then
      let confidence := 0 + 1.5 in
      let sl_p := (R2_hist + atr * Fin 1)%F in
      let tp1_p := PP in
      let tp2_p := S1 in
      let tp3_p := if negb (isnan S2_hist) then S2_hist else (S1 - atr * Fin 2)%F in
      let indicator_score := bearish_points indicators in
      let confidence := confidence + (indicator_score + (if high_volume then 1 else 0)) in
      if Qleb 3.5 confidence
      then Some (mkLevels "SHORT_RESISTENCIA (Nivel Historico)"
                   confidence indicator_score last_price sl_p tp1_p tp2_p tp3_p)
      else Some (mkLevels (lv_decision no_signal)
                   confidence indicator_score NaN sl_p tp1_p tp2_p tp3_p)
    else if strong_support && (last_price <=? S2_hist)%F then
      let confidence := 0 + 1.5 in
      let sl_p := (S2_hist - atr * Fin 1)%F in
      let tp1_p := PP in
      let tp2_p := R1 in
      let tp3_p := if negb (isnan R2_hist) then R2_hist else (R1 + atr * Fin 2)%F in
      let indicator_score := bullish_points indicators in
      let confidence := confidence + (indicator_score + (if high_volume then 1 else 0)) in
      if Qleb 3.5 confidence
      then Some (mkLevels "LONG_SOPORTE (Nivel Historico)"
                   confidence indicator_score last_price sl_p tp1_p tp2_p tp3_p)
      else Some (mkLevels (lv_decision no_signal)
                   confidence indicator_score NaN sl_p tp1_p tp2_p tp3_p)
    else Some no_signal.

(** [not np.isnan(level) and abs(last_price - level) / last_price < 0.01] *)
Definition strong_level (hist last_price : num) : option bool :=
  if isnan hist then Some false
  else r ← pydiv (fabs (last_price - hist)%F) last_price; Some (r <? Fin 0.01)%F.

Definition max_score : Q := 6.

(** The branch on [gap_signal]: decision, raw confidence and raw levels, or
    [None] when a distance relative to a zero price raises. *)
Definition branch_levels (gap_signal : string)
    (PP R1 S1 last_price atr gap_level R2_hist S2_hist : num)
    (strong_resistance strong_support high_volume : bool)
    (indicators : Indicators) (gaps_above gaps_below : list Gap) : option Levels :=
  if String.eqb gap_signal "SHORT_TO_FILL" then
    Some (gap_short_branch PP R1 S1 last_price atr gap_level R2_hist S2_hist
            high_volume indicators gaps_below)
  else if String.eqb gap_signal "LONG_TO_FILL" then
    Some (gap_long_branch PP R1 S1 last_price atr gap_level R2_hist S2_hist
            high_volume indicators gaps_above)
  else if String.eqb gap_signal "NO_GAP" then
    no_gap_branch PP R1 S1 last_price atr R2_hist S2_hist
      strong_resistance strong_support high_volume indicators
      gaps_above gaps_below
  else Some no_signal.

(** From the branch's levels to the plan: [validate_levels], the TP3 step,
    the structure multiplier and the percentage. *)
Definition finish (lv : Levels) (atr : num) (market_structure : MarketStructure)
    : TradePlan :=
  let '(entry_p, sl_p, tp1_p, tp2_p) :=
    validate_levels (lv_decision lv) (lv_entry lv) (lv_sl lv) (lv_tp1 lv)
      (lv_tp2 lv) atr in
  let tp3_p := fix_tp3 (lv_decision lv) tp2_p (lv_tp3 lv) atr in
  let confidence_before_structure := lv_confidence lv in
  let confidence := lv_confidence lv * confidence_adjustment market_structure in
  let confidence_pct := py_min 100 (confidence / max_score * 100) in
  mkTradePlan (lv_decision lv) confidence_before_structure
    confidence confidence_pct (lv_indicator_score lv)
    entry_p sl_p tp1_p tp2_p tp3_p atr market_structure.

(** Everything after the last price is known.  The report prints the
    distances [(R1 - last_price) / last_price], which raise on a zero
    price.  It also prints the distance to the 200-day EMA, a division
    that raises when that average is exactly zero; the numbers of the
    indicators are displayed only and are not part of [Indicators], so
    that exception is outside this model. *)
Definition decide_and_validate (PP R1 S1 : num) (data_1d : list Bar)
    (last_price atr : num) (high_volume : bool) (indicators : Indicators)
    : Outcome :=
  let '(gap_signal, gap_level, _) := detect_cme_gap_improved data_1d last_price in
  let market_structure := analyze_market_structure data_1d last_price in
  let '(gaps_above, gaps_below) :=
    find_all_gaps_comprehensive data_1d last_price 120 in
  let R2_hist := find_historical_level data_1d last_price true 100 in
  let S2_hist := find_historical_level data_1d last_price false 100 in
  match strong_level R2_hist last_price, strong_level S2_hist last_price with
  | Some strong_resistance, Some strong_support =>
      match branch_levels gap_signal PP R1 S1 last_price atr gap_level
              R2_hist S2_hist strong_resistance strong_support high_volume
              indicators gaps_above gaps_below with
      | None => Raised
      | Some lv =>
          match pydiv (R1 - last_price)%F last_price with
          | None => Raised
          | Some _ => Plan (finish lv atr market_structure)
          end
      end
  | _, _ => Raised
  end.

Definition row_complete (b : Bar) : bool :=
  negb (existsb isnan [Open b; High b; Low b; Close b; Volume b]).

Definition analyze_pre_ny (symbol : string) (dl_5m dl_4h dl_1d : Download)
    (indicators : Indicators) : Outcome :=
  match dl_5m, dl_4h with
  | DownloadError e, _ | Downloaded _ _, DownloadError e =>
      ErrorText ("Error de Conexion/API (5m) para " ++ symbol ++ ": " ++ e)
  | Downloaded cols_5m rows_5m, Downloaded _ _ =>
      if frame_empty cols_5m rows_5m || negb (has_required_cols cols_5m) then
        ErrorText ("Error de Datos 5m para " ++ symbol
                     ++ ": DataFrame vacio o incompleto.")
      else
        let data_5m := List.filter row_complete rows_5m in
        let pv := calculate_pivot_points dl_1d in
        match error_1d pv with
        | Some err =>
            ErrorText ("Error de Pivotes (1D) para " ++ symbol ++ ": " ++ err)
        | None =>
            if (length data_5m =? 0)%nat || isnan (PP pv) || (length data_5m <? 3)%nat
            then ErrorText ("Datos insuficientes para " ++ symbol ++ ".")
            else
              let last_price := safe_float_last (column Close data_5m) in
              if isnan last_price then
                ErrorText ("Error al extraer precio/tiempo para " ++ symbol
                             ++ ": Precio final invalido.")
              else
                let atr := safe_atr data_5m 14 in
                let high_volume := check_high_volume data_5m 20 (Fin 1.5) in
                decide_and_validate (PP pv) (R1 pv) (S1 pv) (df_1d pv)
                  last_price atr high_volume indicators
        end
  end.

(** ** The confidence of the first script

    [ESTRATEGIA_TRADING_GAP_FILL.py] accumulates [confidence] along the same
    branches with its own weights and no penalty; what follows is that
    accumulation as a function of what it reads. *)
Module V1.

Definition max_score : Q := 5.

Definition graded (signal strong weak : string) : Q :=
  if str_in signal [strong; weak] then
    (if String.eqb signal strong then 1.0 else 0.5)
  else 0.

Definition bearish_score (indicators : Indicators) : Q :=
  0.0 + graded (rsi_signal indicators) "OVERBOUGHT" "BEARISH_ZONE"
      + graded (macd_signal indicators) "BEARISH_CROSS" "BEARISH"
      + graded (ema_signal indicators) "BELOW_STRONG" "BELOW".

Definition bullish_score (indicators : Indicators) : Q :=
  0.0 + graded (rsi_signal indicators) "OVERSOLD" "BULLISH_ZONE"
      + graded (macd_signal indicators) "BULLISH_CROSS" "BULLISH"
      + graded (ema_signal indicators) "ABOVE_STRONG" "ABOVE".

Definition confidence (gap_signal : string) (PP last_price R2_hist S2_hist : num)
    (strong_resistance strong_support high_volume : bool)
    (indicators : Indicators) : Q :=
  let volume := if high_volume then 1 else 0 in
  if String.eqb gap_signal "SHORT_TO_FILL" then
    0 + 1 + (if (last_price >? PP)%F then 1 else 0) + bearish_score indicators + volume
  else if String.eqb gap_signal "LONG_TO_FILL" then
    0 + 1 + (if (last_price <? PP)%F then 1 else 0) + bullish_score indicators + volume
  else if String.eqb gap_signal "NO_GAP" then
    if strong_resistance && (last_price >=? R2_hist)%F then
      0 + 1.5 + (if (last_price >? PP)%F then 1.0 else 0)
        + bearish_score indicators + volume
    else if strong_support && (last_price <=? S2_hist)%F then
      0 + 1.5 + (if (last_price <? PP)%F then 1.0 else 0)
        + bullish_score indicators + volume
    else 0
  else 0.

Definition confidence_pct (confidence : Q) : Q :=
  py_min 100 (confidence / max_score * 100).

End V1.

(** ** Level ordering *)

(** The two steps [validate_levels] and the TP3 step are built from: a
    level [x] at or above the reference is moved [k] ATRs under it, and
    the mirror. *)
Definition lowered (ref x : num) (a k : Q) : num :=
  if negb (isnan ref) && (x >=? ref)%F then (ref - Fin a * Fin k)%F else x.

Definition raised (ref x : num) (a k : Q) : num :=
  if negb (isnan ref) && (x <=? ref)%F then (ref + Fin a * Fin k)%F else x.

(** The ordering of a SHORT plan around the entry [e], on those levels
    that are numbers: stop above the entry, targets under it and
    descending. *)
Definition short_ordered (e : Q) (sl tp1 tp2 tp3 : num) : Prop :=
  (forall s, sl = Fin s -> e < s) /\
  (forall t1, tp1 = Fin t1 -> t1 < e) /\
  (forall t2, tp2 = Fin t2 -> t2 < e) /\
  (forall t1 t2, tp1 = Fin t1 -> tp2 = Fin t2 -> t2 < t1) /\
  (forall t2 t3, tp2 = Fin t2 -> tp3 = Fin t3 -> t3 < t2).

Definition long_ordered (e : Q) (sl tp1 tp2 tp3 : num) : Prop :=
  (forall s, sl = Fin s -> s < e) /\
  (forall t1, tp1 = Fin t1 -> e < t1) /\
  (forall t2, tp2 = Fin t2 -> e < t2) /\
  (forall t1 t2, tp1 = Fin t1 -> tp2 = Fin t2 -> t1 < t2) /\
  (forall t2 t3, tp2 = Fin t2 -> tp3 = Fin t3 -> t2 < t3).

(** ** RSI *)

(** The value [calculate_rsi] returns on a frame that is long enough. *)
Definition rsi_of (avg_gain avg_loss : num) : num :=
  (Fin 100 - Fin 100 / (Fin 1 + avg_gain / avg_loss))%F.

(** Zero or more, possibly infinite. *)
Definition nonneg (x : num) : Prop :=
  match x with
  | Fin q => 0 <= q
  | PInf => True
  | _ => False
  end.


(** ** Phases *)

(** The score of either detector from its four signals. *)
Definition weighted (c1 c2 c3 c4 : bool) : Q :=
  let s1 := if c1 then 1 else 0 in
  let s2 := if c2 then s1 + 1 else s1 in
  let s3 := if c3 then s2 + 1.5 else s2 in
  if c4 then s3 + 1.5 else s3.

(** The labels [primary_phase] can take. *)
Definition market_phases : list string :=
  ["PURE_CONSOLIDATION"; "ACCUMULATION_IN_RANGE"; "DISTRIBUTION_IN_RANGE";
   "STRONG_ACCUMULATION"; "POSSIBLE_ACCUMULATION";
   "STRONG_DISTRIBUTION"; "POSSIBLE_DISTRIBUTION"; "TRENDING"]%string.

(** ** Gap lists *)

(** Sorted by rising, respectively falling, key. *)
Definition ascending {A} (key : A -> num) (l : list A) : Prop :=
  StronglySorted (fun a b => (key a <=? key b)%F = true) l.

Definition descending {A} (key : A -> num) (l : list A) : Prop :=
  StronglySorted (fun a b => (key b <=? key a)%F = true) l.

(** The two tests of [place_gap]. *)
Definition is_above (price : num) (g : Gap) : bool := (level g >? price)%F.
Definition is_below (price : num) (g : Gap) : bool :=
  negb (level g >? price)%F && (level g <? price)%F.

(** The gap of pair [i] is in one of the two lists: rows carry the age
    [len(df_recent) - i], which names the pair. *)
Definition reported (i : nat) (rec : list Bar) (gaps : list Gap * list Gap) : Prop :=
  exists g, In g (gaps.1 ++ gaps.2) /\ age_days g = (length rec - i)%nat.

(** None of the six values the loop reads from a pair is NaN. *)
Definition pair_is_numeric (prev curr : Bar) : bool :=
  negb (existsb isnan
          [Close prev; Open curr; High prev; Low prev; High curr; Low curr]).

Definition gap_up_record (rec : list Bar) (i : nat) (prev curr : Bar) (g : Gap) : Prop :=
  age_days g = (length rec - i)%nat /\ gap_type g = "GAP_UP"%string /\
  bottom g = High prev /\ top g = Low curr /\
  level g = ((High prev + Low curr) / Fin 2)%F.

Definition gap_down_record (rec : list Bar) (i : nat) (prev curr : Bar) (g : Gap) : Prop :=
  age_days g = (length rec - i)%nat /\ gap_type g = "GAP_DOWN"%string /\
  bottom g = High curr /\ top g = Low prev /\
  level g = ((High curr + Low prev) / Fin 2)%F.

(** ** Exponential averages and MACD *)

(** [Series.ewm(span=span, adjust=False).mean()], as pandas computes it
    row by row.  The state is the running average [weighted] and the weight
    [old_wt] of what it has seen; a NaN row leaves the average and ages
    its weight; a first value after only NaN rows starts the average. *)
Record EwmState : Type := mkEwmState {
  ewm_weighted : num;
  ewm_old_wt : Q
}.

Definition ewm_alpha (span : nat) : Q :=
  2 / (inject_Z (Z.of_nat span) + 1).

Definition ewm_step (alpha : Q) (st : EwmState) (cur : num) : EwmState :=
  let is_observation := negb (isnan cur) in
  if negb (isnan (ewm_weighted st)) then
    let old_wt := ewm_old_wt st * (1 - alpha) in
    if is_observation then
      let weighted :=
        if negb (feqb (ewm_weighted st) cur)
        then ((Fin old_wt * ewm_weighted st + Fin alpha * cur)
                / Fin (old_wt + alpha))%F
        else ewm_weighted st in
      mkEwmState weighted 1
    else mkEwmState (ewm_weighted st) old_wt
  else if is_observation then mkEwmState cur (ewm_old_wt st)
  else st.

Fixpoint ewm_rows (alpha : Q) (st : EwmState) (vals : list num) : list num :=
  match vals with
  | [] => []
  | cur :: rest =>
      let st' := ewm_step alpha st cur in
      ewm_weighted st' :: ewm_rows alpha st' rest
  end.

(** [None] is the [ValueError] of a span under 1. *)
Definition ewm_mean (span : nat) (vals : list num) : option (list num) :=
  match span with
  | O => None
  | _ =>
      match vals with
      | [] => Some []
      | v0 :: rest =>
          Some (v0 :: ewm_rows (ewm_alpha span) (mkEwmState v0 1) rest)
      end
  end.

Definition calculate_ema (closes : list num) (period : nat) : num :=
  if (length closes <? period)%nat then NaN
  else
    match ewm_mean period closes with
    | None => NaN
    | Some ema => safe_float_last ema
    end.

Record Macd : Type := mkMacd {
  macd_line : num;
  signal_line : num;
  histogram : num;
  cross_signal : string
}.

Definition macd_unavailable : Macd := mkMacd NaN NaN NaN "NEUTRAL"%string.

Definition calculate_macd (closes : list num) (fast slow signal : nat) : Macd :=
  if (length closes <? slow + signal)%nat then macd_unavailable
  else
    match ewm_mean fast closes, ewm_mean slow closes with
    | Some exp1, Some exp2 =>
        let macd_line := zip_with fsub exp1 exp2 in
        match ewm_mean signal macd_line with
        | Some signal_line =>
            let histogram := zip_with fsub macd_line signal_line in
            match iloc_neg 1 macd_line, iloc_neg 1 signal_line,
                  iloc_neg 2 macd_line, iloc_neg 2 signal_line,
                  iloc_neg 1 histogram with
            | Some m1, Some s1, Some m2, Some s2, Some h1 =>
                let macd_current := safe_float m1 in
                let signal_current := safe_float s1 in
                let macd_prev := safe_float m2 in
                let signal_prev := safe_float s2 in
                let cross_signal : string :=
                  if (macd_prev <=? signal_prev)%F && (macd_current >? signal_current)%F
                  then "BULLISH_CROSS"%string
                  else if (macd_prev >=? signal_prev)%F
                          && (macd_current <? signal_current)%F
                  then "BEARISH_CROSS"%string
                  else if (macd_current >? signal_current)%F then "BULLISH"%string
                  else if (macd_current <? signal_current)%F then "BEARISH"%string
                  else "NEUTRAL"%string in
                mkMacd macd_current signal_current (safe_float h1) cross_signal
            | _, _, _, _, _ => macd_unavailable
            end
        | None => macd_unavailable
        end
    | _, _ => macd_unavailable
    end.

(** ** Technical indicators of one instrument *)

Record TechnicalIndicators : Type := mkTechnicalIndicators {
  ti_rsi_4h : num;
  ti_rsi_signal : string;
  ti_macd_4h : num;
  ti_macd_signal : string;
  ti_macd_histogram : num;
  ti_ema200_1d : num;
  ti_ema_signal : string;
  ti_total_score : Q
}.

Definition default_indicators : TechnicalIndicators :=
  mkTechnicalIndicators NaN "NEUTRAL" NaN "NEUTRAL" NaN NaN "NEUTRAL" 0.0.

(** [df['Close']] inside the [try] of an indicator: a missing column makes
    the indicator unavailable. *)
Definition close_column (cols : list string) (rows : list Bar) : option (list num) :=
  if existsb (String.eqb "Close") cols then Some (column Close rows) else None.

Definition rsi_of_frame (cols : list string) (rows : list Bar) (period : nat) : num :=
  if (length rows <? period + 1)%nat then NaN
  else match close_column cols rows with
       | Some closes => calculate_rsi closes period
       | None => NaN
       end.

Definition macd_of_frame (cols : list string) (rows : list Bar) : Macd :=
  if (length rows <? 26 + 9)%nat then macd_unavailable
  else match close_column cols rows with
       | Some closes => calculate_macd closes 12 26 9
       | None => macd_unavailable
       end.

Definition ema_of_frame (cols : list string) (rows : list Bar) (period : nat) : num :=
  if (length rows <? period)%nat then NaN
  else match close_column cols rows with
       | Some closes => calculate_ema closes period
       | None => NaN
       end.

(** The hourly half of [analyze_technical_indicators]. *)
Definition hourly_indicators (cols : list string) (rows : list Bar)
    (ind : TechnicalIndicators) : TechnicalIndicators :=
  if negb (frame_empty cols rows) && (30 <? length rows)%nat then
    let rsi_4h := rsi_of_frame cols rows 14 in
    let '(rsi_signal, rsi_points) :=
      if negb (isnan rsi_4h) then
        if (rsi_4h <? Fin 30)%F then ("OVERSOLD"%string, 1.0)
        else if (rsi_4h >? Fin 70)%F then ("OVERBOUGHT"%string, 1.0)
        else if (Fin 30 <=? rsi_4h)%F && (rsi_4h <=? Fin 40)%F
        then ("BULLISH_ZONE"%string, 0.5)
        else if (Fin 60 <=? rsi_4h)%F && (rsi_4h <=? Fin 70)%F
        then ("BEARISH_ZONE"%string, 0.5)
        else (ti_rsi_signal ind, 0)
      else (ti_rsi_signal ind, 0) in
    let m := macd_of_frame cols rows in
    let macd_points :=
      if String.eqb (cross_signal m) "BULLISH_CROSS" then 1.0
      else if String.eqb (cross_signal m) "BEARISH_CROSS" then 1.0
      else if String.eqb (cross_signal m) "BULLISH" then 0.5
      else if String.eqb (cross_signal m) "BEARISH" then 0.5
      else 0 in
    mkTechnicalIndicators rsi_4h rsi_signal (macd_line m) (cross_signal m)
      (histogram m) (ti_ema200_1d ind) (ti_ema_signal ind)
      (ti_total_score ind + rsi_points + macd_points)
  else ind.

(** The daily half.  The distance to the average is a division of Python
    floats: on an average of zero it raises, and the [except] keeps what
    was stored before it. *)
Definition daily_indicators (cols : list string) (rows : list Bar)
    (last_price : num) (ind : TechnicalIndicators) : TechnicalIndicators :=
  if negb (frame_empty cols rows) && (200 <? length rows)%nat then
    let ema200 := ema_of_frame cols rows 200 in
    let stored :=
      mkTechnicalIndicators (ti_rsi_4h ind) (ti_rsi_signal ind) (ti_macd_4h ind)
        (ti_macd_signal ind) (ti_macd_histogram ind) ema200 (ti_ema_signal ind)
        (ti_total_score ind) in
    if negb (isnan ema200) then
      match pydiv (last_price - ema200)%F ema200 with
      | None => stored
      | Some r =>
          let distance_pct := (r * Fin 100)%F in
          let '(ema_signal, ema_points) :=
            if (last_price >? ema200)%F then
              if (distance_pct >? Fin 2)%F then ("ABOVE_STRONG"%string, 1.0)
              else ("ABOVE"%string, 0.5)
            else
              if (distance_pct <? Fin (-2))%F then ("BELOW_STRONG"%string, 1.0)
              else ("BELOW"%string, 0.5) in
          mkTechnicalIndicators (ti_rsi_4h ind) (ti_rsi_signal ind) (ti_macd_4h ind)
            (ti_macd_signal ind) (ti_macd_histogram ind) ema200 ema_signal
            (ti_total_score ind + ema_points)
      end
    else stored
  else ind.

(** One [try] around both downloads: a download that raises ends the
    function with what is stored so far. *)
Definition analyze_technical_indicators (dl_4h dl_1d : Download)
    (last_price : num) : TechnicalIndicators :=
  match dl_4h with
  | DownloadError _ => default_indicators
  | Downloaded cols_4h rows_4h =>
      let ind := hourly_indicators cols_4h rows_4h default_indicators in
      match dl_1d with
      | DownloadError _ => ind
      | Downloaded cols_1d rows_1d =>
          daily_indicators cols_1d rows_1d last_price ind
      end
  end.

(** The three labels the decision reads. *)
Definition signals_of (ind : TechnicalIndicators) : Indicators :=
  mkIndicators (ti_rsi_signal ind) (ti_macd_signal ind) (ti_ema_signal ind).

(** ** Historical gaps of the first script *)

Record HistGap : Type := mkHistGap {
  hg_level : num;
  hg_type : string;
  hg_age_days : nat;
  hg_size_pct : num
}.

(** Where the loop body of [find_historical_gaps] would append, before
    the size is computed. *)
Inductive Side : Type := Above | Below | Neither.

Definition side_of (gap_level current_price : num) : Side :=
  if (gap_level >? current_price)%F then Above
  else if (gap_level <? current_price)%F then Below
  else Neither.

(** The body of [for i in range(1, len(df_recent))]: the side and the
    record it appends, if any.  The size is a division of Python floats
    evaluated while the record is built; when it raises, nothing is
    appended.  The two products [prev_close * 1.005] and
    [prev_close * 0.995] are exact here and rounded in the program, so an
    open within one rounding of such a product may be judged
    differently. *)
Definition hist_gap_at (df_recent : list Bar) (current_price : num) (i : nat)
    : option (Side * HistGap) :=
  match df_recent !! (i - 1)%nat, df_recent !! i with
  | Some prev, Some curr =>
      let prev_close := safe_float (Close prev) in
      let curr_open := safe_float (Open curr) in
      if existsb isnan [prev_close; curr_open] then None
      else if (curr_open >? prev_close * Fin 1.005)%F then
        let gap_level := prev_close in
        if filled_from_above (drop i df_recent) gap_level then None
        else
          match side_of gap_level current_price with
          | Neither => None
          | side =>
              r ← pydiv (curr_open - prev_close)%F prev_close;
              Some (side, mkHistGap gap_level "GAP_UP" (length df_recent - i)
                            (r * Fin 100)%F)
          end
      else if (curr_open <? prev_close * Fin 0.995)%F then
        let gap_level := prev_close in
        if filled_from_below (drop i df_recent) gap_level then None
        else
          match side_of gap_level current_price with
          | Neither => None
          | side =>
              r ← pydiv (prev_close - curr_open)%F prev_close;
              Some (side, mkHistGap gap_level "GAP_DOWN" (length df_recent - i)
                            (r * Fin 100)%F)
          end
      else None
  | _, _ => None
  end.

Definition scan_hist_pair (df_recent : list Bar) (current_price : num)
    (acc : list HistGap * list HistGap) (i : nat) : list HistGap * list HistGap :=
  match hist_gap_at df_recent current_price i with
  | Some (Above, g) => (acc.1 ++ [g], acc.2)
  | Some (Below, g) => (acc.1, acc.2 ++ [g])
  | _ => acc
  end.

Definition find_historical_gaps (df : list Bar) (current_price : num)
    (lookback_days : nat) : list HistGap * list HistGap :=
  if (length df <? 3)%nat then ([], [])
  else
    let df_recent := recent_rows df lookback_days in
    let '(gaps_above, gaps_below) :=
      foldl (scan_hist_pair df_recent current_price) ([], [])
        (seq 1 (length df_recent - 1)) in
    (sorted hg_level gaps_above, sorted_reverse hg_level gaps_below).

(** ** Liquidation confluence *)

(** One forced order as [get_liquidations] tabulates it; the text built
    for the report ([details]) is left out. *)
Record Liquidation : Type := mkLiquidation {
  liq_price : num;
  usd_volume : num;
  liq_type : string
}.

Record Confluence : Type := mkConfluence {
  has_confluence : bool;
  confidence_boost : Q;
  total_liq_volume : num;
  cluster_count : nat;
  dominant_side : string
}.

Definition no_confluence : Confluence :=
  mkConfluence false 0.0 (Fin 0) 0 "NEUTRAL".

(** [Series.sum()]: NaN is skipped, the empty sum is 0. *)
Definition series_sum (l : list num) : num := fsum (dropna l).

Definition volume_of_type (ty : string) (rows : list Liquidation) : num :=
  series_sum (map usd_volume (List.filter (fun r => String.eqb (liq_type r) ty) rows)).

(** [liq_df] is [None] when the exchange could not be reached. *)
Definition analyze_gap_confluence (gap_price : num) (gap_type : string)
    (liq_df : option (list Liquidation)) (tolerance_pct : num) : Confluence :=
  match liq_df with
  | None | Some [] => no_confluence
  | Some rows =>
      let margin := (gap_price * (tolerance_pct / Fin 100))%F in
      let near_liq :=
        List.filter (fun r => (liq_price r >=? gap_price - margin)%F
                              && (liq_price r <=? gap_price + margin)%F) rows in
      match near_liq with
      | [] => no_confluence
      | _ =>
          let total_vol := series_sum (map usd_volume near_liq) in
          let long_liq_vol := volume_of_type "LONG_LIQ" near_liq in
          let short_liq_vol := volume_of_type "SHORT_LIQ" near_liq in
          let dominant_side : string :=
            if (long_liq_vol >? short_liq_vol * Fin 1.5)%F then "LONG_LIQ"%string
            else if (short_liq_vol >? long_liq_vol * Fin 1.5)%F then "SHORT_LIQ"%string
            else "MIXED"%string in
          let '(has, boost) :=
            if (total_vol >=? Fin 1000000)%F then
              (true,
               if String.eqb gap_type "SHORT_TO_FILL" then
                 if String.eqb dominant_side "LONG_LIQ" then 2.0
                 else if (long_liq_vol >? short_liq_vol)%F then 1.2
                 else 0.5
               else if String.eqb gap_type "LONG_TO_FILL" then
                 if String.eqb dominant_side "SHORT_LIQ" then 2.0
                 else if (short_liq_vol >? long_liq_vol)%F then 1.2
                 else 0.5
               else 0.0)
            else if (total_vol >=? Fin 500000)%F then
              (true,
               if String.eqb gap_type "SHORT_TO_FILL"
                  && String.eqb dominant_side "LONG_LIQ" then 1.5
               else if String.eqb gap_type "LONG_TO_FILL"
                       && String.eqb dominant_side "SHORT_LIQ" then 1.5
               else 0.8)
            else if (total_vol >=? Fin 250000)%F then (true, 0.5)
            else (false, 0.0) in
          mkConfluence has boost total_vol (length near_liq) dominant_side
      end
  end.

(** What [analyze_pre_ny] of the liquidation script adds to the confidence:
    nothing without liquidations or without a gap, else the boost of a
    detected confluence. *)
Definition liq_boost (gap_signal : string) (gap_level : num)
    (liq_df : option (list Liquidation)) : Q :=
  match liq_df with
  | None | Some [] => 0.0
  | Some _ =>
      if negb (String.eqb gap_signal "NO_GAP") then
        let confluence := analyze_gap_confluence gap_level gap_signal liq_df (Fin 0.4) in
        if has_confluence confluence then confidence_boost confluence else 0.0
      else 0.0
  end.

(** ** Average true range *)

(** NaN, or zero or more. *)
Definition nan_or_nonneg (x : num) : Prop := x = NaN \/ nonneg x.

(** ** Recent gaps *)

(** What every record of [recent_gaps] satisfies: a gap up lies strictly
    under the price and is to be filled downwards, a gap down lies strictly
    over it and is to be filled upwards. *)
Definition on_fill_side (last_price : num) (g : RecentGap) : Prop :=
  (rg_type g = "GAP_UP"%string /\ rg_direction g = "DOWN_TO_FILL"%string /\
   (rg_level g <? last_price)%F = true) \/
  (rg_type g = "GAP_DOWN"%string /\ rg_direction g = "UP_TO_FILL"%string /\
   (last_price <? rg_level g)%F = true).

(** The sort key of [detect_cme_gap_improved]. *)
Definition distance_to (last_price : num) (g : RecentGap) : num :=
  fabs (rg_level g - last_price)%F.

(** No row of [rows] reaches down to [lvl] (a NaN low reaches nothing). *)
Definition lows_stay_above (rows : list Bar) (lvl : num) : Prop :=
  Forall (fun b => (Low b <=? lvl)%F = false) rows.

Definition highs_stay_below (rows : list Bar) (lvl : num) : Prop :=
  Forall (fun b => (High b >=? lvl)%F = false) rows.

(** The pair of daily rows [k + 1] and [k] from the end is an unfilled gap
    for the price, and [g] is its record: none of the six values read from
    the pair is NaN; the later row lies wholly over (under) the earlier
    one; the distance between them is more than 0.3 % of the earlier high
    (of the later high, for a gap down); none of the last [k] rows comes
    back to the level; and the level lies on the side of the price from
    which the gap is filled. *)
Definition open_recent_gap (df : list Bar) (last_price : num) (k : nat)
    (g : RecentGap) : Prop :=
  exists prev curr,
    iloc_neg (S k) df = Some prev /\ iloc_neg k df = Some curr /\
    pair_is_numeric prev curr = true /\
    (((Low curr >? High prev)%F = true /\
      feqb (High prev) (Fin 0) = false /\
      (rg_size_pct g >? GAP_THRESHOLD_PCT)%F = true /\
      lows_stay_above (iloc_tail k df) (High prev) /\
      (High prev <? last_price)%F = true /\
      g = mkRecentGap (High prev) "GAP_UP"
            ((Low curr - High prev) / High prev * Fin 100)%F k "DOWN_TO_FILL")
     \/
     ((Low curr >? High prev)%F = false /\
      (High curr <? Low prev)%F = true /\
      feqb (High curr) (Fin 0) = false /\
      (rg_size_pct g >? GAP_THRESHOLD_PCT)%F = true /\
      highs_stay_below (iloc_tail k df) (Low prev) /\
      (Low prev >? last_price)%F = true /\
      g = mkRecentGap (Low prev) "GAP_DOWN"
            ((Low prev - High curr) / High curr * Fin 100)%F k "UP_TO_FILL")).

(** What [find_all_gaps_comprehensive] writes into a gap record, for a frame
    of [n] rows. *)
Record gap_well_formed (n : nat) (g : Gap) : Prop := {
  gwf_edges : (bottom g <? top g)%F = true;
  gwf_level : level g = ((bottom g + top g) / Fin 2)%F;
  gwf_between : (bottom g <=? level g)%F = true /\ (level g <=? top g)%F = true;
  gwf_divisor : feqb (bottom g) (Fin 0) = false;
  gwf_size : size_pct g = ((top g - bottom g) / bottom g * Fin 100)%F;
  gwf_strength : strength g = strength_of (size_pct g);
  gwf_type : gap_type g = "GAP_UP"%string \/ gap_type g = "GAP_DOWN"%string;
  gwf_age : (1 <= age_days g < n)%nat
}.

(** The records the loop of [find_historical_gaps] appends to one list. *)
Definition appended_to (side : Side) (found : list (Side * HistGap)) : list HistGap :=
  omap (fun sg : Side * HistGap =>
          match sg.1, side with
          | Above, Above | Below, Below => Some sg.2
          | _, _ => None
          end) found.

(** A historical gap is open when no row from the day it opened on has come
    back to its level. *)
Definition still_open (df_recent : list Bar) (g : HistGap) : Prop :=
  (hg_type g = "GAP_UP"%string /\
   filled_from_above (iloc_tail (hg_age_days g) df_recent) (hg_level g) = false) \/
  (hg_type g = "GAP_DOWN"%string /\
   filled_from_below (iloc_tail (hg_age_days g) df_recent) (hg_level g) = false).

(** The liquidated side that runs against a gap signal: filling a gap
    downwards goes with liquidated longs, filling it upwards with
    liquidated shorts. *)
Definition opposing (gap_type side : string) : Prop :=
  (gap_type = "SHORT_TO_FILL"%string /\ side = "LONG_LIQ"%string) \/
  (gap_type = "LONG_TO_FILL"%string /\ side = "SHORT_LIQ"%string).

(** A finite value between two bounds. *)
Definition within (lo hi : Q) (x : num) : Prop :=
  match x with
  | Fin q => lo <= q <= hi
  | _ => False
  end.

(** The points [analyze_technical_indicators] adds to the total when it
    stores a label. *)
Definition label_points (label : string) : Q :=
  if str_in label ["OVERSOLD"; "OVERBOUGHT"; "BULLISH_CROSS"; "BEARISH_CROSS";
                   "ABOVE_STRONG"; "BELOW_STRONG"]%string then 1.0
  else if str_in label ["BULLISH_ZONE"; "BEARISH_ZONE"; "BULLISH"; "BEARISH";
                        "ABOVE"; "BELOW"]%string then 0.5
  else 0.

(** The reading of the RSI that a label stands for. *)
Definition rsi_label_holds (rsi : num) (label : string) : Prop :=
  (label = "OVERSOLD"%string -> (rsi <? Fin 30)%F = true) /\
  (label = "OVERBOUGHT"%string -> (rsi >? Fin 70)%F = true) /\
  (label = "BULLISH_ZONE"%string ->
   (Fin 30 <=? rsi)%F = true /\ (rsi <=? Fin 40)%F = true) /\
  (label = "BEARISH_ZONE"%string ->
   (Fin 60 <=? rsi)%F = true /\ (rsi <=? Fin 70)%F = true).

(** The side of the average that a label stands for. *)
Definition ema_label_holds (last_price ema200 : num) (label : string) : Prop :=
  (label = "ABOVE_STRONG"%string \/ label = "ABOVE"%string ->
   (last_price >? ema200)%F = true) /\
  (label = "BELOW_STRONG"%string \/ label = "BELOW"%string ->
   (last_price >? ema200)%F = false /\ isnan ema200 = false
   /\ feqb ema200 (Fin 0) = false).

(** The multiplier that goes with each phase. *)
Definition phase_multiplier (phase : string) : Q :=
  if String.eqb phase "PURE_CONSOLIDATION" then 0.5
  else if str_in phase ["ACCUMULATION_IN_RANGE"; "DISTRIBUTION_IN_RANGE"]%string then 0.8
  else if str_in phase ["STRONG_ACCUMULATION"; "STRONG_DISTRIBUTION"]%string then 1.2
  else if str_in phase ["POSSIBLE_ACCUMULATION"; "POSSIBLE_DISTRIBUTION"]%string then 1.1
  else 1.0.

(** What a Wyckoff detector returns: a score of 0 to 5 built from one to
    one and a half points a signal, a detection from 2 points on, the
    strong label from 3. *)
Record wyckoff_scored (strong possible : string) (w : Wyckoff) : Prop := {
  ws_range : 0 <= score w <= 5;
  ws_signals : inject_Z (Z.of_nat (length (signals w))) <= score w
               /\ score w <= 1.5 * inject_Z (Z.of_nat (length (signals w)));
  ws_detected : detected w = Qleb 2.0 (score w);
  ws_strong : phase w = strong <-> 3 <= score w;
  ws_possible : phase w = possible <-> 2 <= score w < 3;
  ws_none : phase w = "NONE"%string <-> score w < 2
}.

(** ** Decisions *)

(** What the chosen branch leaves in [decision], [entry_p], [tp1_p] and the
    two scores: no trade, a trade that fills the detected gap, or a trade at
    a historical gap or level. *)
Definition branch_outcome (gap_signal : string) (PP last_price gap_level : num)
    (lv : Levels) : Prop :=
  let d := lv_decision lv in
  let c := lv_confidence lv in
  (lv_entry lv = NaN /\ String.prefix "NO_OPERAR" d = true) \/
  (gap_signal = "SHORT_TO_FILL"%string /\ lv_tp1 lv = gap_level /\
   3 <= c /\ 0 <= lv_indicator_score lv /\
   ((d = "SHORT_FUERTE (Activacion Inmediata)"%string /\ 4.5 <= c
     /\ lv_entry lv = last_price) \/
    (d = "SHORT_MODERADO (Activacion Inmediata)"%string /\ c < 4.5
     /\ lv_entry lv = last_price) \/
    (d = "SHORT_PENDIENTE (Esperar Retroceso a PP)"%string
     /\ lv_entry lv = PP /\ (last_price >=? PP)%F = false))) \/
  (gap_signal = "LONG_TO_FILL"%string /\ lv_tp1 lv = gap_level /\
   3 <= c /\ 0 <= lv_indicator_score lv /\
   ((d = "LONG_FUERTE (Activacion Inmediata)"%string /\ 4.5 <= c
     /\ lv_entry lv = last_price) \/
    (d = "LONG_MODERADO (Activacion Inmediata)"%string /\ c < 4.5
     /\ lv_entry lv = last_price) \/
    (d = "LONG_PENDIENTE (Esperar Retroceso a PP)"%string
     /\ lv_entry lv = PP /\ (last_price <=? PP)%F = false))) \/
  (gap_signal = "NO_GAP"%string /\ lv_entry lv = last_price /\
   (((d = "SHORT_GAP_HISTORICO (Resistencia)"%string
      \/ d = "LONG_GAP_HISTORICO (Soporte)"%string) /\ 3 <= c) \/
    ((d = "SHORT_RESISTENCIA (Nivel Historico)"%string
      \/ d = "LONG_SOPORTE (Nivel Historico)"%string) /\ 3.5 <= c))).

(** A finite value on one side of zero. *)
Definition positive (x : num) : Prop :=
  match x with Fin q => 0 < q | _ => False end.

Definition negative (x : num) : Prop :=
  match x with Fin q => q < 0 | _ => False end.

(** The changes that the last value of a rolling mean over [period] rows
    averages. *)
Definition last_changes (closes : list num) (period : nat) : list num :=
  drop (length closes - period) (diff closes).

(** ** Numeric levels *)

Definition is_infinite (x : num) : bool :=
  match x with PInf | NInf => true | _ => false end.

(** A row whose high, low and close are not infinite. *)
Definition no_infinite_price (b : Bar) : Prop :=
  is_infinite (High b) = false /\ is_infinite (Low b) = false /\
  is_infinite (Close b) = false.

(** The rows of a download, none for a failed one. *)
Definition frame_rows (dl : Download) : list Bar :=
  match dl with
  | Downloaded _ rows => rows
  | DownloadError _ => []
  end.

Definition finite (x : num) : Prop := exists q, x = Fin q.

Definition gap_finite (g : Gap) : Prop :=
  finite (level g) /\ finite (top g) /\ finite (bottom g).

(** The levels of a SHORT plan around the entry [e]: stop, TP1 and TP2 are
    numbers, the stop above the entry, TP1 under it and TP2 under TP1; TP3,
    when it is a number, is under TP2. *)
Definition short_levels (e : Q) (sl tp1 tp2 tp3 : num) : Prop :=
  exists s t1 t2,
    sl = Fin s /\ tp1 = Fin t1 /\ tp2 = Fin t2 /\
    e < s /\ t1 < e /\ t2 < t1 /\
    (tp3 = NaN \/ exists t3, tp3 = Fin t3 /\ t3 < t2).

Definition long_levels (e : Q) (sl tp1 tp2 tp3 : num) : Prop :=
  exists s t1 t2,
    sl = Fin s /\ tp1 = Fin t1 /\ tp2 = Fin t2 /\
    s < e /\ e < t1 /\ t1 < t2 /\
    (tp3 = NaN \/ exists t3, tp3 = Fin t3 /\ t2 < t3).

(** ** Double precision

    The functions whose specification turns on the last bit of a double,
    on binary64 numbers with the rounding of every operation.  A Python
    float and a numpy float64 are such numbers, and [a > b] is [b < a]. *)
Module Doubles.

(** [safe_float] on a scalar. *)
Definition safe_float (x : float) : float := if is_nan x then nan else x.

(** The exact value of a finite double. *)
Definition exact (x : float) : option Q :=
  match Prim2SF x with
  | S754_zero _ => Some 0
  | S754_finite s m e =>
      Some (Qred ((if s then -1 else 1) * inject_Z (Zpos m) * 2 ^ e))
  | _ => None
  end.

#[warnings="-inexact-float"] Definition THRESHOLD_PCT : float := 0.005%float.

(** The 0.5 % detector of the first script: current price against the close
    of the second-to-last daily bar.  It reads the column [Close] of the
    daily frame and nothing else, so the frame is given by that column,
    oldest row first ([calculate_pivot_points] has checked that the frame
    has the column before the detector is called). *)
Definition detect_cme_gap (close_1d : list float) (last_price : float)
    : string * float :=
  if (length close_1d <? 2)%nat then ("NO_GAP"%string, nan)
  else
    match iloc_neg 2 close_1d with
    | None => ("NO_GAP"%string, nan)
    | Some c =>
        let gap_level := safe_float c in
        if is_nan gap_level then ("NO_GAP"%string, nan)
        else if (gap_level * (1 + THRESHOLD_PCT) <? last_price)%float
        then ("SHORT_TO_FILL"%string, gap_level)
        else if (last_price <? gap_level * (1 - THRESHOLD_PCT))%float
        then ("LONG_TO_FILL"%string, gap_level)
        else ("NO_GAP"%string, nan)
    end.

(** [Series.diff()]: NaN in the first row. *)
Definition diff (s : list float) : list float := zip_with sub s (nan :: s).

Definition where_pos (delta : list float) : list float :=
  map (fun d => if (0 <? d)%float then d else 0%float) delta.

Definition where_neg (delta : list float) : list float :=
  map (fun d => if (d <? 0)%float then d else 0%float) delta.

(** The number of rows of a window, as a double. *)
Definition count (l : list float) : float :=
  foldl (fun n _ => (n + 1)%float) 0%float l.

(** One value of [Series.rolling(window=w).mean()]: the sum of the window,
    added up from its first row, over the number of its rows.  pandas
    carries the sum from one window to the next and compensates its
    rounding; both give the same double when the sums are exact, as they
    are on the small integers below. *)
Definition window_mean (w : nat) (prefix : list float) : float :=
  if (length prefix <? w)%nat then nan
  else
    let win := drop (length prefix - w) prefix in
    if existsb is_nan win then nan else (foldl add 0 win / count win)%float.

Definition rolling_mean (w : nat) (l : list float) : list float :=
  imap (fun i _ => window_mean w (take (S i) l)) l.

Definition calculate_rsi (closes : list float) (period : nat) : float :=
  if (length closes <? period + 1)%nat then nan
  else
    let delta := diff closes in
    let gain := rolling_mean period (where_pos delta) in
    let loss := rolling_mean period (map opp (where_neg delta)) in
    let rs := zip_with div gain loss in
    let rsi := map (fun r => (100 - 100 / (1 + r))%float) rs in
    match iloc_neg 1 rsi with
    | Some v => safe_float v
    | None => nan
    end.

End Doubles.

(** The detector as the specification words it, on exact values: the
    signal for a price that exceeds the close by more than [thresholdPct]
    of it, for one that is below it by more than that, or for neither. *)
Definition detectActiveGap (close currentPrice thresholdPct : Q) : string :=
  if Qltb (close * (1 + thresholdPct)) currentPrice then "SHORT_TO_FILL"
  else if Qltb currentPrice (close * (1 - thresholdPct)) then "LONG_TO_FILL"
  else "NO_GAP".


(** ** Sample rows *)

(** A row from open, high, low and close, with a volume of 1000. *)
Definition day (o h l c : Q) : Bar :=
  mkBar (Fin o) (Fin h) (Fin l) (Fin c) (Fin 1000).

(** The decisions that carry an entry price. *)
Definition entry_decisions : list string :=
  ["SHORT_FUERTE (Activacion Inmediata)"; "SHORT_MODERADO (Activacion Inmediata)";
   "SHORT_PENDIENTE (Esperar Retroceso a PP)";
   "LONG_FUERTE (Activacion Inmediata)"; "LONG_MODERADO (Activacion Inmediata)";
   "LONG_PENDIENTE (Esperar Retroceso a PP)";
   "SHORT_GAP_HISTORICO (Resistencia)"; "LONG_GAP_HISTORICO (Soporte)";
   "SHORT_RESISTENCIA (Nivel Historico)"; "LONG_SOPORTE (Nivel Historico)"]%string.

(** Ten daily rows: a gap down from 108 to 105.5 nine rows back, never
    filled, then a quiet range; fifteen five-minute rows with a true range
    of 1, and fifteen flat ones. *)
Definition gap_above_days : list Bar :=
  [day 109 110 108 109] ++ repeat (day 105.25 105.5 105 105.25) 8
    ++ [day 105.25 105.5 104.75 105].

Definition five_minute_bars : list Bar := repeat (day 105 105.5 104.5 105) 15.

Definition flat_five_minute_bars : list Bar := repeat (day 105 105 105 105) 15.

Definition bearish_indicators : Indicators :=
  mkIndicators "OVERBOUGHT" "BEARISH" "NEUTRAL".

Definition sample_run (bars_5m : list Bar) : Outcome :=
  analyze_pre_ny "BTC-USD" (Downloaded required_cols bars_5m)
    (Downloaded required_cols bars_5m) (Downloaded required_cols gap_above_days)
    bearish_indicators.

(** Three daily rows with a gap up from 101 to 103, left open, and the
    same rows with a last low of 100.5 that closes it. *)
Definition gap_up_days : list Bar :=
  [day 100 101 99 100; day 104 106 103 105; day 105 107 104 106].

Definition gap_up_filled_days : list Bar :=
  [day 100 101 99 100; day 104 106 103 105; day 105 107 100.5 106].

(** Sixty daily rows: forty around 110, then twenty around 100. *)
Definition base_after_decline : list Bar :=
  repeat (day 110 111 109 110) 40 ++ repeat (day 100 101 99 100) 20.

(** Twenty closes rising by one, and the same with one dip. *)
Definition rising_closes : list num :=
  map Fin [1; 2; 3; 4; 5; 6; 7; 8; 9; 10; 11; 12; 13; 14; 15; 16; 17; 18; 19; 20].

Definition dipping_closes : list num :=
  map Fin [1; 2; 3; 4; 5; 6; 7; 8; 9; 10; 11; 12; 13; 14; 15; 14; 17; 18; 19; 20].

Definition recent_gap_days : list Bar :=
  repeat (day 100 101 99 100) 3 ++ [day 104 106 103 105; day 105 107 104 106].

(** Four days: a jump up at the second open that no later low has closed. *)
Definition open_jump_days : list Bar :=
  [day 100 101 99 100; day 104 106 103 105; day 105 107 104 106;
   day 106 108 105 107].

(** A run on daily rows with an open gap up two days back: the price of 105
    stands over the pivot and over the gap at 101. *)
Definition gap_fill_run : Outcome :=
  analyze_pre_ny "BTC-USD" (Downloaded required_cols five_minute_bars)
    (Downloaded required_cols five_minute_bars)
    (Downloaded required_cols recent_gap_days) bearish_indicators.

(** The daily rows of [recent_gap_days] with an infinite high, negative,
    in the second-to-last row, and the run on them. *)
Definition infinite_high_days : list Bar :=
  repeat (day 100 101 99 100) 3
    ++ [mkBar (Fin 104) NInf (Fin 103) (Fin 105) (Fin 1000); day 105 107 104 106].

Definition infinite_high_run : Outcome :=
  analyze_pre_ny "BTC-USD" (Downloaded required_cols five_minute_bars)
    (Downloaded required_cols five_minute_bars)
    (Downloaded required_cols infinite_high_days) bearish_indicators.

(** The five-minute rows with an infinite last close, and the run on them
    and the daily rows of [recent_gap_days]. *)
Definition infinite_close_bars : list Bar :=
  repeat (day 105 105.5 104.5 105) 14
    ++ [mkBar (Fin 105) (Fin 105.5) (Fin 104.5) PInf (Fin 1000)].

Definition infinite_close_run : Outcome :=
  analyze_pre_ny "BTC-USD" (Downloaded required_cols infinite_close_bars)
    (Downloaded required_cols infinite_close_bars)
    (Downloaded required_cols recent_gap_days) bearish_indicators.

(** * Properties *)

(** ** Reflection of the comparisons on rationals *)

Lemma Qltb_iff a b : Qltb a b = true <-> a < b.
Proof.
  unfold Qltb. rewrite Qlt_alt. destruct (a ?= b); split; congruence.
Qed.

Lemma Qleb_iff a b : Qleb a b = true <-> a <= b.
Proof.
  unfold Qleb. rewrite Qle_alt. destruct (a ?= b); split; congruence.
Qed.

Lemma Qeqb_iff a b : Qeqb a b = true <-> a == b.
Proof.
  unfold Qeqb. rewrite Qeq_alt. destruct (a ?= b); split; congruence.
Qed.

Lemma Qltb_false a b : Qltb a b = false <-> b <= a.
Proof.
  rewrite <- not_true_iff_false, Qltb_iff. split; intros; lra.
Qed.

Lemma Qleb_false a b : Qleb a b = false <-> b < a.
Proof.
  rewrite <- not_true_iff_false, Qleb_iff. split; intros; lra.
Qed.

Lemma Qeqb_false a b : Qeqb a b = false <-> ~ a == b.
Proof.
  rewrite <- not_true_iff_false, Qeqb_iff. tauto.
Qed.



(** Boolean comparisons on rationals, in the context and the goal, become
    propositions; [q_solve] then closes linear goals. *)
Ltac q_reflect :=
  repeat match goal with
  | H : Qltb _ _ = true |- _ => apply Qltb_iff in H
  | H : Qltb _ _ = false |- _ => apply Qltb_false in H
  | H : Qleb _ _ = true |- _ => apply Qleb_iff in H
  | H : Qleb _ _ = false |- _ => apply Qleb_false in H
  | H : Qeqb _ _ = true |- _ => apply Qeqb_iff in H
  | H : Qeqb _ _ = false |- _ => apply Qeqb_false in H
  | |- Qltb _ _ = true => apply Qltb_iff
  | |- Qltb _ _ = false => apply Qltb_false
  | |- Qleb _ _ = true => apply Qleb_iff
  | |- Qleb _ _ = false => apply Qleb_false
  | |- Qeqb _ _ = true => apply Qeqb_iff
  | |- Qeqb _ _ = false => apply Qeqb_false
  end.

Ltac q_norm :=
  unfold fin in *;
  repeat match goal with
  | H : context [Qred _] |- _ => rewrite Qred_correct in H
  end;
  rewrite ?Qred_correct;
  unfold Qdiv in *; cbn [Qinv Qnum Qden] in *.

Ltac q_solve := q_reflect; q_norm; first [lra | nra].

(** ** Pivot points *)

Lemma iloc_neg_length {A} k (l : list A) x :
  iloc_neg k l = Some x -> (k <= length l)%nat.
Proof.
  unfold iloc_neg. destruct (k <=? length l)%nat eqn:E; [|discriminate].
  intros _. now apply Nat.leb_le.
Qed.

Lemma has_required_cols_nonempty cols :
  has_required_cols cols = true -> cols <> [].
Proof. intros H ->. discriminate. Qed.

Lemma pivot_formula_fin (h l c : Q) :
  exists pp r1 s1,
    pivot_formula (Fin h) (Fin l) (Fin c) = (Fin pp, Fin r1, Fin s1) /\
    pp == (h + l + c) / 3 /\ r1 == 2 * pp - l /\ s1 == 2 * pp - h.
Proof.
  unfold pivot_formula. cbn.
  eexists _, _, _. split; [reflexivity|].
  repeat split; q_norm; lra.
Qed.

Lemma calculate_pivot_points_ok cols df prev h l c :
  has_required_cols cols = true ->
  iloc_neg 2 df = Some prev ->
  High prev = Fin h -> Low prev = Fin l -> Close prev = Fin c ->
  calculate_pivot_points (Downloaded cols df) =
    let '(PP, R1, S1) := pivot_formula (Fin h) (Fin l) (Fin c) in
    mkPivots PP R1 S1 df None.
Proof.
  intros Hc Hp Hh Hl Hcl. unfold calculate_pivot_points.
  pose proof (iloc_neg_length _ _ _ Hp) as Hlen.
  pose proof (has_required_cols_nonempty _ Hc) as Hne.
  assert (Hfe : frame_empty cols df = false).
  { destruct cols; [congruence|]. destruct df; [simpl in Hlen; lia|reflexivity]. }
  assert (Hlt : (length df <? 2)%nat = false) by (apply Nat.ltb_ge; lia).
  rewrite Hfe, Hlt, Hc, Hp, Hh, Hl, Hcl. reflexivity.
Qed.

(** C5, as amended: on a daily frame with at least two rows the pivots come
    from the second-to-last row, PP = (H+L+C)/3, R1 = 2 PP - L and
    S1 = 2 PP - H, and when that row's close lies between its low and its
    high and H differs from L, S1 < PP < R1 strictly. *)
Theorem pivots_of_previous_day cols df prev (h l c : Q) :
  has_required_cols cols = true ->
  iloc_neg 2 df = Some prev ->
  High prev = Fin h -> Low prev = Fin l -> Close prev = Fin c ->
  l <= c <= h -> ~ h == l ->
  exists pp r1 s1,
    calculate_pivot_points (Downloaded cols df) =
      mkPivots (Fin pp) (Fin r1) (Fin s1) df None /\
    pp == (h + l + c) / 3 /\ r1 == 2 * pp - l /\ s1 == 2 * pp - h /\
    s1 < pp /\ pp < r1.
Proof.
  intros Hc Hp Hh Hl Hcl Hin Hne.
  destruct (pivot_formula_fin h l c) as (pp & r1 & s1 & Hf & Hpp & Hr & Hs).
  exists pp, r1, s1.
  rewrite (calculate_pivot_points_ok cols df prev h l c) by assumption.
  rewrite Hf. repeat split; try assumption; q_norm; lra.
Qed.

(** Scenario 1 of the specification: H=100, L=90, C=95 gives PP=95,
    R1=100 and S1=90. *)
Lemma pivots_of_previous_day_witness :
  exists pp r1 s1,
    calculate_pivot_points
      (Downloaded required_cols [day 96 100 90 95; day 95 97 94 96]) =
      mkPivots (Fin pp) (Fin r1) (Fin s1) [day 96 100 90 95; day 95 97 94 96] None /\
    pp == (100 + 90 + 95) / 3 /\ r1 == 2 * pp - 90 /\ s1 == 2 * pp - 100 /\
    s1 < pp /\ pp < r1.
Proof.
  apply (pivots_of_previous_day required_cols
           [day 96 100 90 95; day 95 97 94 96] (day 96 100 90 95) 100 90 95);
    try reflexivity.
  - split; lra.
  - lra.
Defined.

Example pivots_scenario :
  calculate_pivot_points
    (Downloaded required_cols [day 96 100 90 95; day 95 97 94 96]) =
  mkPivots (Fin 95) (Fin 100) (Fin 90) [day 96 100 90 95; day 95 97 94 96] None.
Proof. reflexivity. Qed.

(** C5 as stated fails when the close lies outside the bar's range: with
    H=100, L=90, C=50 the high differs from the low, yet PP=80 and R1=70. *)
Lemma pivots_order_counterexample :
  let df := [day 96 100 90 50; day 95 97 94 96] in
  let pv := calculate_pivot_points (Downloaded required_cols df) in
  (exists prev, iloc_neg 2 df = Some prev /\ High prev <> Low prev) /\
  PP pv = Fin 80 /\ R1 pv = Fin 70 /\ S1 pv = Fin 60 /\
  (R1 pv >? PP pv)%F = false.
Proof.
  cbv zeta. split.
  - eexists. split; [reflexivity|]. discriminate.
  - repeat split.
Qed.

(** ** Active-gap detection *)

(** C4, as amended: on a daily frame with at least two rows whose
    second-to-last close [c] is not NaN, [detect_cme_gap] compares the
    price with that close through two products that are computed, and
    rounded, in double precision: SHORT_TO_FILL at level [c] when the price
    is greater than [c * (1 + 0.005)], otherwise LONG_TO_FILL at level [c]
    when it is less than [c * (1 - 0.005)], and NO_GAP with NaN
    otherwise. *)
Theorem active_gap_detection close_1d (last_price c : float) :
  (2 <= length close_1d)%nat ->
  iloc_neg 2 close_1d = Some c ->
  is_nan c = false ->
  let above := (c * (1 + Doubles.THRESHOLD_PCT) <? last_price)%float in
  let below := (last_price <? c * (1 - Doubles.THRESHOLD_PCT))%float in
  (above = true ->
     Doubles.detect_cme_gap close_1d last_price = ("SHORT_TO_FILL"%string, c)) /\
  (above = false -> below = true ->
     Doubles.detect_cme_gap close_1d last_price = ("LONG_TO_FILL"%string, c)) /\
  (above = false -> below = false ->
     Doubles.detect_cme_gap close_1d last_price = ("NO_GAP"%string, nan)).
Proof.
  intros Hlen Hc Hnan above below. unfold Doubles.detect_cme_gap.
  assert (Hlt : (length close_1d <? 2)%nat = false) by (apply Nat.ltb_ge; lia).
  rewrite Hlt, Hc. unfold Doubles.safe_float. rewrite Hnan. cbv zeta. rewrite Hnan.
  fold above below.
  repeat split.
  - intros ->. reflexivity.
  - intros -> ->. reflexivity.
  - intros -> ->. reflexivity.
Qed.

(** Scenario 2 of the specification: price 105 against a prior close of
    100 is SHORT_TO_FILL at level 100. *)
Lemma active_gap_detection_witness :
  Doubles.detect_cme_gap [100; 105]%float 105%float
    = ("SHORT_TO_FILL"%string, 100%float).
Proof.
  apply (active_gap_detection [100; 105]%float 105%float 100%float).
  - simpl. lia.
  - reflexivity.
  - reflexivity.
  - reflexivity.
Defined.

(** C4 as stated fails at a close of 100 and a price of 100.5, both exact
    doubles: the price exceeds the close by 0.5 % and no more, which is
    NO_GAP in the words of the specification, and the program answers
    SHORT_TO_FILL, because its threshold [100 * (1 + 0.005)] is the double
    100.49999999999999. *)
Lemma active_gap_detection_counterexample :
  Doubles.exact 100 = Some 100 /\ Doubles.exact 100.5 = Some (201 # 2) /\
  detectActiveGap 100 (201 # 2) 0.005 = "NO_GAP"%string /\
  Doubles.exact (100 * (1 + Doubles.THRESHOLD_PCT))
    = Some (7072058789855231 # 70368744177664) /\
  (7072058789855231 # 70368744177664) < (201 # 2) /\
  Doubles.detect_cme_gap [100; 100.5]%float 100.5%float
    = ("SHORT_TO_FILL"%string, 100%float).
Proof. repeat split. Qed.

(** The two factors as doubles: both lie just under 1.005 and 0.995. *)
Example threshold_factors :
  Doubles.exact (1 + Doubles.THRESHOLD_PCT)
    = Some (1131529406376837 # 1125899906842624) /\
  Doubles.exact (1 - Doubles.THRESHOLD_PCT)
    = Some (8962163258467287 # 9007199254740992) /\
  (1131529406376837 # 1125899906842624) < 1.005 /\
  (8962163258467287 # 9007199254740992) < 0.995.
Proof. repeat split. Qed.

(** The detector of version 3 is another algorithm (high/low gaps of the
    last seven days): on two daily rows it sees too little history. *)
Example improved_detector_differs :
  detect_cme_gap_improved [day 99 101 98 100; day 104 106 103 105] (Fin 105)
    = ("NO_GAP"%string, NaN, []).
Proof. reflexivity. Qed.

(** ** Missing pivots *)

(** C8: with fewer than two daily rows [calculate_pivot_points] returns NaN
    levels and the message "Datos insuficientes", and [analyze_pre_ny]
    returns an error text, never a plan. *)
Theorem missing_pivots_abort symbol dl_5m dl_4h cols df indicators :
  (length df < 2)%nat ->
  calculate_pivot_points (Downloaded cols df) =
    mkPivots NaN NaN NaN df (Some "Datos insuficientes"%string) /\
  (exists msg,
     analyze_pre_ny symbol dl_5m dl_4h (Downloaded cols df) indicators
       = ErrorText msg) /\
  (forall cols_5m rows_5m cols_4h rows_4h,
     dl_5m = Downloaded cols_5m rows_5m ->
     dl_4h = Downloaded cols_4h rows_4h ->
     frame_empty cols_5m rows_5m = false ->
     has_required_cols cols_5m = true ->
     analyze_pre_ny symbol dl_5m dl_4h (Downloaded cols df) indicators
       = ErrorText ("Error de Pivotes (1D) para " ++ symbol
                      ++ ": Datos insuficientes")).
Proof.
  intros Hlen.
  assert (Hpv : calculate_pivot_points (Downloaded cols df) =
                mkPivots NaN NaN NaN df (Some "Datos insuficientes"%string)).
  { unfold calculate_pivot_points.
    assert (E : (length df <? 2)%nat = true) by (apply Nat.ltb_lt; lia).
    rewrite E, orb_true_r. reflexivity. }
  split; [exact Hpv|]. split.
  - unfold analyze_pre_ny. rewrite Hpv.
    destruct dl_5m as [e|c5 r5]; [eauto|].
    destruct dl_4h as [e|c4 r4]; [eauto|].
    destruct (frame_empty c5 r5 || negb (has_required_cols c5)); eauto.
  - intros c5 r5 c4 r4 -> -> Hfe Hcols.
    unfold analyze_pre_ny. rewrite Hpv, Hfe, Hcols. reflexivity.
Qed.

Lemma missing_pivots_abort_witness :
  calculate_pivot_points (Downloaded required_cols [day 99 101 98 100]) =
    mkPivots NaN NaN NaN [day 99 101 98 100] (Some "Datos insuficientes"%string) /\
  (exists msg,
     analyze_pre_ny "BTC-USD"
       (Downloaded required_cols [day 99 101 98 100])
       (Downloaded required_cols [day 99 101 98 100])
       (Downloaded required_cols [day 99 101 98 100])
       (mkIndicators "NEUTRAL" "NEUTRAL" "NEUTRAL")
       = ErrorText msg) /\
  (forall cols_5m rows_5m cols_4h rows_4h,
     Downloaded required_cols [day 99 101 98 100] = Downloaded cols_5m rows_5m ->
     Downloaded required_cols [day 99 101 98 100] = Downloaded cols_4h rows_4h ->
     frame_empty cols_5m rows_5m = false ->
     has_required_cols cols_5m = true ->
     analyze_pre_ny "BTC-USD"
       (Downloaded required_cols [day 99 101 98 100])
       (Downloaded required_cols [day 99 101 98 100])
       (Downloaded required_cols [day 99 101 98 100])
       (mkIndicators "NEUTRAL" "NEUTRAL" "NEUTRAL")
       = ErrorText ("Error de Pivotes (1D) para " ++ "BTC-USD"
                      ++ ": Datos insuficientes")).
Proof.
  apply (missing_pivots_abort "BTC-USD"
           (Downloaded required_cols [day 99 101 98 100])
           (Downloaded required_cols [day 99 101 98 100])
           required_cols [day 99 101 98 100]
           (mkIndicators "NEUTRAL" "NEUTRAL" "NEUTRAL")).
  simpl. lia.
Defined.

(** ** Short history *)

Lemma detect_consolidation_short df lookback :
  (length df < lookback)%nat ->
  detect_consolidation df lookback = mkConsolidation false (Fin 0) NaN NaN.
Proof.
  intros H. unfold detect_consolidation.
  replace (length df <? lookback)%nat with true; [reflexivity|].
  symmetry. apply Nat.ltb_lt. lia.
Qed.

Lemma detect_accumulation_short df lookback :
  (length df < lookback)%nat ->
  detect_accumulation df lookback = mkWyckoff false "NONE" 0 [] "".
Proof.
  intros H. unfold detect_accumulation.
  replace (length df <? lookback)%nat with true; [reflexivity|].
  symmetry. apply Nat.ltb_lt. lia.
Qed.

Lemma detect_distribution_short df lookback :
  (length df < lookback)%nat ->
  detect_distribution df lookback = mkWyckoff false "NONE" 0 [] "".
Proof.
  intros H. unfold detect_distribution.
  replace (length df <? lookback)%nat with true; [reflexivity|].
  symmetry. apply Nat.ltb_lt. lia.
Qed.

(** C9: with fewer than 20 daily rows the consolidation, accumulation and
    distribution detectors all answer not-detected with score 0, and the
    phase is TRENDING with multiplier 1.0. *)
Theorem short_history_is_trending df last_price :
  (length df < 20)%nat ->
  is_consolidating (detect_consolidation df 20) = false /\
  detect_accumulation df 60 = mkWyckoff false "NONE" 0 [] "" /\
  detect_distribution df 60 = mkWyckoff false "NONE" 0 [] "" /\
  primary_phase (analyze_market_structure df last_price) = "TRENDING"%string /\
  confidence_adjustment (analyze_market_structure df last_price) == 1.
Proof.
  intros Hlen.
  pose proof (detect_consolidation_short df 20 Hlen) as Hc.
  assert (H60 : (length df < 60)%nat) by lia.
  pose proof (detect_accumulation_short df 60 H60) as Ha.
  pose proof (detect_distribution_short df 60 H60) as Hd.
  unfold analyze_market_structure. rewrite Hc, Ha, Hd.
  repeat split; reflexivity.
Qed.

Lemma short_history_is_trending_witness :
  is_consolidating
    (detect_consolidation [day 99 101 98 100; day 104 106 103 105] 20) = false /\
  detect_accumulation [day 99 101 98 100; day 104 106 103 105] 60
    = mkWyckoff false "NONE" 0 [] "" /\
  detect_distribution [day 99 101 98 100; day 104 106 103 105] 60
    = mkWyckoff false "NONE" 0 [] "" /\
  primary_phase
    (analyze_market_structure [day 99 101 98 100; day 104 106 103 105] (Fin 105))
    = "TRENDING"%string /\
  confidence_adjustment
    (analyze_market_structure [day 99 101 98 100; day 104 106 103 105] (Fin 105))
    == 1.
Proof.
  apply (short_history_is_trending
           [day 99 101 98 100; day 104 106 103 105] (Fin 105)).
  simpl. lia.
Defined.

(** Case analysis on the conditionals of a goal about levels. *)
Ltac level_cases :=
  cbn;
  repeat match goal with
  | |- context [if ?b then _ else _] => destruct b eqn:?; cbn
  end;
  intros;
  repeat match goal with
  | H : Fin _ = Fin _ |- _ => injection H as H; subst
  | H : fin _ = Fin _ |- _ => unfold fin in H; injection H as H; subst
  end;
  try discriminate; try q_solve.

(** ** Level validation *)

Lemma fsub_fin_inv x (b s : Q) : (x - Fin b)%F = Fin s -> exists t, x = Fin t /\ s == t - b.
Proof.
  destruct x; cbn; try discriminate. intros H. injection H as <-.
  eexists; split; [reflexivity|]. q_norm. lra.
Qed.

Lemma fadd_fin_inv x (b s : Q) : (x + Fin b)%F = Fin s -> exists t, x = Fin t /\ s == t + b.
Proof.
  destruct x; cbn; try discriminate. intros H. injection H as <-.
  eexists; split; [reflexivity|]. q_norm. lra.
Qed.

Lemma nan_guard_ge x y : (negb (isnan x) && (x >=? y)%F) = (x >=? y)%F.
Proof. now destruct x, y. Qed.

Lemma nan_guard_le x y : (negb (isnan x) && (x <=? y)%F) = (x <=? y)%F.
Proof. now destruct x, y. Qed.

Lemma validate_levels_short decision (e a : Q) sl tp1 tp2 :
  contains "SHORT" decision = true ->
  validate_levels decision (Fin e) sl tp1 tp2 (Fin a) =
    (Fin e, raised (Fin e) sl a 1.5, lowered (Fin e) tp1 a 1,
     if isnan tp2 then tp2
     else lowered (lowered (Fin e) tp1 a 1) (lowered (Fin e) tp2 a 2) a 1).
Proof.
  intros Hd. unfold validate_levels, lowered, raised. rewrite Hd.
  cbn [isnan orb negb andb].
  rewrite (nan_guard_le sl), (nan_guard_ge tp1).
  destruct (isnan tp2); reflexivity.
Qed.

Lemma fix_tp3_short decision tp2 tp3 (a : Q) :
  contains "SHORT" decision = true ->
  fix_tp3 decision tp2 tp3 (Fin a) =
    if isnan tp3 then tp3 else lowered tp2 tp3 a 1.
Proof.
  intros Hd. unfold fix_tp3, lowered. rewrite Hd.
  destruct tp3; try reflexivity.
  destruct (contains "LONG" decision); reflexivity.
Qed.

Lemma lowered_lt (a k : Q) ref x s t :
  0 < a -> 0 < k -> lowered ref x a k = Fin s -> ref = Fin t -> s < t.
Proof.
  intros Ha Hk H ->. revert H. unfold lowered, fge. destruct x; level_cases.
Qed.

Lemma raised_gt (a k : Q) ref x s t :
  0 < a -> 0 < k -> raised ref x a k = Fin s -> ref = Fin t -> t < s.
Proof.
  intros Ha Hk H ->. revert H. unfold raised. destruct x; level_cases.
Qed.

(** A lowered level that is a number is the old level or sits under the
    reference. *)
Lemma lowered_cases (a k : Q) ref x s :
  lowered ref x a k = Fin s ->
  x = Fin s \/ exists t, ref = Fin t /\ s == t - a * k.
Proof.
  unfold lowered. destruct (negb (isnan ref) && (x >=? ref)%F); [|now left].
  intros H. right. apply fsub_fin_inv in H as (t & -> & Hs).
  exists t. split; [reflexivity|]. q_norm. exact Hs.
Qed.

Lemma raised_cases (a k : Q) ref x s :
  raised ref x a k = Fin s ->
  x = Fin s \/ exists t, ref = Fin t /\ s == t + a * k.
Proof.
  unfold raised. destruct (negb (isnan ref) && (x <=? ref)%F); [|now left].
  intros H. right. apply fadd_fin_inv in H as (t & -> & Hs).
  exists t. split; [reflexivity|]. q_norm. exact Hs.
Qed.

Lemma validate_short decision (e a : Q) sl tp1 tp2 tp3 :
  contains "SHORT" decision = true -> 0 < a ->
  forall e' sl' tp1' tp2',
  validate_levels decision (Fin e) sl tp1 tp2 (Fin a) = (e', sl', tp1', tp2') ->
  e' = Fin e /\
  short_ordered e sl' tp1' tp2' (fix_tp3 decision tp2' tp3 (Fin a)).
Proof.
  intros Hd Ha e' sl' tp1' tp2'.
  rewrite validate_levels_short, fix_tp3_short by assumption.
  intros H. injection H as <- <- <- <-. split; [reflexivity|].
  assert (H1 : forall t1, lowered (Fin e) tp1 a 1 = Fin t1 -> t1 < e).
  { intros t1 H. apply (lowered_lt a 1 (Fin e) tp1 t1 e); [lra|lra|exact H|reflexivity]. }
  assert (H2 : forall t2, lowered (Fin e) tp2 a 2 = Fin t2 -> t2 < e).
  { intros t2 H. apply (lowered_lt a 2 (Fin e) tp2 t2 e); [lra|lra|exact H|reflexivity]. }
  unfold short_ordered. repeat split.
  - intros s H. apply (raised_gt a 1.5 (Fin e) sl s e); [lra|lra|exact H|reflexivity].
  - exact H1.
  - intros t2. destruct (isnan tp2) eqn:En; [intros ->; discriminate En|].
    intros H. apply lowered_cases in H as [H|(t1 & Ht1 & Hs)].
    + now apply H2.
    + specialize (H1 _ Ht1). nra.
  - intros t1 t2 Ht1. destruct (isnan tp2) eqn:En; [intros ->; discriminate En|].
    intros H. eapply (lowered_lt a 1); [lra|lra|exact H|exact Ht1].
  - intros t2 t3 Ht2. destruct (isnan tp3) eqn:En; [intros ->; discriminate En|].
    intros H. eapply (lowered_lt a 1); [lra|lra|exact H|exact Ht2].
Qed.

Lemma validate_levels_long decision (e a : Q) sl tp1 tp2 :
  contains "SHORT" decision = false ->
  contains "LONG" decision = true ->
  validate_levels decision (Fin e) sl tp1 tp2 (Fin a) =
    (Fin e, lowered (Fin e) sl a 1.5, raised (Fin e) tp1 a 1,
     if isnan tp2 then tp2
     else raised (raised (Fin e) tp1 a 1) (raised (Fin e) tp2 a 2) a 1).
Proof.
  intros Hs Hd. unfold validate_levels, lowered, raised. rewrite Hs, Hd.
  cbn [isnan orb negb andb].
  rewrite (nan_guard_ge sl), (nan_guard_le tp1).
  destruct (isnan tp2); reflexivity.
Qed.

Lemma fix_tp3_long decision tp2 tp3 (a : Q) :
  contains "SHORT" decision = false ->
  contains "LONG" decision = true ->
  fix_tp3 decision tp2 tp3 (Fin a) =
    if isnan tp3 then tp3 else raised tp2 tp3 a 1.
Proof.
  intros Hs Hd. unfold fix_tp3, raised. rewrite Hs, Hd.
  destruct tp3; reflexivity.
Qed.

Lemma validate_long decision (e a : Q) sl tp1 tp2 tp3 :
  contains "SHORT" decision = false ->
  contains "LONG" decision = true -> 0 < a ->
  forall e' sl' tp1' tp2',
  validate_levels decision (Fin e) sl tp1 tp2 (Fin a) = (e', sl', tp1', tp2') ->
  e' = Fin e /\
  long_ordered e sl' tp1' tp2' (fix_tp3 decision tp2' tp3 (Fin a)).
Proof.
  intros Hs Hd Ha e' sl' tp1' tp2'.
  rewrite validate_levels_long, fix_tp3_long by assumption.
  intros H. injection H as <- <- <- <-. split; [reflexivity|].
  assert (H1 : forall t1, raised (Fin e) tp1 a 1 = Fin t1 -> e < t1).
  { intros t1 H. apply (raised_gt a 1 (Fin e) tp1 t1 e); [lra|lra|exact H|reflexivity]. }
  assert (H2 : forall t2, raised (Fin e) tp2 a 2 = Fin t2 -> e < t2).
  { intros t2 H. apply (raised_gt a 2 (Fin e) tp2 t2 e); [lra|lra|exact H|reflexivity]. }
  unfold long_ordered. repeat split.
  - intros s H. apply (lowered_lt a 1.5 (Fin e) sl s e); [lra|lra|exact H|reflexivity].
  - exact H1.
  - intros t2. destruct (isnan tp2) eqn:En; [intros ->; discriminate En|].
    intros H. apply raised_cases in H as [H|(t1 & Ht1 & Hs')].
    + now apply H2.
    + specialize (H1 _ Ht1). nra.
  - intros t1 t2 Ht1. destruct (isnan tp2) eqn:En; [intros ->; discriminate En|].
    intros H. eapply (raised_gt a 1); [lra|lra|exact H|exact Ht1].
  - intros t2 t3 Ht2. destruct (isnan tp3) eqn:En; [intros ->; discriminate En|].
    intros H. eapply (raised_gt a 1); [lra|lra|exact H|exact Ht2].
Qed.

(** ** Plans and their levels *)

Lemma finish_fields lv atr ms :
  let p := finish lv atr ms in
  decision p = lv_decision lv /\
  atr_used p = atr /\
  structure p = ms /\
  validate_levels (lv_decision lv) (lv_entry lv) (lv_sl lv) (lv_tp1 lv)
    (lv_tp2 lv) atr = (entry_p p, sl_p p, tp1_p p, tp2_p p) /\
  tp3_p p = fix_tp3 (lv_decision lv) (tp2_p p) (lv_tp3 lv) atr /\
  confidence_before_structure p = lv_confidence lv /\
  confidence p = lv_confidence lv * confidence_adjustment ms /\
  confidence_pct p = py_min 100 (confidence p / max_score * 100).
Proof.
  unfold finish.
  destruct (validate_levels _ _ _ _ _ _) as [[[e s] t1] t2].
  cbn. repeat split.
Qed.

Lemma validate_levels_entry decision entry sl tp1 tp2 atr :
  (validate_levels decision entry sl tp1 tp2 atr).1.1.1 = entry.
Proof.
  unfold validate_levels.
  destruct (isnan entry || isnan atr); [reflexivity|].
  destruct (contains "SHORT" decision); [reflexivity|].
  destruct (contains "LONG" decision); reflexivity.
Qed.

(** A plan comes out of one of the decision branches and [finish]. *)
Lemma analyze_plan_inv symbol dl_5m dl_4h dl_1d indicators p :
  analyze_pre_ny symbol dl_5m dl_4h dl_1d indicators = Plan p ->
  exists gap_signal PP R1 S1 last_price atr gap_level R2_hist S2_hist
         strong_resistance strong_support high_volume gaps_above gaps_below
         data_1d lv,
    branch_levels gap_signal PP R1 S1 last_price atr gap_level R2_hist S2_hist
      strong_resistance strong_support high_volume indicators
      gaps_above gaps_below = Some lv /\
    p = finish lv atr (analyze_market_structure data_1d last_price).
Proof.
  unfold analyze_pre_ny, decide_and_validate.
  repeat match goal with
  | |- context [match ?x with _ => _ end] =>
      lazymatch x with
      | context [match _ with _ => _ end] => fail
      | _ => destruct x eqn:?
      end
  end; try discriminate.
  all: intros H; injection H as <-; repeat eexists; eassumption.
Qed.

(** Split on the conditionals that choose between the [Levels] records. *)
Ltac branch_heads :=
  repeat match goal with
  | H : context [lv_entry (if ?c then _ else _)] |- _ => destruct c eqn:?
  | H : context [lv_entry (match ?c with _ => _ end)] |- _ => destruct c eqn:?
  | |- context [lv_decision (if ?c then _ else _)] => destruct c eqn:?
  | |- context [lv_confidence (if ?c then _ else _)] => destruct c eqn:?
  end.

Lemma branch_levels_decisions gap_signal PP R1 S1 last_price atr gap_level
    R2_hist S2_hist strong_resistance strong_support high_volume indicators
    gaps_above gaps_below lv :
  branch_levels gap_signal PP R1 S1 last_price atr gap_level R2_hist S2_hist
    strong_resistance strong_support high_volume indicators
    gaps_above gaps_below = Some lv ->
  isnan (lv_entry lv) = false ->
  In (lv_decision lv) entry_decisions.
Proof.
  unfold branch_levels.
  destruct (String.eqb gap_signal "SHORT_TO_FILL");
    [|destruct (String.eqb gap_signal "LONG_TO_FILL");
      [|destruct (String.eqb gap_signal "NO_GAP")]].
  - intros H; injection H as <-. unfold gap_short_branch. cbv zeta.
    intros H. branch_heads; cbn [lv_entry lv_decision isnan] in *;
      try discriminate;
      try match goal with |- In (if ?c then _ else _) _ => destruct c end;
      cbn; tauto.
  - intros H; injection H as <-. unfold gap_long_branch. cbv zeta.
    intros H. branch_heads; cbn [lv_entry lv_decision isnan] in *;
      try discriminate;
      try match goal with |- In (if ?c then _ else _) _ => destruct c end;
      cbn; tauto.
  - unfold no_gap_branch.
    destruct (head_near gaps_above last_price) as [[|]|]; cbn [mbind option_bind];
      try discriminate.
    + cbv zeta. destruct (Qleb _ _); intros H; injection H as <-;
        cbn [lv_entry lv_decision isnan]; try discriminate; cbn; tauto.
    + destruct (head_near gaps_below last_price) as [[|]|]; cbn [mbind option_bind];
      try discriminate.
      * cbv zeta. destruct (Qleb _ _); intros H; injection H as <-;
        cbn [lv_entry lv_decision isnan]; try discriminate; cbn; tauto.
      * cbv zeta.
        repeat match goal with
        | |- context [if ?c then Some _ else _] => destruct c
        end; intros H; injection H as <-;
        cbn [lv_entry lv_decision isnan]; try discriminate; cbn; tauto.
  - intros H; injection H as <-. discriminate.
Qed.

Lemma long_decisions_not_short d :
  In d entry_decisions -> contains "LONG" d = true -> contains "SHORT" d = false.
Proof.
  cbn. intros H. repeat destruct H as [<-|H]; try discriminate; try reflexivity.
  destruct H.
Qed.

(** ** Confidence *)

Lemma py_min_bounds x : 0 <= x -> 0 <= py_min 100 x <= 100.
Proof.
  intros Hx. unfold py_min. destruct (Qltb x 100) eqn:E; q_reflect; lra.
Qed.

Lemma adjustment_values df last_price :
  let k := confidence_adjustment (analyze_market_structure df last_price) in
  k == 0.5 \/ k == 0.8 \/ k == 1 \/ k == 1.1 \/ k == 1.2.
Proof.
  cbv zeta. unfold analyze_market_structure.
  generalize (detect_consolidation df 20) (detect_accumulation df 60)
    (detect_distribution df 60). intros c a d.
  cbv beta iota zeta.
  repeat match goal with
  | |- context [confidence_adjustment (if ?b then _ else _)] => destruct b
  end; cbn [confidence_adjustment];
  try match goal with |- context [if ?b then _ else _] => destruct b end;
  lra.
Qed.

Lemma adjustment_positive df last_price :
  0 < confidence_adjustment (analyze_market_structure df last_price).
Proof.
  pose proof (adjustment_values df last_price) as H. cbv zeta in H. lra.
Qed.

Ltac split_confidence :=
  repeat match goal with
  | |- context [lv_confidence (if ?c then _ else _)] => destruct c
  end;
  cbn [lv_confidence];
  repeat match goal with
  | |- context [if ?c then _ else _] => destruct c
  end.

Lemma gap_short_confidence PP R1 S1 last_price atr gap_level R2_hist S2_hist
    high_volume indicators gaps_below :
  0.5 <= lv_confidence
           (gap_short_branch PP R1 S1 last_price atr gap_level R2_hist S2_hist
              high_volume indicators gaps_below) <= 6.5.
Proof.
  unfold gap_short_branch. cbv zeta. split_confidence; lra.
Qed.

Lemma gap_long_confidence PP R1 S1 last_price atr gap_level R2_hist S2_hist
    high_volume indicators gaps_above :
  0.5 <= lv_confidence
           (gap_long_branch PP R1 S1 last_price atr gap_level R2_hist S2_hist
              high_volume indicators gaps_above) <= 6.5.
Proof.
  unfold gap_long_branch. cbv zeta. split_confidence; lra.
Qed.

Lemma branch_confidence_nonneg gap_signal PP R1 S1 last_price atr gap_level
    R2_hist S2_hist strong_resistance strong_support high_volume indicators
    gaps_above gaps_below lv :
  branch_levels gap_signal PP R1 S1 last_price atr gap_level R2_hist S2_hist
    strong_resistance strong_support high_volume indicators
    gaps_above gaps_below = Some lv ->
  0 <= lv_confidence lv.
Proof.
  unfold branch_levels.
  destruct (String.eqb gap_signal "SHORT_TO_FILL");
    [|destruct (String.eqb gap_signal "LONG_TO_FILL");
      [|destruct (String.eqb gap_signal "NO_GAP")]].
  - intros H; injection H as <-.
    pose proof (gap_short_confidence PP R1 S1 last_price atr gap_level R2_hist
                  S2_hist high_volume indicators gaps_below). lra.
  - intros H; injection H as <-.
    pose proof (gap_long_confidence PP R1 S1 last_price atr gap_level R2_hist
                  S2_hist high_volume indicators gaps_above). lra.
  - unfold no_gap_branch, bearish_points, bullish_points.
    destruct (head_near gaps_above last_price) as [[|]|]; cbn [mbind option_bind];
      try discriminate.
    + cbv zeta. destruct (Qleb _ _); intros H; injection H as <-;
        cbn [lv_confidence]; split_confidence; lra.
    + destruct (head_near gaps_below last_price) as [[|]|]; cbn [mbind option_bind];
      try discriminate.
      * cbv zeta. destruct (Qleb _ _); intros H; injection H as <-;
        cbn [lv_confidence]; split_confidence; lra.
      * cbv zeta.
        repeat match goal with
        | |- context [if ?c then Some _ else _] => destruct c
        end; intros H; injection H as <-;
        cbn [lv_confidence no_signal]; split_confidence; lra.
  - intros H; injection H as <-. cbn. lra.
Qed.

Lemma py_min_Qmin a b : py_min a b == Qmin a b.
Proof.
  unfold py_min. destruct (Qltb b a) eqn:E; q_reflect.
  - rewrite Q.min_r; lra.
  - rewrite Q.min_l; lra.
Qed.

Lemma graded_bounds signal strong weak : 0 <= V1.graded signal strong weak <= 1.
Proof.
  unfold V1.graded. destruct (str_in _ _); [destruct (String.eqb _ _)|]; lra.
Qed.

Lemma v1_confidence_nonneg gap_signal PP last_price R2_hist S2_hist
    strong_resistance strong_support high_volume indicators :
  0 <= V1.confidence gap_signal PP last_price R2_hist S2_hist
         strong_resistance strong_support high_volume indicators.
Proof.
  unfold V1.confidence, V1.bearish_score, V1.bullish_score. cbv zeta.
  pose proof (graded_bounds (rsi_signal indicators) "OVERBOUGHT" "BEARISH_ZONE").
  pose proof (graded_bounds (macd_signal indicators) "BEARISH_CROSS" "BEARISH").
  pose proof (graded_bounds (ema_signal indicators) "BELOW_STRONG" "BELOW").
  pose proof (graded_bounds (rsi_signal indicators) "OVERSOLD" "BULLISH_ZONE").
  pose proof (graded_bounds (macd_signal indicators) "BULLISH_CROSS" "BULLISH").
  pose proof (graded_bounds (ema_signal indicators) "ABOVE_STRONG" "ABOVE").
  repeat match goal with
  | |- context [if ?c then _ else _] => destruct c
  end; lra.
Qed.

(** C3: in every plan the confidence is the raw sum times the phase
    multiplier, applied once; the percentage is
    min(100, 100 * confidence / max_score) and lies in [0, 100], the
    penalties of version 3 included.  The same bounds hold for the
    accumulation of the first script with its ceiling of 5. *)
Theorem confidence_pct_bounded symbol dl_5m dl_4h dl_1d indicators p :
  analyze_pre_ny symbol dl_5m dl_4h dl_1d indicators = Plan p ->
  (confidence p
     = confidence_before_structure p * confidence_adjustment (structure p) /\
   confidence_pct p == Qmin 100 (100 * confidence p / max_score) /\
   0 <= confidence_pct p <= 100) /\
  (forall gap_signal PP last_price R2_hist S2_hist strong_resistance
          strong_support high_volume,
     let c := V1.confidence gap_signal PP last_price R2_hist S2_hist
                strong_resistance strong_support high_volume indicators in
     V1.confidence_pct c == Qmin 100 (100 * c / V1.max_score) /\
     0 <= V1.confidence_pct c <= 100).
Proof.
  intros Hrun.
  apply analyze_plan_inv in Hrun
    as (gs & PP & R1 & S1 & lp & atr & gl & R2 & S2 & sr & ss & hv & ga & gb
        & df & lv & Hlv & ->).
  destruct (finish_fields lv atr (analyze_market_structure df lp))
    as (_ & _ & Hms & _ & _ & Hb & Hc & Hpct).
  cbv zeta in *.
  pose proof (branch_confidence_nonneg _ _ _ _ _ _ _ _ _ _ _ _ _ _ _ _ Hlv) as H0.
  pose proof (adjustment_positive df lp) as Hk.
  split; [split; [|split]|].
  - rewrite Hc, Hb, Hms. reflexivity.
  - rewrite Hpct, py_min_Qmin. unfold max_score.
    apply Q.min_compat; [reflexivity|]. field.
  - rewrite Hpct. apply py_min_bounds. rewrite Hc. unfold max_score.
    assert (0 <= lv_confidence lv *
                 confidence_adjustment (analyze_market_structure df lp)) by nra.
    q_norm. lra.
  - intros gs' PP' lp' R2' S2' sr' ss' hv'.
    pose proof (v1_confidence_nonneg gs' PP' lp' R2' S2' sr' ss' hv' indicators) as Hc'.
    revert Hc'. generalize (V1.confidence gs' PP' lp' R2' S2' sr' ss' hv' indicators).
    intros c Hc'. unfold V1.confidence_pct, V1.max_score. split.
    + rewrite py_min_Qmin. apply Q.min_compat; [reflexivity|]. field.
    + apply py_min_bounds. q_norm. lra.
Qed.

Lemma confidence_pct_bounded_witness :
  exists p, sample_run five_minute_bars = Plan p /\
  (confidence p
     = confidence_before_structure p * confidence_adjustment (structure p) /\
   confidence_pct p == Qmin 100 (100 * confidence p / max_score) /\
   0 <= confidence_pct p <= 100) /\
  (forall gap_signal PP last_price R2_hist S2_hist strong_resistance
          strong_support high_volume,
     let c := V1.confidence gap_signal PP last_price R2_hist S2_hist
                strong_resistance strong_support high_volume
                bearish_indicators in
     V1.confidence_pct c == Qmin 100 (100 * c / V1.max_score) /\
     0 <= V1.confidence_pct c <= 100).
Proof.
  eexists. split; [vm_compute; reflexivity|].
  apply (confidence_pct_bounded "BTC-USD"
           (Downloaded required_cols five_minute_bars)
           (Downloaded required_cols five_minute_bars)
           (Downloaded required_cols gap_above_days)
           bearish_indicators).
  vm_compute. reflexivity.
Defined.

(** ** Gaps *)

Lemma flt_asym x y : (x <? y)%F = true -> (y <? x)%F = false.
Proof. destruct x, y; cbn; try discriminate; try reflexivity. intros. q_solve. Qed.

Lemma flt_fle x y : (x <? y)%F = true -> (x <=? y)%F = true.
Proof. destruct x, y; cbn; try discriminate; try reflexivity. intros. q_solve. Qed.

(** Among values that are not NaN, "not less" is "at least". *)
Lemma not_flt_fle x y :
  isnan x = false -> isnan y = false -> (x <? y)%F = false -> (y <=? x)%F = true.
Proof. destruct x, y; cbn; try discriminate; try reflexivity. intros. q_solve. Qed.

Lemma fle_trans x y z : (x <=? y)%F = true -> (y <=? z)%F = true -> (x <=? z)%F = true.
Proof.
  destruct x, y, z; cbn; try discriminate; try reflexivity. intros. q_solve.
Qed.

Lemma flt_not_nan_l x y : (x <? y)%F = true -> isnan x = false.
Proof. now destruct x, y. Qed.

Lemma flt_not_nan_r x y : (x <? y)%F = true -> isnan y = false.
Proof. now destruct x, y. Qed.

(** *** The sort *)

Section Sorting.
Context {A : Type} (key : A -> num).

Lemma insert_by_perm x l : Permutation (insert_by key x l) (x :: l).
Proof.
  induction l as [|y t IH]; cbn; [reflexivity|].
  destruct (key y <? key x)%F; [|reflexivity].
  rewrite IH. apply perm_swap.
Qed.

Lemma sorted_perm l : Permutation (sorted key l) l.
Proof.
  induction l as [|x t IH]; cbn; [reflexivity|].
  fold (sorted key t). rewrite insert_by_perm. now constructor.
Qed.

Lemma sorted_reverse_perm l : Permutation (sorted_reverse key l) l.
Proof.
  unfold sorted_reverse. rewrite <- Permutation_rev, sorted_perm.
  symmetry. apply Permutation_rev.
Qed.

Lemma insert_by_ascending x l :
  isnan (key x) = false -> Forall (fun y => isnan (key y) = false) l ->
  ascending key l -> ascending key (insert_by key x l).
Proof.
  intros Hx Hl Hs. induction Hs as [|y t Hs IH Hy]; cbn.
  - repeat constructor.
  - apply Forall_cons_1 in Hl as [Hny Hl].
    destruct (key y <? key x)%F eqn:E.
    + constructor; [now apply IH|].
      rewrite (insert_by_perm x t). constructor; [now apply flt_fle|exact Hy].
    + assert (Hxy : (key x <=? key y)%F = true) by now apply not_flt_fle.
      constructor; [now constructor|].
      constructor; [exact Hxy|].
      eapply Forall_impl; [exact Hy|]. cbn. intros z Hz.
      eapply fle_trans; eassumption.
Qed.

Lemma sorted_ascending l :
  Forall (fun y => isnan (key y) = false) l -> ascending key (sorted key l).
Proof.
  induction l as [|x t IH]; cbn; intros Hl; [constructor|].
  apply Forall_cons_1 in Hl as [Hx Hl]. fold (sorted key t).
  apply insert_by_ascending; [exact Hx| |now apply IH].
  now rewrite sorted_perm.
Qed.

Lemma ascending_rev l : ascending key l -> descending key (rev l).
Proof.
  induction 1 as [|x t Hs IH Hx]; cbn; [constructor|].
  apply StronglySorted_app_2; [|exact IH|repeat constructor].
  intros a b Ha Hb. apply list_elem_of_singleton in Hb as ->.
  rewrite Forall_forall in Hx. apply Hx.
  apply list_elem_of_In, in_rev. now apply list_elem_of_In.
Qed.

Lemma sorted_reverse_descending l :
  Forall (fun y => isnan (key y) = false) l -> descending key (sorted_reverse key l).
Proof.
  intros Hl. apply ascending_rev, sorted_ascending.
  now rewrite <- Permutation_rev.
Qed.
End Sorting.

(** *** The scan *)

Lemma scan_fold rec price idxs acc :
  foldl (scan_pair rec price) acc idxs =
    (acc.1 ++ List.filter (is_above price) (omap (gap_at rec) idxs),
     acc.2 ++ List.filter (is_below price) (omap (gap_at rec) idxs)).
Proof.
  revert acc. induction idxs as [|i t IH]; intros [a b]; cbn.
  - now rewrite !app_nil_r.
  - rewrite IH. unfold scan_pair.
    destruct (gap_at rec i) as [g|]; [|reflexivity].
    unfold place_gap, is_above, is_below. cbn [fst snd List.filter].
    destruct (level g >? price)%F; cbn [negb andb fst snd].
    + now rewrite <- app_assoc.
    + destruct (level g <? price)%F; cbn [fst snd]; [|reflexivity].
      now rewrite <- app_assoc.
Qed.

Lemma find_all_gaps_unfold df price lookback :
  (3 <= length df)%nat ->
  let rec := recent_rows df lookback in
  let found := omap (gap_at rec) (seq 1 (length rec - 1)) in
  find_all_gaps_comprehensive df price lookback =
    (sorted level (List.filter (is_above price) found),
     sorted_reverse level (List.filter (is_below price) found)).
Proof.
  intros Hlen. cbv zeta. unfold find_all_gaps_comprehensive.
  replace (length df <? 3)%nat with false by (symmetry; apply Nat.ltb_ge; lia).
  rewrite scan_fold. reflexivity.
Qed.

Lemma in_found rec g :
  In g (omap (gap_at rec) (seq 1 (length rec - 1))) <->
  exists i, (1 <= i < length rec)%nat /\ gap_at rec i = Some g.
Proof.
  rewrite <- list_elem_of_In, list_elem_of_omap. split.
  - intros (i & Hi & Hg). exists i. split; [|exact Hg].
    apply elem_of_seq in Hi. lia.
  - intros (i & Hi & Hg). exists i. split; [|exact Hg].
    apply elem_of_seq. lia.
Qed.

Lemma gap_at_age rec i g : gap_at rec i = Some g -> age_days g = (length rec - i)%nat.
Proof.
  unfold gap_at.
  repeat match goal with
  | |- context [match ?x with _ => _ end] =>
      lazymatch x with
      | context [match _ with _ => _ end] => fail
      | _ => destruct x
      end
  end; try discriminate; intros H; injection H as <-; reflexivity.
Qed.

Lemma flt_feqb x y : (x <? y)%F = true -> feqb x y = false /\ feqb y x = false.
Proof.
  destruct x, y; cbn; try discriminate; try (split; reflexivity).
  intros. split; q_solve.
Qed.

Lemma Forall_filter_bool {A} (f : A -> bool) l : Forall (fun x => f x = true) (List.filter f l).
Proof.
  apply Forall_forall. intros x Hx. apply list_elem_of_In, filter_In in Hx. tauto.
Qed.

(** C10: every gap that [find_all_gaps_comprehensive] returns in
    [gaps_above] has its midpoint strictly above the current price, every
    gap in [gaps_below] strictly below it, so no gap whose midpoint equals
    the price is in either list; [gaps_above] is sorted by rising level
    and [gaps_below] by falling level. *)
Theorem gaps_partition df price lookback :
  let '(gaps_above, gaps_below) := find_all_gaps_comprehensive df price lookback in
  Forall (fun g => (price < level g)%F) gaps_above /\
  Forall (fun g => (level g < price)%F) gaps_below /\
  (forall g, In g (gaps_above ++ gaps_below) -> feqb (level g) price = false) /\
  ascending level gaps_above /\
  descending level gaps_below.
Proof.
  destruct (Nat.lt_ge_cases (length df) 3) as [Hlt|Hge].
  - unfold find_all_gaps_comprehensive.
    replace (length df <? 3)%nat with true by (symmetry; apply Nat.ltb_lt; lia).
    repeat split; try constructor. intros g [].
  - rewrite find_all_gaps_unfold by assumption. cbv zeta.
    set (found := omap _ _).
    assert (Ha : Forall (fun g => (price < level g)%F)
                   (sorted level (List.filter (is_above price) found))).
    { rewrite sorted_perm. apply Forall_filter_bool. }
    assert (Hb : Forall (fun g => (level g < price)%F)
                   (sorted_reverse level (List.filter (is_below price) found))).
    { rewrite sorted_reverse_perm.
      eapply Forall_impl; [apply Forall_filter_bool|].
      cbn. unfold is_below. intros g Hg. apply andb_true_iff in Hg. tauto. }
    split; [exact Ha|]. split; [exact Hb|]. split; [|split].
    + intros g Hg. apply in_app_or in Hg as [Hg|Hg].
      * rewrite Forall_forall in Ha. apply list_elem_of_In, Ha in Hg.
        now apply flt_feqb in Hg.
      * rewrite Forall_forall in Hb. apply list_elem_of_In, Hb in Hg.
        now apply flt_feqb in Hg.
    + apply sorted_ascending.
      eapply Forall_impl; [apply Forall_filter_bool|].
      cbn. unfold is_above, fgt. intros g Hg. eapply flt_not_nan_r; eassumption.
    + apply sorted_reverse_descending.
      eapply Forall_impl; [apply Forall_filter_bool|].
      cbn. unfold is_below. intros g Hg. apply andb_true_iff in Hg as [_ Hg].
      eapply flt_not_nan_l; eassumption.
Qed.

(** *** Fill tracking *)

Lemma safe_float_id x : safe_float x = x.
Proof. now destruct x. Qed.

Lemma in_drop {A} (l : list A) i b :
  In b (drop i l) <-> exists j, (i <= j)%nat /\ l !! j = Some b.
Proof.
  rewrite <- list_elem_of_In, list_elem_of_lookup. split.
  - intros (k & Hk). rewrite lookup_drop in Hk. exists (i + k)%nat. split; [lia|exact Hk].
  - intros (j & Hj & Hb). exists (j - i)%nat. rewrite lookup_drop.
    replace (i + (j - i))%nat with j by lia. exact Hb.
Qed.

Lemma filled_from_above_iff rec i bottom :
  filled_from_above (drop i rec) bottom = true <->
  exists j b, (i <= j)%nat /\ rec !! j = Some b /\ (Low b <=? bottom)%F = true.
Proof.
  unfold filled_from_above. rewrite existsb_exists. split.
  - intros (b & Hb & H). rewrite safe_float_id in H.
    apply andb_true_iff in H as [_ H].
    apply in_drop in Hb as (j & Hj & Hb). eauto.
  - intros (j & b & Hj & Hb & H). exists b. split; [apply in_drop; eauto|].
    rewrite safe_float_id, H, andb_true_r. now destruct (Low b).
Qed.

Lemma filled_from_below_iff rec i top :
  filled_from_below (drop i rec) top = true <->
  exists j b, (i <= j)%nat /\ rec !! j = Some b /\ (High b >=? top)%F = true.
Proof.
  unfold filled_from_below. rewrite existsb_exists. split.
  - intros (b & Hb & H). rewrite safe_float_id in H.
    apply andb_true_iff in H as [_ H].
    apply in_drop in Hb as (j & Hj & Hb). eauto.
  - intros (j & b & Hj & Hb & H). exists b. split; [apply in_drop; eauto|].
    rewrite safe_float_id, H, andb_true_r. unfold fge in H. now destruct (High b), top.
Qed.

Lemma gap_at_up rec i prev curr :
  rec !! (i - 1)%nat = Some prev -> rec !! i = Some curr ->
  pair_is_numeric prev curr = true ->
  (Low curr >? High prev)%F = true ->
  gap_at rec i =
    if filled_from_above (drop i rec) (High prev) then None
    else
      match pydiv (Low curr - High prev)%F (High prev) with
      | None => None
      | Some r =>
          Some (mkGap ((High prev + Low curr) / Fin 2)%F (High prev) (Low curr)
                  "GAP_UP" (length rec - i) (r * Fin 100)%F
                  (strength_of (r * Fin 100)%F))
      end.
Proof.
  intros Hp Hc Hn Hup. unfold gap_at. rewrite Hp, Hc, !safe_float_id.
  unfold pair_is_numeric in Hn. apply negb_true_iff in Hn. rewrite Hn, Hup.
  reflexivity.
Qed.

Lemma gap_at_down rec i prev curr :
  rec !! (i - 1)%nat = Some prev -> rec !! i = Some curr ->
  pair_is_numeric prev curr = true ->
  (Low curr >? High prev)%F = false ->
  (High curr <? Low prev)%F = true ->
  gap_at rec i =
    if filled_from_below (drop i rec) (Low prev) then None
    else
      match pydiv (Low prev - High curr)%F (High curr) with
      | None => None
      | Some r =>
          Some (mkGap ((High curr + Low prev) / Fin 2)%F (High curr) (Low prev)
                  "GAP_DOWN" (length rec - i) (r * Fin 100)%F
                  (strength_of (r * Fin 100)%F))
      end.
Proof.
  intros Hp Hc Hn Hup Hdown. unfold gap_at. rewrite Hp, Hc, !safe_float_id.
  unfold pair_is_numeric in Hn. apply negb_true_iff in Hn. rewrite Hn, Hup, Hdown.
  reflexivity.
Qed.

Lemma pydiv_some x y : feqb y (Fin 0) = false -> exists r, pydiv x y = Some r.
Proof.
  unfold pydiv. destruct y as [b| | |]; cbn; eauto.
  intros ->. eauto.
Qed.

(** A row of the result with the age of pair [i] was built at pair [i]. *)
Lemma reported_inv df price lookback i :
  (3 <= length df)%nat ->
  let rec := recent_rows df lookback in
  (1 <= i < length rec)%nat ->
  reported i rec (find_all_gaps_comprehensive df price lookback) ->
  exists g, gap_at rec i = Some g.
Proof.
  intros Hlen rec Hi (g & Hg & Hage).
  rewrite find_all_gaps_unfold in Hg by assumption. cbv zeta in Hg. cbn [fst snd] in Hg.
  fold rec in Hg.
  assert (Hfound : In g (omap (gap_at rec) (seq 1 (length rec - 1)))).
  { apply in_app_or in Hg as [Hg|Hg].
    - apply list_elem_of_In in Hg. rewrite sorted_perm in Hg.
      apply list_elem_of_In, filter_In in Hg. tauto.
    - apply list_elem_of_In in Hg. rewrite sorted_reverse_perm in Hg.
      apply list_elem_of_In, filter_In in Hg. tauto. }
  apply in_found in Hfound as (j & Hj & Hgj).
  pose proof (gap_at_age _ _ _ Hgj) as Hage'.
  assert (j = i) by lia. subst j. eauto.
Qed.

Lemma found_above df price lookback i g :
  (3 <= length df)%nat ->
  let rec := recent_rows df lookback in
  (1 <= i < length rec)%nat ->
  gap_at rec i = Some g ->
  (level g >? price)%F = true ->
  In g (find_all_gaps_comprehensive df price lookback).1.
Proof.
  intros Hlen rec Hi Hg Hup.
  rewrite find_all_gaps_unfold by assumption. cbv zeta. cbn [fst]. fold rec.
  apply list_elem_of_In. rewrite sorted_perm. apply list_elem_of_In, filter_In.
  split; [|exact Hup]. apply in_found. eauto.
Qed.

Lemma found_below df price lookback i g :
  (3 <= length df)%nat ->
  let rec := recent_rows df lookback in
  (1 <= i < length rec)%nat ->
  gap_at rec i = Some g ->
  (level g <? price)%F = true ->
  In g (find_all_gaps_comprehensive df price lookback).2.
Proof.
  intros Hlen rec Hi Hg Hdown.
  rewrite find_all_gaps_unfold by assumption. cbv zeta. cbn [snd]. fold rec.
  apply list_elem_of_In. rewrite sorted_reverse_perm. apply list_elem_of_In, filter_In.
  split; [apply in_found; eauto|].
  unfold is_below, fgt. rewrite Hdown, (flt_asym _ _ Hdown). reflexivity.
Qed.

(** C6, as amended: in a frame of at least three rows, for a pair
    (i-1, i) of the scanned rows whose six values are numbers: a gap up
    (low of i above high of i-1) is absent from both lists once a row at
    index >= i has a low at or under that high; while no such row exists,
    and that high is not zero, it is in [gaps_above] when its midpoint is
    strictly above the current price and in [gaps_below] when strictly
    below.  Mirrored for a gap down that is not also a gap up. *)
Theorem gap_fill_tracking df price lookback i prev curr :
  (3 <= length df)%nat ->
  let rec := recent_rows df lookback in
  let gaps := find_all_gaps_comprehensive df price lookback in
  (1 <= i)%nat ->
  rec !! (i - 1)%nat = Some prev ->
  rec !! i = Some curr ->
  pair_is_numeric prev curr = true ->
  ((Low curr >? High prev)%F = true ->
     ((exists j b, (i <= j)%nat /\ rec !! j = Some b /\
                   (Low b <=? High prev)%F = true) ->
      ~ reported i rec gaps) /\
     ((forall j b, (i <= j)%nat -> rec !! j = Some b ->
                   (Low b <=? High prev)%F = false) ->
      feqb (High prev) (Fin 0) = false ->
      ((((High prev + Low curr) / Fin 2) >? price)%F = true ->
         exists g, In g gaps.1 /\ gap_up_record rec i prev curr g) /\
      ((((High prev + Low curr) / Fin 2) <? price)%F = true ->
         exists g, In g gaps.2 /\ gap_up_record rec i prev curr g))) /\
  ((Low curr >? High prev)%F = false ->
   (High curr <? Low prev)%F = true ->
     ((exists j b, (i <= j)%nat /\ rec !! j = Some b /\
                   (High b >=? Low prev)%F = true) ->
      ~ reported i rec gaps) /\
     ((forall j b, (i <= j)%nat -> rec !! j = Some b ->
                   (High b >=? Low prev)%F = false) ->
      feqb (High curr) (Fin 0) = false ->
      ((((High curr + Low prev) / Fin 2) >? price)%F = true ->
         exists g, In g gaps.1 /\ gap_down_record rec i prev curr g) /\
      ((((High curr + Low prev) / Fin 2) <? price)%F = true ->
         exists g, In g gaps.2 /\ gap_down_record rec i prev curr g))).
Proof.
  intros Hlen rec gaps Hi Hp Hc Hn.
  assert (Hir : (1 <= i < length rec)%nat).
  { split; [exact Hi|]. apply lookup_lt_Some in Hc. exact Hc. }
  split.
  - intros Hup. pose proof (gap_at_up rec i prev curr Hp Hc Hn Hup) as Hgap.
    split.
    + intros Hfill Hrep. apply filled_from_above_iff in Hfill.
      rewrite Hfill in Hgap.
      apply (reported_inv df price lookback i Hlen Hir) in Hrep as (g & Hg).
      fold rec in Hg. congruence.
    + intros Hopen Hnz.
      assert (Hf : filled_from_above (drop i rec) (High prev) = false).
      { apply not_true_iff_false. intros Hf.
        apply filled_from_above_iff in Hf as (j & b & Hj & Hb & Hle).
        rewrite (Hopen j b Hj Hb) in Hle. discriminate. }
      rewrite Hf in Hgap.
      destruct (pydiv_some (Low curr - High prev)%F (High prev) Hnz) as (r & Hr).
      rewrite Hr in Hgap.
      split; intros Hside; eexists; (split;
        [first [eapply found_above | eapply found_below]; eauto
        |repeat split]).
  - intros Hup Hdown.
    pose proof (gap_at_down rec i prev curr Hp Hc Hn Hup Hdown) as Hgap.
    split.
    + intros Hfill Hrep. apply filled_from_below_iff in Hfill.
      rewrite Hfill in Hgap.
      apply (reported_inv df price lookback i Hlen Hir) in Hrep as (g & Hg).
      fold rec in Hg. congruence.
    + intros Hopen Hnz.
      assert (Hf : filled_from_below (drop i rec) (Low prev) = false).
      { apply not_true_iff_false. intros Hf.
        apply filled_from_below_iff in Hf as (j & b & Hj & Hb & Hle).
        rewrite (Hopen j b Hj Hb) in Hle. discriminate. }
      rewrite Hf in Hgap.
      destruct (pydiv_some (Low prev - High curr)%F (High curr) Hnz) as (r & Hr).
      rewrite Hr in Hgap.
      split; intros Hside; eexists; (split;
        [first [eapply found_above | eapply found_below]; eauto
        |repeat split]).
Qed.

Lemma gap_fill_tracking_witness :
  (exists g, In g (find_all_gaps_comprehensive gap_up_days (Fin 100) 120).1 /\
     gap_up_record gap_up_days 1 (day 100 101 99 100) (day 104 106 103 105) g) /\
  ~ reported 1 gap_up_filled_days
      (find_all_gaps_comprehensive gap_up_filled_days (Fin 100) 120).
Proof.
  split.
  - assert (H3 : (3 <= length gap_up_days)%nat) by (simpl; lia).
    destruct (gap_fill_tracking gap_up_days (Fin 100) 120 1
                (day 100 101 99 100) (day 104 106 103 105)
                H3 (le_n 1) eq_refl eq_refl eq_refl) as [Hup _].
    destruct (Hup eq_refl) as [_ Hopen].
    apply Hopen; try reflexivity.
    intros j b Hj Hb.
    destruct j as [|[|[|j]]]; simpl in Hb; try lia;
      inversion Hb; subst; reflexivity.
  - assert (H3 : (3 <= length gap_up_filled_days)%nat) by (simpl; lia).
    destruct (gap_fill_tracking gap_up_filled_days (Fin 100) 120 1
                (day 100 101 99 100) (day 104 106 103 105)
                H3 (le_n 1) eq_refl eq_refl eq_refl) as [Hup _].
    destruct (Hup eq_refl) as [Hfilled _].
    apply Hfilled.
    exists 2%nat, (day 105 107 100.5 106). repeat split. lia.
Defined.

(** C6 as stated fails: an open gap is in neither list when its midpoint
    equals the price, when the frame has two rows, when the pair lies
    before the scanned window, when one of the six values is missing, or
    when the gap starts from a high of zero. *)
Lemma gap_fill_tracking_counterexample :
  (* an unfilled gap up whose midpoint 102 is the current price *)
  (gap_at gap_up_days 1 <> None /\
   find_all_gaps_comprehensive gap_up_days (Fin 102) 120 = ([], [])) /\
  (* the same pair in a frame of two rows *)
  find_all_gaps_comprehensive (take 2 gap_up_days) (Fin 100) 120 = ([], []) /\
  (* the same pair, 121 rows back *)
  find_all_gaps_comprehensive
    (take 2 gap_up_days ++ repeat (day 105 107 104 106) 120) (Fin 100) 120
    = ([], []) /\
  (* the same pair when the second row has no open *)
  find_all_gaps_comprehensive
    [day 100 101 99 100; mkBar NaN (Fin 106) (Fin 103) (Fin 105) (Fin 1000);
     day 105 107 104 106] (Fin 100) 120 = ([], []) /\
  (* a gap up from a high of zero *)
  find_all_gaps_comprehensive
    [day 0 0 0 0; day 104 106 103 105; day 105 107 104 106] (Fin 100) 120
    = ([], []).
Proof.
  repeat split; try (vm_compute; reflexivity). discriminate.
Qed.

(** ** Market phase *)

Lemma iloc_tail_tail {A} (n m : nat) (l : list A) :
  (0 < n <= m)%nat -> (m <= length l)%nat ->
  iloc_tail n (iloc_tail m l) = iloc_tail n l.
Proof.
  intros Hn Hm. unfold iloc_tail, neg_start.
  destruct n as [|n]; [lia|]. destruct m as [|m]; [lia|].
  rewrite length_drop, drop_drop. f_equal. lia.
Qed.

Lemma flt_weaken x (a b : Q) : a <= b -> (x <? Fin a)%F = true -> (x <? Fin b)%F = true.
Proof.
  intros Hab. destruct x; cbn; try discriminate; try reflexivity. intros. q_solve.
Qed.

(** A consolidating frame has 20 rows and its last 20 rows range under 5 %. *)
Lemma consolidating_inv df :
  is_consolidating (detect_consolidation df 20) = true ->
  (20 <= length df)%nat /\
  (range_recent_of df <? Fin 5)%F = true.
Proof.
  unfold detect_consolidation, range_recent_of.
  destruct (length df <? 20)%nat eqn:E; [discriminate|].
  apply Nat.ltb_ge in E. cbn [is_consolidating]. intros H. split; [exact E|exact H].
Qed.

Lemma forming_base_of_consolidation df :
  is_consolidating (detect_consolidation df 20) = true ->
  (60 <= length df)%nat ->
  (range_recent_of (iloc_tail 60 df) <? Fin 8)%F = true.
Proof.
  intros Hc Hlen. apply consolidating_inv in Hc as [_ Hc].
  unfold range_recent_of in *. rewrite iloc_tail_tail by lia.
  eapply flt_weaken; [|exact Hc]. lra.
Qed.

Lemma accumulation_score df :
  (60 <= length df)%nat ->
  exists c1 c4,
    score (detect_accumulation df 60) =
      weighted c1 (volume_decreasing_of (iloc_tail 60 df) 60)
        (range_recent_of (iloc_tail 60 df) <? Fin 8)%F c4 /\
    detected (detect_accumulation df 60) =
      Qleb 2.0 (score (detect_accumulation df 60)).
Proof.
  intros Hlen. unfold detect_accumulation.
  replace (length df <? 60)%nat with false by (symmetry; apply Nat.ltb_ge; lia).
  cbv zeta.
  match goal with
  | |- context [if ?c1 then (1, _) else (0, _)] => exists c1; destruct c1
  end;
  match goal with
  | |- context [if ((3 <=? ?n)%nat && ?c) then _ else _] =>
      exists ((3 <=? n)%nat && c); destruct ((3 <=? n)%nat && c)
  end;
  destruct (volume_decreasing_of _ _), (range_recent_of _ <? Fin 8)%F;
  cbn [fst snd];
  (destruct (Qleb 3.0 _); [|destruct (Qleb 2.0 _)]);
  cbn [score detected]; split; reflexivity.
Qed.

Lemma distribution_score df :
  (60 <= length df)%nat ->
  exists c1 c4,
    score (detect_distribution df 60) =
      weighted c1 (volume_decreasing_of (iloc_tail 60 df) 60)
        (range_recent_of (iloc_tail 60 df) <? Fin 8)%F c4 /\
    detected (detect_distribution df 60) =
      Qleb 2.0 (score (detect_distribution df 60)).
Proof.
  intros Hlen. unfold detect_distribution.
  replace (length df <? 60)%nat with false by (symmetry; apply Nat.ltb_ge; lia).
  cbv zeta.
  match goal with
  | |- context [if ?c1 then (1, _) else (0, _)] => exists c1; destruct c1
  end;
  match goal with
  | |- context [if ((3 <=? ?n)%nat && ?c) then _ else _] =>
      exists ((3 <=? n)%nat && c); destruct ((3 <=? n)%nat && c)
  end;
  destruct (volume_decreasing_of _ _), (range_recent_of _ <? Fin 8)%F;
  cbn [fst snd];
  (destruct (Qleb 3.0 _); [|destruct (Qleb 2.0 _)]);
  cbn [score detected]; split; reflexivity.
Qed.

(** With the base (or top) formed and the volume signal shared, the higher
    of two scores is at least 2.5, a detection. *)
Lemma higher_weighted c1 c1' c2 c4 c4' :
  weighted c1' c2 true c4' < weighted c1 c2 true c4 ->
  Qleb 2.0 (weighted c1 c2 true c4) = true.
Proof.
  destruct c1, c1', c2, c4, c4'; intros H;
    first [reflexivity | vm_compute in H; discriminate H].
Qed.

Lemma higher_score_detected df :
  (60 <= length df)%nat ->
  (range_recent_of (iloc_tail 60 df) <? Fin 8)%F = true ->
  (score (detect_distribution df 60) < score (detect_accumulation df 60) ->
     detected (detect_accumulation df 60) = true) /\
  (score (detect_accumulation df 60) < score (detect_distribution df 60) ->
     detected (detect_distribution df 60) = true).
Proof.
  intros Hlen Hbase.
  destruct (accumulation_score df Hlen) as (a1 & a4 & Ha & Hda).
  destruct (distribution_score df Hlen) as (d1 & d4 & Hd & Hdd).
  rewrite Hda, Hdd, Ha, Hd, Hbase.
  split; apply higher_weighted.
Qed.

Lemma accumulation_phase df lookback :
  detected (detect_accumulation df lookback) = true ->
  In (phase (detect_accumulation df lookback))
    ["STRONG_ACCUMULATION"; "POSSIBLE_ACCUMULATION"]%string.
Proof.
  unfold detect_accumulation. destruct (length df <? lookback)%nat; [discriminate|].
  cbv zeta.
  match goal with
  | |- context [Qleb 3.0 ?s] => generalize s
  end.
  intros s. destruct (Qleb 3.0 s); [cbn; tauto|].
  destruct (Qleb 2.0 s); cbn; [tauto|discriminate].
Qed.

Lemma distribution_phase df lookback :
  detected (detect_distribution df lookback) = true ->
  In (phase (detect_distribution df lookback))
    ["STRONG_DISTRIBUTION"; "POSSIBLE_DISTRIBUTION"]%string.
Proof.
  unfold detect_distribution. destruct (length df <? lookback)%nat; [discriminate|].
  cbv zeta.
  match goal with
  | |- context [Qleb 3.0 ?s] => generalize s
  end.
  intros s. destruct (Qleb 3.0 s); [cbn; tauto|].
  destruct (Qleb 2.0 s); cbn; [tauto|discriminate].
Qed.

Lemma phase_is_listed df last_price :
  In (primary_phase (analyze_market_structure df last_price)) market_phases.
Proof.
  pose proof (accumulation_phase df 60) as Ha.
  pose proof (distribution_phase df 60) as Hd.
  unfold analyze_market_structure.
  revert Ha Hd.
  generalize (detect_consolidation df 20) (detect_accumulation df 60)
    (detect_distribution df 60). intros c a d Ha Hd.
  cbv beta iota zeta.
  destruct (is_consolidating c).
  - destruct (detected a && _); [cbn; tauto|].
    destruct (detected d && _); cbn; tauto.
  - destruct (detected a); cbn [andb].
    + destruct (negb (detected d)); [|destruct (detected d); cbn [andb negb]].
      * cbn [primary_phase]. specialize (Ha eq_refl). cbn in Ha |- *. tauto.
      * cbn. tauto.
      * cbn. tauto.
    + destruct (detected d); cbn [andb negb primary_phase].
      * specialize (Hd eq_refl). cbn in Hd |- *. tauto.
      * cbn. tauto.
Qed.

(** C2: on a consolidating daily frame the classifier returns
    ACCUMULATION_IN_RANGE with multiplier 0.8 when the accumulation score
    is strictly the greater, DISTRIBUTION_IN_RANGE with 0.8 when the
    distribution score is, and PURE_CONSOLIDATION with 0.5 when the scores
    are equal; on any frame the phase is one of the eight labels. *)
Theorem phase_precedence df last_price :
  is_consolidating (detect_consolidation df 20) = true ->
  let ms := analyze_market_structure df last_price in
  let accum_score := score (detect_accumulation df 60) in
  let distrib_score := score (detect_distribution df 60) in
  (distrib_score < accum_score ->
     primary_phase ms = "ACCUMULATION_IN_RANGE"%string /\
     confidence_adjustment ms == 0.8) /\
  (accum_score < distrib_score ->
     primary_phase ms = "DISTRIBUTION_IN_RANGE"%string /\
     confidence_adjustment ms == 0.8) /\
  (accum_score == distrib_score ->
     primary_phase ms = "PURE_CONSOLIDATION"%string /\
     confidence_adjustment ms == 0.5) /\
  (forall df' price',
     In (primary_phase (analyze_market_structure df' price')) market_phases).
Proof.
  intros Hc. cbv zeta.
  assert (Hdet :
    (score (detect_distribution df 60) < score (detect_accumulation df 60) ->
       detected (detect_accumulation df 60) = true) /\
    (score (detect_accumulation df 60) < score (detect_distribution df 60) ->
       detected (detect_distribution df 60) = true)).
  { destruct (Nat.lt_ge_cases (length df) 60) as [Hlt|Hge].
    - rewrite (detect_accumulation_short df 60 Hlt),
              (detect_distribution_short df 60 Hlt).
      cbn [score]. split; intros H; lra.
    - apply higher_score_detected; [exact Hge|].
      now apply forming_base_of_consolidation. }
  destruct Hdet as [Hda Hdd].
  unfold analyze_market_structure. rewrite Hc.
  revert Hda Hdd.
  generalize (detect_consolidation df 20) (detect_accumulation df 60)
    (detect_distribution df 60). intros c a d Hda Hdd.
  cbv beta iota zeta.
  repeat split.
  - rewrite (Hda H). replace (Qltb (score d) (score a)) with true
      by (symmetry; q_solve). reflexivity.
  - rewrite (Hda H). replace (Qltb (score d) (score a)) with true
      by (symmetry; q_solve). reflexivity.
  - replace (Qltb (score d) (score a)) with false by (symmetry; q_solve).
    rewrite andb_false_r, (Hdd H).
    replace (Qltb (score a) (score d)) with true by (symmetry; q_solve).
    reflexivity.
  - replace (Qltb (score d) (score a)) with false by (symmetry; q_solve).
    rewrite andb_false_r, (Hdd H).
    replace (Qltb (score a) (score d)) with true by (symmetry; q_solve).
    reflexivity.
  - replace (Qltb (score d) (score a)) with false by (symmetry; q_solve).
    replace (Qltb (score a) (score d)) with false by (symmetry; q_solve).
    rewrite !andb_false_r. reflexivity.
  - replace (Qltb (score d) (score a)) with false by (symmetry; q_solve).
    replace (Qltb (score a) (score d)) with false by (symmetry; q_solve).
    rewrite !andb_false_r. reflexivity.
  - intros df' price'. apply phase_is_listed.
Qed.

Lemma phase_precedence_witness :
  let ms := analyze_market_structure base_after_decline (Fin 100) in
  let accum_score := score (detect_accumulation base_after_decline 60) in
  let distrib_score := score (detect_distribution base_after_decline 60) in
  (distrib_score < accum_score ->
     primary_phase ms = "ACCUMULATION_IN_RANGE"%string /\
     confidence_adjustment ms == 0.8) /\
  (accum_score < distrib_score ->
     primary_phase ms = "DISTRIBUTION_IN_RANGE"%string /\
     confidence_adjustment ms == 0.8) /\
  (accum_score == distrib_score ->
     primary_phase ms = "PURE_CONSOLIDATION"%string /\
     confidence_adjustment ms == 0.5) /\
  (forall df' price',
     In (primary_phase (analyze_market_structure df' price')) market_phases).
Proof.
  apply (phase_precedence base_after_decline (Fin 100)).
  vm_compute. reflexivity.
Defined.

Example accumulation_in_range_scenario :
  score (detect_accumulation base_after_decline 60) == 2.5 /\
  score (detect_distribution base_after_decline 60) == 1.5 /\
  primary_phase (analyze_market_structure base_after_decline (Fin 100))
    = "ACCUMULATION_IN_RANGE"%string.
Proof. vm_compute. repeat split. Qed.

(** ** RSI *)

(** *** The last row of a derived series *)

Lemma iloc_last_fmap {A B} (f : A -> B) (l : list A) :
  iloc_neg 1 (map f l) = f <$> iloc_neg 1 l.
Proof.
  unfold iloc_neg. rewrite length_map.
  destruct (1 <=? length l)%nat; [|reflexivity].
  apply (list_lookup_fmap f l).
Qed.

Lemma iloc_last_zip_with {A B C} (f : A -> B -> C) l1 l2 x y :
  length l1 = length l2 ->
  iloc_neg 1 l1 = Some x -> iloc_neg 1 l2 = Some y ->
  iloc_neg 1 (zip_with f l1 l2) = Some (f x y).
Proof.
  unfold iloc_neg. intros Hlen. rewrite length_zip_with, <- Hlen, Nat.min_id.
  destruct (1 <=? length l1)%nat; [|discriminate].
  intros H1 H2. rewrite lookup_zip_with, H1. cbn. now rewrite H2.
Qed.

Lemma length_rolling_mean w l : length (rolling_mean w l) = length l.
Proof. apply length_imap. Qed.

Lemma iloc_last_rolling_mean w l :
  l <> [] -> iloc_neg 1 (rolling_mean w l) = Some (window_mean w l).
Proof.
  intros Hl. unfold iloc_neg. rewrite length_rolling_mean.
  assert (Hlen : (1 <= length l)%nat) by (destruct l; [congruence|simpl; lia]).
  replace (1 <=? length l)%nat with true by (symmetry; apply Nat.leb_le; lia).
  unfold rolling_mean. rewrite list_lookup_imap.
  destruct (l !! (length l - 1)%nat) as [x|] eqn:E.
  - cbn. do 2 f_equal. replace (S (length l - 1)) with (length l) by lia.
    apply take_ge. lia.
  - apply lookup_ge_None in E. lia.
Qed.

Lemma length_shift l : length (shift l) = length l.
Proof.
  destruct l as [|x t]; [reflexivity|]. unfold shift.
  cbn [length]. rewrite length_take. cbn [length]. lia.
Qed.

Lemma length_diff l : length (diff l) = length l.
Proof. unfold diff. rewrite length_zip_with, length_shift. lia. Qed.

Lemma calculate_rsi_unfold closes period :
  (period + 1 <= length closes)%nat ->
  calculate_rsi closes period =
    rsi_of (window_mean period (where_pos (diff closes)))
           (window_mean period (map fneg (where_neg (diff closes)))).
Proof.
  intros Hlen. unfold calculate_rsi.
  replace (length closes <? period + 1)%nat with false
    by (symmetry; apply Nat.ltb_ge; lia).
  cbv zeta. unfold safe_float_last.
  assert (Hne : diff closes <> []).
  { intros E. apply (f_equal length) in E. rewrite length_diff in E. simpl in E. lia. }
  rewrite iloc_last_fmap.
  erewrite iloc_last_zip_with.
  - cbn [fmap option_fmap option_map]. apply safe_float_id.
  - rewrite !length_rolling_mean. unfold where_pos, where_neg.
    now rewrite !length_map.
  - apply iloc_last_rolling_mean. unfold where_pos.
    intros E. apply Hne. now apply map_eq_nil in E.
  - apply iloc_last_rolling_mean. unfold where_neg.
    intros E. apply Hne. apply map_eq_nil in E. now apply map_eq_nil in E.
Qed.

(** *** Bounds *)



Lemma fadd_nonneg x y : nonneg x -> nonneg y -> nonneg (x + y)%F.
Proof. destruct x, y; cbn; try tauto. intros. q_norm. lra. Qed.

Lemma fsum_nonneg l : Forall nonneg l -> nonneg (fsum l).
Proof.
  induction 1 as [|x t Hx Ht IH]; cbn; [lra|]. now apply fadd_nonneg.
Qed.

Lemma window_mean_nonneg w l :
  Forall nonneg l -> window_mean w l = NaN \/ nonneg (window_mean w l).
Proof.
  intros Hl. unfold window_mean.
  destruct (length l <? w)%nat eqn:E; [now left|].
  apply Nat.ltb_ge in E.
  set (win := drop (length l - w) l).
  assert (Hwin : Forall nonneg win) by now apply Forall_drop.
  destruct (existsb isnan win); [now left|].
  pose proof (fsum_nonneg win Hwin) as Hs. unfold count.
  assert (Hn : 0 <= inject_Z (Z.of_nat (length win))).
  { change 0 with (inject_Z 0). rewrite <- Zle_Qle. lia. }
  revert Hn. generalize (inject_Z (Z.of_nat (length win))). intros n Hn.
  destruct (fsum win) as [s| | |]; cbn in Hs |- *; try tauto.
  - destruct (Qeqb n 0) eqn:En.
    + destruct (Qeqb s 0) eqn:Es0; [now left|].
      destruct (Qltb 0 s) eqn:Es; [right; exact I|].
      q_reflect. left. exfalso. lra.
    + right. cbn. q_reflect. q_norm.
      apply Qle_shift_div_l; lra.
  - destruct (Qltb n 0) eqn:En; [|right; exact I]. q_reflect. lra.
Qed.



(** *** Scale *)

Section Scale.
Variable c : Q.
Hypothesis c_pos : 0 < c.



















End Scale.




(** Multiplied by 2 the same closes keep their RSI to the last bit. *)
Example rsi_scaled_by_two :
  Doubles.calculate_rsi (map (mul 2) [7; 9; 4; 9]%float) 3
    = Doubles.calculate_rsi [7; 9; 4; 9]%float 3.
Proof. reflexivity. Qed.

(** Scenario 3 of the specification: twenty rising closes, no loss, RSI
    100. *)
Example rsi_without_losses : calculate_rsi rising_closes 14 = Fin 100.
Proof. reflexivity. Qed.

Example rsi_with_one_loss : calculate_rsi dipping_closes 14 = Fin (375 # 4).
Proof. reflexivity. Qed.

(** ** Historical levels *)

Lemma fle_refl x : isnan x = false -> (x <=? x)%F = true.
Proof. destruct x; cbn; try discriminate; try reflexivity. intros. q_solve. Qed.

Lemma dropna_id l : Forall (fun x => isnan x = false) l -> dropna l = l.
Proof.
  induction 1 as [|x t Hx Ht IH]; [reflexivity|].
  unfold dropna in *. cbn. rewrite Hx. cbn. now rewrite IH.
Qed.

Lemma foldl_fmin2_spec l x :
  isnan x = false -> Forall (fun y => isnan y = false) l ->
  In (foldl fmin2 x l) (x :: l) /\
  Forall (fun y => (foldl fmin2 x l <=? y)%F = true) (x :: l).
Proof.
  revert x. induction l as [|y t IH]; intros x Hx Hl; cbn [foldl].
  - split; [now left|]. constructor; [now apply fle_refl|constructor].
  - apply Forall_cons_1 in Hl as [Hy Ht].
    assert (Hm : isnan (fmin2 x y) = false) by (unfold fmin2; now destruct (y <? x)%F).
    destruct (IH (fmin2 x y) Hm Ht) as [Hin Hle].
    apply Forall_cons_1 in Hle as [Hle0 Hle].
    assert (Hx' : (fmin2 x y <=? x)%F = true /\ (fmin2 x y <=? y)%F = true).
    { unfold fmin2. destruct (y <? x)%F eqn:E.
      - split; [now apply flt_fle|now apply fle_refl].
      - split; [now apply fle_refl|now apply not_flt_fle]. }
    split.
    + destruct Hin as [Hin|Hin]; [|right; now right].
      rewrite <- Hin. unfold fmin2. destruct (y <? x)%F; [right; now left|now left].
    + constructor; [eapply fle_trans; [exact Hle0|apply Hx']|].
      constructor; [eapply fle_trans; [exact Hle0|apply Hx']|exact Hle].
Qed.

Lemma foldl_fmax2_spec l x :
  isnan x = false -> Forall (fun y => isnan y = false) l ->
  In (foldl fmax2 x l) (x :: l) /\
  Forall (fun y => (y <=? foldl fmax2 x l)%F = true) (x :: l).
Proof.
  revert x. induction l as [|y t IH]; intros x Hx Hl; cbn [foldl].
  - split; [now left|]. constructor; [now apply fle_refl|constructor].
  - apply Forall_cons_1 in Hl as [Hy Ht].
    assert (Hm : isnan (fmax2 x y) = false) by (unfold fmax2; now destruct (x <? y)%F).
    destruct (IH (fmax2 x y) Hm Ht) as [Hin Hle].
    apply Forall_cons_1 in Hle as [Hle0 Hle].
    assert (Hx' : (x <=? fmax2 x y)%F = true /\ (y <=? fmax2 x y)%F = true).
    { unfold fmax2. destruct (x <? y)%F eqn:E.
      - split; [now apply flt_fle|now apply fle_refl].
      - split; [now apply fle_refl|now apply not_flt_fle]. }
    split.
    + destruct Hin as [Hin|Hin]; [|right; now right].
      rewrite <- Hin. unfold fmax2. destruct (x <? y)%F; [right; now left|now left].
    + constructor; [eapply fle_trans; [apply Hx'|exact Hle0]|].
      constructor; [eapply fle_trans; [apply Hx'|exact Hle0]|exact Hle].
Qed.

(** The minimum of a series without NaN is one of its values and a lower
    bound of all. *)
Lemma series_min_spec l :
  l <> [] -> Forall (fun y => isnan y = false) l ->
  In (series_min l) l /\ Forall (fun y => (series_min l <=? y)%F = true) l.
Proof.
  intros Hne Hl. unfold series_min. rewrite (dropna_id l Hl).
  destruct l as [|x t]; [congruence|].
  apply Forall_cons_1 in Hl as [Hx Ht]. now apply foldl_fmin2_spec.
Qed.

Lemma series_max_spec l :
  l <> [] -> Forall (fun y => isnan y = false) l ->
  In (series_max l) l /\ Forall (fun y => (y <=? series_max l)%F = true) l.
Proof.
  intros Hne Hl. unfold series_max. rewrite (dropna_id l Hl).
  destruct l as [|x t]; [congruence|].
  apply Forall_cons_1 in Hl as [Hx Ht]. now apply foldl_fmax2_spec.
Qed.

Lemma filter_nil_all {A} (f : A -> bool) l :
  List.filter f l = [] -> forall x, In x l -> f x = false.
Proof.
  induction l as [|y t IH]; cbn; [tauto|].
  destruct (f y) eqn:E; [discriminate|].
  intros Ht x [<-|Hx]; [exact E|now apply IH].
Qed.

(** [find_historical_level] returns the nearest level on the asked side of
    the price: as resistance the lowest high strictly above the price among
    the rows [iloc[-lookback_days:-2]], as support the highest low strictly
    below it; it returns NaN exactly when no row of that window has a high
    above (a low below) the price, which includes every frame of fewer than
    three rows. *)
Theorem historical_level_is_nearest df last_price lookback_days :
  let window :=
    if (length df <? 3)%nat then [] else iloc_window lookback_days 2 df in
  let r2 := find_historical_level df last_price true lookback_days in
  let s2 := find_historical_level df last_price false lookback_days in
  ((r2 = NaN /\
    forall b, In b window -> (High b >? last_price)%F = false) \/
   ((last_price <? r2)%F = true /\
    (exists b, In b window /\ High b = r2) /\
    forall b, In b window -> (High b >? last_price)%F = true ->
              (r2 <=? High b)%F = true)) /\
  ((s2 = NaN /\
    forall b, In b window -> (Low b <? last_price)%F = false) \/
   ((s2 <? last_price)%F = true /\
    (exists b, In b window /\ Low b = s2) /\
    forall b, In b window -> (Low b <? last_price)%F = true ->
              (Low b <=? s2)%F = true)).
Proof.
  cbv zeta. unfold find_historical_level.
  destruct (length df <? 3)%nat eqn:Elen.
  { split; left; (split; [reflexivity|intros b []]). }
  remember (iloc_window lookback_days 2 df) as window eqn:Ewin. clear Ewin.
  split.
  - destruct window as [|w0 wt] eqn:Ew; [left; split; [reflexivity|intros b []]|].
    rewrite <- Ew in *. clear Ew.
    set (hs := List.filter (fun h => (h >? last_price)%F) (column High window)).
    assert (Hall : Forall (fun h => (h >? last_price)%F = true) hs)
      by apply Forall_filter_bool.
    assert (Hnn : Forall (fun h => isnan h = false) hs).
    { eapply Forall_impl; [exact Hall|]. intros h Hh. unfold fgt in Hh.
      eapply flt_not_nan_r; eassumption. }
    destruct hs as [|h0 ht] eqn:Eh.
    { left. split; [reflexivity|]. intros b Hb.
      apply (filter_nil_all _ _ Eh (High b)). unfold column.
      apply in_map_iff. eauto. }
    rewrite <- Eh in *.
    right. rewrite safe_float_id.
    assert (Hne : hs <> []) by (rewrite Eh; discriminate).
    destruct (series_min_spec hs Hne Hnn) as [Hin Hle].
    split; [|split].
    + rewrite Forall_forall in Hall. apply Hall. now apply list_elem_of_In.
    + unfold hs in Hin. apply filter_In in Hin as [Hin _].
      unfold column in Hin. apply in_map_iff in Hin as (b & Hb & Hbin). eauto.
    + intros b Hb Hgt. rewrite Forall_forall in Hle. apply Hle.
      apply list_elem_of_In. unfold hs. apply filter_In. split; [|exact Hgt].
      unfold column. apply in_map_iff. eauto.
  - destruct window as [|w0 wt] eqn:Ew; [left; split; [reflexivity|intros b []]|].
    rewrite <- Ew in *. clear Ew.
    set (ls := List.filter (fun l => (l <? last_price)%F) (column Low window)).
    assert (Hall : Forall (fun l => (l <? last_price)%F = true) ls)
      by apply Forall_filter_bool.
    assert (Hnn : Forall (fun l => isnan l = false) ls).
    { eapply Forall_impl; [exact Hall|]. intros l Hl. cbv beta in Hl.
      eapply flt_not_nan_l; eassumption. }
    destruct ls as [|l0 lt] eqn:El.
    { left. split; [reflexivity|]. intros b Hb.
      apply (filter_nil_all _ _ El (Low b)). unfold column.
      apply in_map_iff. eauto. }
    rewrite <- El in *.
    right. rewrite safe_float_id.
    assert (Hne : ls <> []) by (rewrite El; discriminate).
    destruct (series_max_spec ls Hne Hnn) as [Hin Hle].
    split; [|split].
    + rewrite Forall_forall in Hall. apply Hall. now apply list_elem_of_In.
    + unfold ls in Hin. apply filter_In in Hin as [Hin _].
      unfold column in Hin. apply in_map_iff in Hin as (b & Hb & Hbin). eauto.
    + intros b Hb Hlt. rewrite Forall_forall in Hle. apply Hle.
      apply list_elem_of_In. unfold ls. apply filter_In. split; [|exact Hlt].
      unfold column. apply in_map_iff. eauto.
Qed.

(** ** Average true range *)

Lemma fabs_nonneg x : nan_or_nonneg (fabs x).
Proof.
  destruct x as [q| | |]; cbn; [right|right|right|left]; cbn; try exact I; trivial.
  q_norm. apply Qabs_nonneg.
Qed.

Lemma fmax2_nonneg_l x y : nonneg x -> isnan y = false -> nonneg (fmax2 x y).
Proof.
  unfold fmax2. destruct x as [a| | |], y as [b| | |]; cbn; try tauto; try discriminate.
  intros Ha _. destruct (Qltb a b) eqn:E; cbn; q_reflect; lra.
Qed.

Lemma fmax2_nonneg_r x y : isnan x = false -> nonneg y -> nonneg (fmax2 x y).
Proof.
  unfold fmax2. destruct x as [a| | |], y as [b| | |]; cbn; try tauto; try discriminate.
  intros _ Hb. destruct (Qltb a b) eqn:E; cbn; q_reflect; lra.
Qed.

Lemma row_max3_nonneg a b c :
  nan_or_nonneg b -> nan_or_nonneg c ->
  (b = NaN -> c = NaN -> nan_or_nonneg a) ->
  nan_or_nonneg (row_max3 a b c).
Proof.
  unfold row_max3, series_max, dropna, nan_or_nonneg.
  intros [->|Hb] [->|Hc] Ha; cbn [List.filter isnan negb].
  - specialize (Ha eq_refl eq_refl). destruct Ha as [->|Ha]; [now left|].
    right. destruct a; cbn in *; tauto.
  - right. assert (Hnc : isnan c = false) by (destruct c; cbn in *; tauto).
    rewrite Hnc. cbn [negb]. destruct (isnan a) eqn:Ea; cbn [negb foldl]; [exact Hc|].
    now apply fmax2_nonneg_r.
  - right. assert (Hnb : isnan b = false) by (destruct b; cbn in *; tauto).
    rewrite Hnb. cbn [negb]. destruct (isnan a) eqn:Ea; cbn [negb foldl]; [exact Hb|].
    now apply fmax2_nonneg_r.
  - right. assert (Hnb : isnan b = false) by (destruct b; cbn in *; tauto).
    assert (Hnc : isnan c = false) by (destruct c; cbn in *; tauto).
    rewrite Hnb, Hnc. cbn [negb].
    destruct (isnan a) eqn:Ea; cbn [negb foldl].
    + now apply fmax2_nonneg_r.
    + apply fmax2_nonneg_r; [|exact Hc].
      unfold fmax2. destruct (a <? b)%F; assumption.
Qed.

(** With a previous close, the true range of a complete row is never
    negative. *)
Lemma true_range_row_nonneg h l pc :
  isnan h = false -> isnan l = false -> isnan pc = false ->
  nan_or_nonneg (row_max3 (h - l)%F (fabs (h - pc)%F) (fabs (l - pc)%F)).
Proof.
  intros Hh Hl Hp. apply row_max3_nonneg; try apply fabs_nonneg.
  destruct h, l, pc; cbn; try discriminate; intros; try discriminate; now left.
Qed.

Lemma shift_lookup l i :
  (1 <= i < length l)%nat -> shift l !! i = l !! (i - 1)%nat.
Proof.
  intros Hi. destruct l as [|x t]; [simpl in Hi; lia|]. unfold shift.
  destruct i as [|i]; [lia|]. cbn [lookup list_lookup length].
  replace (S (length t) - 1)%nat with (length t) by lia.
  replace (S i - 1)%nat with i by lia.
  apply lookup_take_lt. simpl in Hi. lia.
Qed.

Lemma true_range_lookup df i x :
  (1 <= i)%nat -> true_range df !! i = Some x ->
  exists prev curr,
    df !! (i - 1)%nat = Some prev /\ df !! i = Some curr /\
    x = row_max3 (High curr - Low curr)%F (fabs (High curr - Close prev)%F)
          (fabs (Low curr - Close prev)%F).
Proof.
  intros Hi. unfold true_range. cbv zeta.
  rewrite lookup_zip_with. intros H.
  apply bind_Some in H as (hl & Hhl & H).
  apply bind_Some in H as ([hc lc] & Hp & H). injection H as <-.
  rewrite lookup_zip_with in Hhl.
  apply bind_Some in Hhl as (h & Hh & Hhl).
  apply bind_Some in Hhl as (l & Hl & Hhl). injection Hhl as <-.
  apply lookup_zip_with_Some in Hp as (hc' & lc' & Heq & Hhc & Hlc).
  injection Heq as -> ->.
  rewrite list_lookup_fmap in Hhc, Hlc.
  apply fmap_Some in Hhc as (dh & Hdh & ->).
  apply fmap_Some in Hlc as (dl & Hdl & ->).
  rewrite lookup_zip_with in Hdh, Hdl.
  apply bind_Some in Hdh as (h' & Hh' & Hdh).
  apply bind_Some in Hdh as (pc & Hpc & Hdh). injection Hdh as <-.
  apply bind_Some in Hdl as (l' & Hl' & Hdl).
  apply bind_Some in Hdl as (pc' & Hpc' & Hdl). injection Hdl as <-.
  unfold column in *. rewrite list_lookup_fmap in Hh, Hl, Hh', Hl'.
  apply fmap_Some in Hh as (curr & Hcurr & ->).
  rewrite Hcurr in Hl, Hh', Hl'. cbn in Hl, Hh', Hl'.
  injection Hl as <-. injection Hh' as <-. injection Hl' as <-.
  assert (Hlen : (i < length df)%nat) by (eapply lookup_lt_Some; eassumption).
  rewrite shift_lookup in Hpc, Hpc' by (rewrite length_map; lia).
  rewrite list_lookup_fmap in Hpc, Hpc'.
  apply fmap_Some in Hpc as (prev & Hprev & ->).
  rewrite Hprev in Hpc'. cbn in Hpc'. injection Hpc' as <-.
  exists prev, curr. repeat split; assumption.
Qed.

Lemma length_true_range df : length (true_range df) = length df.
Proof.
  unfold true_range. cbv zeta. unfold column.
  rewrite !length_zip_with, !length_map, !length_zip_with,
    !length_map, length_shift, !length_map. lia.
Qed.

Lemma window_mean_nan_or_nonneg w l :
  Forall nan_or_nonneg (drop (length l - w) l) ->
  nan_or_nonneg (window_mean w l).
Proof.
  intros Hwin. unfold window_mean.
  destruct (length l <? w)%nat; [now left|].
  destruct (existsb isnan (drop (length l - w) l)) eqn:En; [now left|].
  assert (Hnn : Forall nonneg (drop (length l - w) l)).
  { rewrite Forall_forall in Hwin |- *. intros x Hx.
    destruct (Hwin x Hx) as [->|H]; [|exact H].
    exfalso. apply not_true_iff_false in En. apply En.
    apply existsb_exists. exists NaN. split; [now apply list_elem_of_In|reflexivity]. }
  pose proof (window_mean_nonneg (length (drop (length l - w) l))
                (drop (length l - w) l) Hnn) as H.
  unfold window_mean in H. rewrite Nat.ltb_irrefl, Nat.sub_diag, drop_0, En in H.
  exact H.
Qed.

(** [safe_atr] on rows without NaN: the result is NaN or at least zero, also
    for rows whose high lies below their low, because the first row, the only
    one whose true range is the bare high-low difference, is never in the
    averaged window; with fewer than [period + 1] rows it is NaN. *)
Theorem atr_never_negative df period :
  Forall (fun b => row_complete b = true) df ->
  nan_or_nonneg (safe_atr df period) /\
  ((length df < period + 1)%nat -> safe_atr df period = NaN).
Proof.
  intros Hrows. unfold safe_atr.
  destruct (length df <? period + 1)%nat eqn:Elen; [split; [now left|reflexivity]|].
  apply Nat.ltb_ge in Elen. split; [|intros; lia].
  unfold safe_float_last.
  assert (Hne : true_range df <> []).
  { intros E. apply (f_equal length) in E. rewrite length_true_range in E.
    simpl in E. lia. }
  rewrite (iloc_last_rolling_mean period _ Hne), safe_float_id.
  apply window_mean_nan_or_nonneg.
  rewrite length_true_range. apply Forall_lookup. intros k x Hk.
  rewrite lookup_drop in Hk.
  apply true_range_lookup in Hk as (prev & curr & Hp & Hc & ->); [|lia].
  rewrite Forall_lookup in Hrows.
  pose proof (Hrows _ _ Hp) as Hrp. pose proof (Hrows _ _ Hc) as Hrc.
  unfold row_complete in Hrp, Hrc. apply negb_true_iff in Hrp, Hrc.
  cbn [existsb] in Hrp, Hrc. rewrite !orb_false_iff in Hrp, Hrc.
  apply true_range_row_nonneg; tauto.
Qed.

Lemma atr_never_negative_witness :
  nan_or_nonneg (safe_atr five_minute_bars 14) /\
  safe_atr five_minute_bars 14 = Fin 1.
Proof.
  split; [|reflexivity].
  apply (atr_never_negative five_minute_bars 14).
  repeat constructor.
Defined.

(** ** Recent gaps *)

Lemma recent_gap_at_inv df p k g :
  recent_gap_at df p k = Some g ->
  rg_age_days g = k /\ (rg_size_pct g >? GAP_THRESHOLD_PCT)%F = true /\
  on_fill_side p g.
Proof.
  unfold recent_gap_at.
  destruct (length df <? k)%nat; [discriminate|].
  destruct (iloc_neg (S k) df) as [prev|]; [|discriminate].
  destruct (iloc_neg k df) as [curr|]; [|discriminate].
  cbv zeta.
  destruct (existsb isnan _); [discriminate|].
  destruct (_ >? _)%F.
  - destruct (pydiv _ _) as [r|]; [|discriminate].
    destruct (_ >? GAP_THRESHOLD_PCT)%F eqn:Esz; [|discriminate].
    destruct (negb _ && _) eqn:Ec; [|discriminate].
    intros [= <-]. cbn. apply andb_true_iff in Ec as [_ Ec].
    split; [reflexivity|]. split; [exact Esz|]. left. auto.
  - destruct (_ <? _)%F; [|discriminate].
    destruct (pydiv _ _) as [r|]; [|discriminate].
    destruct (_ >? GAP_THRESHOLD_PCT)%F eqn:Esz; [|discriminate].
    destruct (negb _ && _) eqn:Ec; [|discriminate].
    intros [= <-]. cbn. apply andb_true_iff in Ec as [_ Ec].
    split; [reflexivity|]. split; [exact Esz|]. right. auto.
Qed.

Lemma distance_not_nan a b :
  ((a <? b)%F = true \/ (b <? a)%F = true) -> isnan (fabs (a - b)%F) = false.
Proof.
  destruct a, b; cbn; intros [H|H]; try discriminate; reflexivity.
Qed.

Lemma on_fill_side_distance p g :
  on_fill_side p g -> isnan (distance_to p g) = false.
Proof.
  intros [(_ & _ & H)|(_ & _ & H)]; apply distance_not_nan; auto.
Qed.

Lemma ascending_head {A} (key : A -> num) x l :
  isnan (key x) = false -> ascending key (x :: l) ->
  Forall (fun y => (key x <=? key y)%F = true) (x :: l).
Proof.
  intros Hx Hs. apply StronglySorted_inv in Hs as [_ Hs].
  constructor; [now apply fle_refl|]. apply Forall_forall.
  intros y Hy. rewrite List.Forall_forall in Hs. apply Hs. now apply list_elem_of_In.
Qed.

Lemma pydiv_inv x y r :
  pydiv x y = Some r -> feqb y (Fin 0) = false /\ r = (x / y)%F.
Proof.
  unfold pydiv. destruct y as [b| | |]; cbn.
  - destruct (Qeqb b 0) eqn:E; [discriminate|]. intros [= <-]. auto.
  - intros [= <-]. auto.
  - intros [= <-]. auto.
  - intros [= <-]. auto.
Qed.

Lemma filled_from_above_false rows lvl :
  filled_from_above rows lvl = false <-> lows_stay_above rows lvl.
Proof.
  unfold filled_from_above, lows_stay_above.
  induction rows as [|b t IH]; cbn [existsb].
  - split; [constructor|reflexivity].
  - rewrite orb_false_iff, IH, safe_float_id. split.
    + intros [H Ht]. constructor; [|exact Ht].
      destruct (Low b), lvl; cbn in *; auto.
    + intros H. apply Forall_cons_1 in H as [H Ht]. split; [|exact Ht].
      rewrite H. apply andb_false_r.
Qed.

Lemma filled_from_below_false rows lvl :
  filled_from_below rows lvl = false <-> highs_stay_below rows lvl.
Proof.
  unfold filled_from_below, highs_stay_below.
  induction rows as [|b t IH]; cbn [existsb].
  - split; [constructor|reflexivity].
  - rewrite orb_false_iff, IH, safe_float_id. split.
    + intros [H Ht]. constructor; [|exact Ht].
      unfold fge in *. destruct (High b), lvl; cbn in *; auto.
    + intros H. apply Forall_cons_1 in H as [H Ht]. split; [|exact Ht].
      rewrite H. apply andb_false_r.
Qed.

Lemma pydiv_some_iff x y r :
  pydiv x y = Some r <-> feqb y (Fin 0) = false /\ r = (x / y)%F.
Proof.
  split; [apply pydiv_inv|]. intros [Hy ->]. unfold pydiv.
  destruct y as [b| | |]; try reflexivity. cbn in Hy. now rewrite Hy.
Qed.

(** One turn of the loop records [g] exactly when the pair is an unfilled
    gap for the price. *)
Lemma recent_gap_at_iff df p k g :
  recent_gap_at df p k = Some g <-> open_recent_gap df p k g.
Proof.
  unfold recent_gap_at, open_recent_gap. split.
  - destruct (length df <? k)%nat; [discriminate|].
    destruct (iloc_neg (S k) df) as [prev|]; [|discriminate].
    destruct (iloc_neg k df) as [curr|]; [|discriminate].
    cbv zeta. rewrite !safe_float_id. fold (pair_is_numeric prev curr).
    destruct (existsb isnan _) eqn:En; [discriminate|].
    intros H. exists prev, curr. split; [reflexivity|]. split; [reflexivity|].
    split; [unfold pair_is_numeric; now rewrite En|].
    destruct (Low curr >? High prev)%F eqn:Eup.
    + destruct (pydiv _ _) as [r|] eqn:Er; [|discriminate].
      apply pydiv_inv in Er as [Hz ->].
      destruct (_ >? GAP_THRESHOLD_PCT)%F eqn:Esz; [|discriminate].
      destruct (negb _ && _) eqn:Ec; [|discriminate].
      injection H as <-. apply andb_true_iff in Ec as [Ef Ec].
      apply negb_true_iff, filled_from_above_false in Ef.
      left. repeat split; assumption.
    + destruct (High curr <? Low prev)%F eqn:Edown; [|discriminate].
      destruct (pydiv _ _) as [r|] eqn:Er; [|discriminate].
      apply pydiv_inv in Er as [Hz ->].
      destruct (_ >? GAP_THRESHOLD_PCT)%F eqn:Esz; [|discriminate].
      destruct (negb _ && _) eqn:Ec; [|discriminate].
      injection H as <-. apply andb_true_iff in Ec as [Ef Ec].
      apply negb_true_iff, filled_from_below_false in Ef.
      right. repeat split; assumption.
  - intros (prev & curr & Hp & Hc & Hn & H).
    pose proof (iloc_neg_length _ _ _ Hp) as Hlen.
    replace (length df <? k)%nat with false by (symmetry; apply Nat.ltb_ge; lia).
    rewrite Hp, Hc. cbv zeta. rewrite !safe_float_id.
    unfold pair_is_numeric in Hn. apply negb_true_iff in Hn. rewrite Hn.
    destruct H as [(Eup & Hz & Hsz & Hf & Hside & ->)
                  |(Eup & Edown & Hz & Hsz & Hf & Hside & ->)].
    + rewrite Eup.
      rewrite (proj2 (pydiv_some_iff _ _ _) (conj Hz eq_refl)).
      cbn [rg_size_pct] in Hsz. rewrite Hsz.
      apply filled_from_above_false in Hf. rewrite Hf, Hside. reflexivity.
    + rewrite Eup, Edown.
      rewrite (proj2 (pydiv_some_iff _ _ _) (conj Hz eq_refl)).
      cbn [rg_size_pct] in Hsz. rewrite Hsz.
      apply filled_from_below_false in Hf. rewrite Hf, Hside. reflexivity.
Qed.

(** [detect_cme_gap_improved] looks at the last seven pairs of daily rows.
    On a frame of at least five rows the list it returns holds exactly the
    records of the pairs that are unfilled gaps for the price, nearest
    level first; on a shorter frame it is empty.  Its answer is the head
    of that list, the unfilled gap nearest to the price: SHORT_TO_FILL
    with a level strictly under the price for a gap up, LONG_TO_FILL with
    a level strictly over it for a gap down.  NO_GAP comes with NaN, and
    exactly when the list is empty. *)
Theorem nearest_recent_gap df last_price :
  let '(signal, lvl, gaps) := detect_cme_gap_improved df last_price in
  (forall h, In h gaps <->
             (5 <= length df)%nat /\
             exists k, (1 <= k <= 7)%nat /\ open_recent_gap df last_price k h) /\
  ascending (distance_to last_price) gaps /\
  match gaps with
  | [] => signal = "NO_GAP"%string /\ lvl = NaN
  | g :: _ =>
      lvl = rg_level g /\
      ((signal = "SHORT_TO_FILL"%string /\ rg_type g = "GAP_UP"%string /\
        (lvl <? last_price)%F = true) \/
       (signal = "LONG_TO_FILL"%string /\ rg_type g = "GAP_DOWN"%string /\
        (last_price <? lvl)%F = true)) /\
      Forall (fun h => (distance_to last_price g <=? distance_to last_price h)%F = true)
        gaps
  end.
Proof.
  unfold detect_cme_gap_improved.
  destruct (length df <? 5)%nat eqn:Elen.
  { apply Nat.ltb_lt in Elen. split; [|split; [constructor|auto]].
    intros h. split; [intros []|]. intros [H _]. lia. }
  apply Nat.ltb_ge in Elen.
  set (found := omap (recent_gap_at df last_price) [7; 6; 5; 4; 3; 2; 1]%nat).
  fold (distance_to last_price).
  assert (Hin : forall h, In h found <->
            (5 <= length df)%nat /\
            exists k, (1 <= k <= 7)%nat /\ open_recent_gap df last_price k h).
  { intros h. rewrite <- list_elem_of_In. unfold found.
    rewrite list_elem_of_omap. split.
    - intros (k & Hk & Hh). split; [exact Elen|]. exists k.
      split; [|now apply recent_gap_at_iff].
      apply list_elem_of_In in Hk. cbn in Hk. intuition lia.
    - intros (_ & k & Hk & Hh). exists k.
      split; [|now apply recent_gap_at_iff].
      apply list_elem_of_In. cbn. lia. }
  assert (Hf : Forall (on_fill_side last_price) found).
  { apply Forall_forall. intros h Hh. unfold found in Hh.
    apply list_elem_of_omap in Hh as (k & _ & Hh).
    now apply recent_gap_at_inv in Hh as (_ & _ & Ho). }
  assert (Hn : Forall (fun h => isnan (distance_to last_price h) = false) found).
  { eapply Forall_impl; [exact Hf|]. intros h Ho.
    now apply on_fill_side_distance. }
  pose proof (sorted_ascending (distance_to last_price) found Hn) as Hasc.
  pose proof (sorted_perm (distance_to last_price) found) as Hperm.
  destruct (sorted (distance_to last_price) found) as [|g rest] eqn:Es.
  { split; [|split; [constructor|auto]].
    intros h. rewrite <- Hin. apply Permutation_nil in Hperm. now rewrite Hperm. }
  assert (Hg : on_fill_side last_price g).
  { rewrite <- Hperm in Hf. now apply Forall_cons_1 in Hf as [Hg _]. }
  assert (Hhead := ascending_head _ g rest (on_fill_side_distance _ _ Hg) Hasc).
  assert (Hmem : forall h, In h (g :: rest) <->
            (5 <= length df)%nat /\
            exists k, (1 <= k <= 7)%nat /\ open_recent_gap df last_price k h).
  { intros h. rewrite <- Hin, <- !list_elem_of_In. now rewrite Hperm. }
  destruct Hg as [(Ht & Hd & Hl)|(Ht & Hd & Hl)]; rewrite Hd;
    cbn [String.eqb Ascii.eqb Bool.eqb];
    (split; [exact Hmem|split; [exact Hasc|]]);
    (split; [reflexivity|split; [|exact Hhead]]); [left|right]; auto.
Qed.

Example recent_gap_up_found :
  detect_cme_gap_improved recent_gap_days (Fin 106)
  = ("SHORT_TO_FILL"%string, Fin 101,
     [mkRecentGap (Fin 101) "GAP_UP" (Fin (200 # 101)) 2 "DOWN_TO_FILL"]).
Proof. reflexivity. Qed.

(** ** Gap records *)

Lemma midpoint_between b t :
  (b <? t)%F = true -> isnan ((b + t) / Fin 2)%F = false ->
  (b <=? (b + t) / Fin 2)%F = true /\ ((b + t) / Fin 2 <=? t)%F = true.
Proof.
  destruct b as [b| | |], t as [t| | |]; cbn; try discriminate; auto.
  intros H _. change (Qeqb 2 0) with false. cbn. split; q_solve.
Qed.

Lemma gap_at_inv rec i g :
  (1 <= i < length rec)%nat -> gap_at rec i = Some g ->
  isnan (level g) = false -> gap_well_formed (length rec) g.
Proof.
  intros Hi. unfold gap_at.
  destruct (rec !! (i - 1)%nat) as [prev|]; [|discriminate].
  destruct (rec !! i) as [curr|]; [|discriminate].
  cbv zeta. destruct (existsb isnan _); [discriminate|].
  destruct (safe_float (Low curr) >? safe_float (High prev))%F eqn:Eup.
  - destruct (filled_from_above _ _); [discriminate|].
    destruct (pydiv _ _) as [r|] eqn:Er; [|discriminate].
    intros [= <-]. cbn. intros Hn.
    apply pydiv_inv in Er as [Hz ->].
    constructor; cbn; auto; [now apply midpoint_between|lia].
  - destruct (safe_float (High curr) <? safe_float (Low prev))%F eqn:Edn; [|discriminate].
    destruct (filled_from_below _ _); [discriminate|].
    destruct (pydiv _ _) as [r|] eqn:Er; [|discriminate].
    intros [= <-]. cbn. intros Hn.
    apply pydiv_inv in Er as [Hz ->].
    constructor; cbn; auto; [now apply midpoint_between|lia].
Qed.

Lemma length_recent_rows df lookback :
  (length (recent_rows df lookback) <= length df)%nat.
Proof.
  unfold recent_rows, iloc_tail.
  destruct (lookback <=? length df)%nat; [|lia]. rewrite length_drop. lia.
Qed.

(** Every gap that [find_all_gaps_comprehensive] returns, above or below the
    price, has its bottom strictly under its top, its level at their
    midpoint and between them, a bottom other than zero (the size is a
    quotient by it), the strength that its size gives, one of the two types,
    and an age of at least one day and less than the number of rows. *)
Theorem gaps_well_formed df price lookback :
  let gaps := find_all_gaps_comprehensive df price lookback in
  Forall (gap_well_formed (length df)) (gaps.1 ++ gaps.2).
Proof.
  cbv zeta. destruct (Nat.lt_ge_cases (length df) 3) as [Hlt|Hge].
  { unfold find_all_gaps_comprehensive.
    replace (length df <? 3)%nat with true by (symmetry; apply Nat.ltb_lt; lia).
    constructor. }
  rewrite find_all_gaps_unfold by assumption. cbv zeta. cbn [fst snd].
  set (rec := recent_rows df lookback).
  rewrite sorted_perm, sorted_reverse_perm.
  apply Forall_app. split; apply Forall_forall; intros g Hg;
    apply list_elem_of_In, filter_In in Hg as [Hg Hside];
    apply in_found in Hg as (i & Hi & Hg).
  - assert (Hn : isnan (level g) = false).
    { unfold is_above, fgt in Hside. eapply flt_not_nan_r; eassumption. }
    destruct (gap_at_inv rec i g Hi Hg Hn).
    pose proof (length_recent_rows df lookback). fold rec in H.
    constructor; auto; lia.
  - assert (Hn : isnan (level g) = false).
    { unfold is_below in Hside. apply andb_true_iff in Hside as [_ Hside].
      eapply flt_not_nan_l; eassumption. }
    destruct (gap_at_inv rec i g Hi Hg Hn).
    pose proof (length_recent_rows df lookback). fold rec in H.
    constructor; auto; lia.
Qed.

(** ** Historical gaps of the first script *)

Lemma scan_hist_fold rec price idxs acc :
  foldl (scan_hist_pair rec price) acc idxs =
    (acc.1 ++ appended_to Above (omap (hist_gap_at rec price) idxs),
     acc.2 ++ appended_to Below (omap (hist_gap_at rec price) idxs)).
Proof.
  revert acc. induction idxs as [|i t IH]; intros [a b]; cbn [foldl omap].
  - cbn. now rewrite !app_nil_r.
  - rewrite IH. unfold scan_hist_pair. cbn [omap list_omap].
    destruct (hist_gap_at rec price i) as [[[| |] g]|]; cbn [fst snd appended_to omap list_omap];
      rewrite <- ?app_assoc; reflexivity.
Qed.

Lemma find_historical_gaps_unfold df price lookback :
  (3 <= length df)%nat ->
  let rec := recent_rows df lookback in
  let found := omap (hist_gap_at rec price) (seq 1 (length rec - 1)) in
  find_historical_gaps df price lookback =
    (sorted hg_level (appended_to Above found),
     sorted_reverse hg_level (appended_to Below found)).
Proof.
  intros Hlen. cbv zeta. unfold find_historical_gaps.
  replace (length df <? 3)%nat with false by (symmetry; apply Nat.ltb_ge; lia).
  rewrite scan_hist_fold. reflexivity.
Qed.

Lemma in_appended side rec price g :
  In g (appended_to side (omap (hist_gap_at rec price) (seq 1 (length rec - 1)))) ->
  (side = Above \/ side = Below) /\
  exists i, (1 <= i < length rec)%nat /\ hist_gap_at rec price i = Some (side, g).
Proof.
  intros H. apply list_elem_of_In in H. unfold appended_to in H.
  apply list_elem_of_omap in H as ([s g'] & Hin & Hs).
  apply list_elem_of_omap in Hin as (i & Hi & Hg).
  apply elem_of_seq in Hi. cbn [fst snd] in Hs.
  destruct s, side; try discriminate; injection Hs as ->;
    (split; [auto|exists i; split; [lia|exact Hg]]).
Qed.

Lemma side_of_above l p : side_of l p = Above <-> (l >? p)%F = true.
Proof.
  unfold side_of. destruct (l >? p)%F; [tauto|].
  destruct (l <? p)%F; split; discriminate.
Qed.

Lemma side_of_below l p : side_of l p = Below -> (l <? p)%F = true.
Proof.
  unfold side_of. destruct (l >? p)%F; [discriminate|].
  destruct (l <? p)%F; [reflexivity|discriminate].
Qed.

Lemma drop_iloc_tail {A} (l : list A) i :
  (1 <= i < length l)%nat -> iloc_tail (length l - i) l = drop i l.
Proof.
  intros Hi. unfold iloc_tail, neg_start.
  destruct (length l - i)%nat as [|n] eqn:E; [lia|]. rewrite <- E.
  f_equal. lia.
Qed.

Lemma hist_gap_at_inv rec price i side g :
  (1 <= i < length rec)%nat ->
  hist_gap_at rec price i = Some (side, g) ->
  side_of (hg_level g) price = side /\
  hg_age_days g = (length rec - i)%nat /\
  still_open rec g.
Proof.
  intros Hi. unfold hist_gap_at, still_open.
  destruct (rec !! (i - 1)%nat) as [prev|]; [|discriminate].
  destruct (rec !! i) as [curr|]; [|discriminate].
  cbv zeta. destruct (existsb isnan _); [discriminate|].
  destruct (_ >? _)%F.
  - destruct (filled_from_above _ _) eqn:Ef; [discriminate|].
    destruct (side_of _ _) eqn:Es; [| |discriminate];
      (destruct (pydiv _ _) as [r|]; [|discriminate]); cbn;
      intros [= <- <-]; cbn; rewrite drop_iloc_tail by assumption; auto.
  - destruct (_ <? _)%F; [|discriminate].
    destruct (filled_from_below _ _) eqn:Ef; [discriminate|].
    destruct (side_of _ _) eqn:Es; [| |discriminate];
      (destruct (pydiv _ _) as [r|]; [|discriminate]); cbn;
      intros [= <- <-]; cbn; rewrite drop_iloc_tail by assumption; auto.
Qed.

(** [find_historical_gaps] of the first script: the gaps above have their
    level, the close before the opening jump, strictly above the price and
    come by rising level; the gaps below have it strictly below and come by
    falling level.  Every gap returned is at least one day old and still
    open: from the day it opened on, no low has come down to the level of a
    gap up and no high has come up to the level of a gap down. *)
Theorem historical_gaps_open df price lookback :
  let gaps := find_historical_gaps df price lookback in
  let rec := recent_rows df lookback in
  Forall (fun g => (price < hg_level g)%F) gaps.1 /\
  Forall (fun g => (hg_level g < price)%F) gaps.2 /\
  ascending hg_level gaps.1 /\
  descending hg_level gaps.2 /\
  Forall (fun g => (1 <= hg_age_days g < length rec)%nat /\ still_open rec g)
    (gaps.1 ++ gaps.2).
Proof.
  cbv zeta. destruct (Nat.lt_ge_cases (length df) 3) as [Hlt|Hge].
  { unfold find_historical_gaps.
    replace (length df <? 3)%nat with true by (symmetry; apply Nat.ltb_lt; lia).
    cbn. repeat split; constructor. }
  rewrite find_historical_gaps_unfold by assumption. cbv zeta. cbn [fst snd].
  set (rec := recent_rows df lookback).
  set (found := omap _ _).
  assert (Ha : Forall (fun g => (price < hg_level g)%F) (appended_to Above found)).
  { apply Forall_forall. intros g Hg. apply list_elem_of_In, in_appended in Hg
      as (_ & i & Hi & Hg).
    apply hist_gap_at_inv in Hg as (Hs & _); [|exact Hi].
    apply side_of_above in Hs. exact Hs. }
  assert (Hb : Forall (fun g => (hg_level g < price)%F) (appended_to Below found)).
  { apply Forall_forall. intros g Hg. apply list_elem_of_In, in_appended in Hg
      as (_ & i & Hi & Hg).
    apply hist_gap_at_inv in Hg as (Hs & _); [|exact Hi].
    apply side_of_below in Hs. exact Hs. }
  split; [now rewrite sorted_perm|]. split; [now rewrite sorted_reverse_perm|].
  split; [|split].
  - apply sorted_ascending. eapply Forall_impl; [exact Ha|].
    intros g Hg. eapply flt_not_nan_r; exact Hg.
  - apply sorted_reverse_descending. eapply Forall_impl; [exact Hb|].
    intros g Hg. eapply flt_not_nan_l; exact Hg.
  - rewrite sorted_perm, sorted_reverse_perm.
    apply Forall_app. split; apply Forall_forall; intros g Hg;
      apply list_elem_of_In, in_appended in Hg as (_ & i & Hi & Hg);
      apply hist_gap_at_inv in Hg as (_ & Hage & Hopen); try exact Hi;
      (split; [lia|exact Hopen]).
Qed.


Example historical_gap_below_found :
  find_historical_gaps open_jump_days (Fin 107) 60
  = ([], [mkHistGap (Fin 100) "GAP_UP" 3 (Fin 4)]).
Proof. reflexivity. Qed.

(** ** Liquidation confluence *)

Lemma fge_trans_fin x a b :
  (b <= a)%Q -> (x >=? Fin a)%F = true -> (x >=? Fin b)%F = true.
Proof.
  intros Hab. destruct x as [q| | |]; cbn; try discriminate; auto.
  intros H. q_solve.
Qed.

Lemma fge_false_fin x a b :
  (a <= b)%Q -> (x >=? Fin a)%F = false -> (x >=? Fin b)%F = false.
Proof.
  intros Hab. destruct x as [q| | |]; cbn; try discriminate; auto.
  intros H. q_solve.
Qed.

Lemma eqb_true s t : String.eqb s t = true -> s = t.
Proof. apply String.eqb_eq. Qed.

(** [analyze_gap_confluence]: a confluence is reported exactly when the
    liquidated volume within the tolerance of the gap reaches 250 000 USD;
    without one the boost is zero; the boost is one of 0, 0.5, 0.8, 1.2,
    1.5 and 2; 1.5 or more needs the dominant liquidated side to run
    against the gap signal, and 1.2 or 2 need a volume of a million. *)
Theorem confluence_boost_table gap_price gap_type liq_df tolerance_pct :
  let c := analyze_gap_confluence gap_price gap_type liq_df tolerance_pct in
  (has_confluence c = (total_liq_volume c >=? Fin 250000)%F) /\
  (has_confluence c = false -> confidence_boost c = 0.0) /\
  In (confidence_boost c) [0.0; 0.5; 0.8; 1.2; 1.5; 2.0] /\
  (1.5 <= confidence_boost c -> opposing gap_type (dominant_side c)) /\
  (1 < confidence_boost c -> confidence_boost c <> 1.5 ->
   (total_liq_volume c >=? Fin 1000000)%F = true).
Proof.
  cbv zeta. unfold analyze_gap_confluence.
  assert (Hno : (has_confluence no_confluence
                 = (total_liq_volume no_confluence >=? Fin 250000)%F) /\
    (has_confluence no_confluence = false -> confidence_boost no_confluence = 0.0) /\
    In (confidence_boost no_confluence) [0.0; 0.5; 0.8; 1.2; 1.5; 2.0] /\
    (1.5 <= confidence_boost no_confluence ->
     opposing gap_type (dominant_side no_confluence)) /\
    (1 < confidence_boost no_confluence -> confidence_boost no_confluence <> 1.5 ->
     (total_liq_volume no_confluence >=? Fin 1000000)%F = true)).
  { cbn. repeat split; auto; intros; lra. }
  destruct liq_df as [[|r0 rows]|]; try exact Hno.
  cbv zeta.
  destruct (List.filter _ (r0 :: rows)) as [|n0 near] eqn:Enear; [exact Hno|].
  clear Hno.
  set (total := series_sum _).
  set (long_vol := volume_of_type "LONG_LIQ" _).
  set (short_vol := volume_of_type "SHORT_LIQ" _).
  set (dom := if (long_vol >? short_vol * Fin 1.5)%F then _ else _).
  destruct (total >=? Fin 1000000)%F eqn:E1.
  { assert (E3 : (total >=? Fin 250000)%F = true)
      by (eapply fge_trans_fin; [|exact E1]; lra).
    cbn [has_confluence confidence_boost total_liq_volume dominant_side].
    split; [now rewrite E3|]. split; [discriminate|].
    destruct (String.eqb gap_type "SHORT_TO_FILL") eqn:Es.
    - apply eqb_true in Es.
      destruct (String.eqb dom "LONG_LIQ") eqn:Ed.
      + apply eqb_true in Ed. repeat split; cbn; auto 10.
        intros _. left. auto.
      + destruct (long_vol >? short_vol)%F; repeat split; cbn; auto 10; intros; lra.
    - destruct (String.eqb gap_type "LONG_TO_FILL") eqn:El.
      + apply eqb_true in El.
        destruct (String.eqb dom "SHORT_LIQ") eqn:Ed.
        * apply eqb_true in Ed. repeat split; cbn; auto 10.
          intros _. right. auto.
        * destruct (short_vol >? long_vol)%F; repeat split; cbn; auto 10; intros; lra.
      + repeat split; cbn; auto 10; intros; lra. }
  destruct (total >=? Fin 500000)%F eqn:E2.
  { assert (E3 : (total >=? Fin 250000)%F = true)
      by (eapply fge_trans_fin; [|exact E2]; lra).
    cbn [has_confluence confidence_boost total_liq_volume dominant_side].
    split; [now rewrite E3|]. split; [discriminate|].
    destruct (String.eqb gap_type "SHORT_TO_FILL" && String.eqb dom "LONG_LIQ") eqn:Es.
    - apply andb_true_iff in Es as [Es Ed]. apply eqb_true in Es, Ed.
      repeat split; cbn; auto 10; try (intros; congruence). intros _. left. auto.
    - destruct (String.eqb gap_type "LONG_TO_FILL" && String.eqb dom "SHORT_LIQ") eqn:El.
      + apply andb_true_iff in El as [El Ed]. apply eqb_true in El, Ed.
        repeat split; cbn; auto 10; try (intros; congruence). intros _. right. auto.
      + repeat split; cbn; auto 10; intros; lra. }
  destruct (total >=? Fin 250000)%F eqn:E3;
    cbn [has_confluence confidence_boost total_liq_volume dominant_side];
    rewrite E3; repeat split; cbn; auto 10; intros; lra.
Qed.

Lemma filter_none {A} (f : A -> bool) l :
  (forall x, f x = false) -> List.filter f l = [].
Proof.
  intros Hf. induction l as [|x t IH]; cbn; [reflexivity|]. now rewrite Hf.
Qed.

Lemma confluence_without_level gap_type liq_df tolerance_pct :
  analyze_gap_confluence NaN gap_type liq_df tolerance_pct = no_confluence.
Proof.
  unfold analyze_gap_confluence. destruct liq_df as [[|r0 rows]|]; try reflexivity.
  cbv zeta. rewrite filter_none; [reflexivity|]. intros r. reflexivity.
Qed.

Lemma confidence_boost_range gap_price gap_type liq_df tolerance_pct :
  0 <= confidence_boost (analyze_gap_confluence gap_price gap_type liq_df tolerance_pct)
    <= 2.
Proof.
  unfold analyze_gap_confluence.
  destruct liq_df as [[|r0 rows]|]; try (cbn; lra).
  cbv zeta. destruct (List.filter _ (r0 :: rows)); [cbn; lra|].
  repeat match goal with
  | |- context [if ?b then _ else _] =>
      lazymatch b with
      | context [if _ then _ else _] => fail
      | _ => destruct b
      end
  end; cbn; lra.
Qed.

(** The liquidation step of [analyze_pre_ny] adds between 0 and 2 points to
    the confidence, and nothing when there is no gap signal, when the gap
    level is NaN or when no liquidations could be read. *)
Theorem liquidation_boost_bounds gap_signal gap_level liq_df :
  0 <= liq_boost gap_signal gap_level liq_df <= 2 /\
  (gap_signal = "NO_GAP"%string -> liq_boost gap_signal gap_level liq_df = 0.0) /\
  (gap_level = NaN -> liq_boost gap_signal gap_level liq_df = 0.0) /\
  (liq_df = None \/ liq_df = Some [] -> liq_boost gap_signal gap_level liq_df = 0.0).
Proof.
  unfold liq_boost.
  destruct liq_df as [[|r0 rows]|].
  - repeat split; auto; lra.
  - destruct (String.eqb gap_signal "NO_GAP") eqn:Eg; cbn [negb].
    + repeat split; auto; lra.
    + split; [|split; [|split]].
      * destruct (has_confluence _); [|lra]. apply confidence_boost_range.
      * intros ->. discriminate.
      * intros ->. rewrite confluence_without_level. reflexivity.
      * intros [H|H]; discriminate.
  - repeat split; auto; lra.
Qed.

(** ** Exponential moving average *)

Lemma ewm_alpha_range span : (1 <= span)%nat -> 0 < ewm_alpha span <= 1.
Proof.
  intros Hs. unfold ewm_alpha.
  assert (H : 1 <= inject_Z (Z.of_nat span)).
  { change 1 with (inject_Z 1). rewrite <- Zle_Qle. lia. }
  set (n := inject_Z (Z.of_nat span)) in *.
  assert (Hp : 0 < n + 1) by lra.
  split.
  - apply Qlt_shift_div_l; [exact Hp|lra].
  - apply Qle_shift_div_r; [exact Hp|lra].
Qed.

Lemma ewm_step_within alpha lo hi st cur :
  0 < alpha <= 1 ->
  within lo hi (ewm_weighted st) -> ewm_old_wt st = 1 -> within lo hi cur ->
  within lo hi (ewm_weighted (ewm_step alpha st cur)) /\
  ewm_old_wt (ewm_step alpha st cur) = 1.
Proof.
  intros Ha Hw Ho Hc. destruct st as [w ow]. cbn in Hw, Ho. subst ow.
  destruct w as [w| | |]; try contradiction.
  destruct cur as [c| | |]; try contradiction.
  unfold ewm_step. cbn [ewm_weighted ewm_old_wt isnan negb].
  destruct (negb (feqb (Fin w) (Fin c))); cbn [ewm_weighted ewm_old_wt];
    [|split; [exact Hw|reflexivity]].
  split; [|reflexivity].
  cbn [fmul fadd fdiv fin].
  assert (Hd : 1 * (1 - alpha) + alpha == 1) by ring.
  destruct (Qeqb (1 * (1 - alpha) + alpha) 0) eqn:E.
  { q_reflect. lra. }
  unfold fin. cbn [within] in *. rewrite !Qred_correct.
  unfold Qdiv. rewrite Hd.
  change (/ 1) with 1. nra.
Qed.

Lemma ewm_rows_within alpha lo hi vals : forall st,
  0 < alpha <= 1 ->
  within lo hi (ewm_weighted st) -> ewm_old_wt st = 1 ->
  Forall (within lo hi) vals ->
  Forall (within lo hi) (ewm_rows alpha st vals).
Proof.
  induction vals as [|c t IH]; intros st Ha Hw Ho Hv; cbn; [constructor|].
  apply Forall_cons_1 in Hv as [Hc Ht].
  destruct (ewm_step_within alpha lo hi st c Ha Hw Ho Hc) as [Hw' Ho'].
  constructor; [exact Hw'|]. now apply IH.
Qed.

Lemma ewm_mean_within span lo hi vals :
  (1 <= span)%nat -> Forall (within lo hi) vals ->
  exists rows, ewm_mean span vals = Some rows /\ length rows = length vals /\
               Forall (within lo hi) rows.
Proof.
  intros Hs Hv. unfold ewm_mean. destruct span as [|n]; [lia|].
  destruct vals as [|v0 rest]; [exists []; auto|].
  apply Forall_cons_1 in Hv as [H0 Hr].
  eexists. split; [reflexivity|]. split.
  - cbn. f_equal. generalize (mkEwmState v0 1). induction rest as [|c t IH]; intros st;
      cbn; [reflexivity|]. f_equal. apply Forall_cons_1 in Hr as [_ Hr]. now apply IH.
  - constructor; [exact H0|]. apply ewm_rows_within; auto.
    apply ewm_alpha_range. lia.
Qed.

(** [calculate_ema] on finite closes: with at least [period] rows and a
    period of at least one the average is a finite number between the
    smallest and the largest close; with fewer rows it is NaN, and a period
    of zero, which pandas refuses, gives NaN as well. *)
Theorem ema_within_closes closes period lo hi :
  Forall (within lo hi) closes ->
  ((1 <= period <= length closes)%nat -> within lo hi (calculate_ema closes period)) /\
  ((length closes < period)%nat \/ period = 0%nat -> calculate_ema closes period = NaN).
Proof.
  intros Hv. unfold calculate_ema. split.
  - intros [H1 Hlen].
    replace (length closes <? period)%nat with false
      by (symmetry; apply Nat.ltb_ge; lia).
    destruct (ewm_mean_within period lo hi closes H1 Hv) as (rows & Hm & Hl & Hr).
    rewrite Hm.
    unfold safe_float_last, iloc_neg.
    replace (1 <=? length rows)%nat with true by (symmetry; apply Nat.leb_le; lia).
    destruct (rows !! (length rows - 1)%nat) as [v|] eqn:Ev.
    + rewrite Forall_lookup in Hr. specialize (Hr _ _ Ev).
      rewrite safe_float_id. exact Hr.
    + apply lookup_ge_None in Ev. lia.
  - intros [H| ->].
    + now replace (length closes <? period)%nat with true
        by (symmetry; apply Nat.ltb_lt; lia).
    + destruct (length closes <? 0)%nat; reflexivity.
Qed.

Lemma ema_within_closes_witness :
  within 1 20 (calculate_ema rising_closes 14).
Proof.
  apply (ema_within_closes rising_closes 14 1 20).
  - unfold rising_closes. repeat constructor; cbn; lra.
  - cbn. lia.
Defined.

(** ** MACD *)

Lemma length_ewm_rows alpha vals : forall st,
  length (ewm_rows alpha st vals) = length vals.
Proof.
  induction vals as [|c t IH]; intros st; cbn; [reflexivity|]. now rewrite IH.
Qed.

Lemma length_ewm_mean span vals rows :
  ewm_mean span vals = Some rows -> length rows = length vals.
Proof.
  unfold ewm_mean. destruct span; [discriminate|].
  destruct vals as [|v0 rest]; intros [= <-]; [reflexivity|].
  cbn. now rewrite length_ewm_rows.
Qed.

(** The label is read off the last two rows of the two lines. *)
Lemma macd_label_cases (mp sp mc sc : num) :
  let label : string :=
    if (mp <=? sp)%F && (mc >? sc)%F then "BULLISH_CROSS"%string
    else if (mp >=? sp)%F && (mc <? sc)%F then "BEARISH_CROSS"%string
    else if (mc >? sc)%F then "BULLISH"%string
    else if (mc <? sc)%F then "BEARISH"%string
    else "NEUTRAL"%string in
  ((mc >? sc)%F = true ->
   label = "BULLISH_CROSS"%string \/ label = "BULLISH"%string) /\
  ((mc <? sc)%F = true ->
   label = "BEARISH_CROSS"%string \/ label = "BEARISH"%string) /\
  ((mc >? sc)%F = false -> (mc <? sc)%F = false -> label = "NEUTRAL"%string).
Proof.
  cbv zeta.
  assert (Hex : (mc >? sc)%F = true -> (mc <? sc)%F = false).
  { unfold fgt. intros H. now apply flt_asym. }
  destruct (mc >? sc)%F eqn:Eg.
  - rewrite (Hex eq_refl). rewrite andb_false_r.
    destruct (mp <=? sp)%F; cbn; repeat split; auto; discriminate.
  - rewrite andb_false_r. destruct (mc <? sc)%F eqn:El.
    + destruct (mp >=? sp)%F; cbn; repeat split; auto; discriminate.
    + rewrite andb_false_r. repeat split; auto; discriminate.
Qed.

(** [calculate_macd]: the histogram is the MACD line less the signal line;
    the label is BULLISH_CROSS or BULLISH exactly when the MACD line is
    above the signal line, BEARISH_CROSS or BEARISH exactly when it is
    below, and NEUTRAL when it is neither, which includes every value that
    is NaN; a series of fewer than [slow + signal] closes gives NaN three
    times and NEUTRAL. *)
Theorem macd_label_follows_lines closes fast slow signal :
  let m := calculate_macd closes fast slow signal in
  histogram m = (macd_line m - signal_line m)%F /\
  ((macd_line m >? signal_line m)%F = true ->
   cross_signal m = "BULLISH_CROSS"%string \/ cross_signal m = "BULLISH"%string) /\
  ((macd_line m <? signal_line m)%F = true ->
   cross_signal m = "BEARISH_CROSS"%string \/ cross_signal m = "BEARISH"%string) /\
  ((macd_line m >? signal_line m)%F = false ->
   (macd_line m <? signal_line m)%F = false -> cross_signal m = "NEUTRAL"%string) /\
  ((length closes < slow + signal)%nat -> m = macd_unavailable).
Proof.
  cbv zeta.
  assert (Hun : histogram macd_unavailable
                = (macd_line macd_unavailable - signal_line macd_unavailable)%F /\
    ((macd_line macd_unavailable >? signal_line macd_unavailable)%F = true ->
     cross_signal macd_unavailable = "BULLISH_CROSS"%string
     \/ cross_signal macd_unavailable = "BULLISH"%string) /\
    ((macd_line macd_unavailable <? signal_line macd_unavailable)%F = true ->
     cross_signal macd_unavailable = "BEARISH_CROSS"%string
     \/ cross_signal macd_unavailable = "BEARISH"%string) /\
    ((macd_line macd_unavailable >? signal_line macd_unavailable)%F = false ->
     (macd_line macd_unavailable <? signal_line macd_unavailable)%F = false ->
     cross_signal macd_unavailable = "NEUTRAL"%string)).
  { cbn. repeat split; auto; discriminate. }
  unfold calculate_macd.
  destruct (length closes <? slow + signal)%nat eqn:Elen.
  { destruct Hun as (H1 & H2 & H3 & H4). repeat split; auto. }
  apply Nat.ltb_ge in Elen.
  assert (Hshort : (length closes < slow + signal)%nat ->
                   forall m, m = macd_unavailable) by (intros; lia).
  destruct (ewm_mean fast closes) as [exp1|] eqn:E1;
    [|destruct Hun as (H1 & H2 & H3 & H4); repeat split; auto].
  destruct (ewm_mean slow closes) as [exp2|] eqn:E2;
    [|destruct Hun as (H1 & H2 & H3 & H4); repeat split; auto].
  cbv zeta. set (line := zip_with fsub exp1 exp2).
  destruct (ewm_mean signal line) as [sig|] eqn:E3;
    [|destruct Hun as (H1 & H2 & H3 & H4); repeat split; auto].
  destruct (iloc_neg 1 line) as [m1|] eqn:Em1;
    [|destruct Hun as (H1 & H2 & H3 & H4); repeat split; auto].
  destruct (iloc_neg 1 sig) as [s1|] eqn:Es1;
    [|destruct Hun as (H1 & H2 & H3 & H4); repeat split; auto].
  destruct (iloc_neg 2 line) as [m2|] eqn:Em2;
    [|destruct Hun as (H1 & H2 & H3 & H4); repeat split; auto].
  destruct (iloc_neg 2 sig) as [s2|] eqn:Es2;
    [|destruct Hun as (H1 & H2 & H3 & H4); repeat split; auto].
  assert (Hl : length line = length sig)
    by (symmetry; eapply length_ewm_mean; eassumption).
  rewrite (iloc_last_zip_with fsub line sig m1 s1 Hl Em1 Es1).
  cbn [histogram macd_line signal_line cross_signal]. rewrite !safe_float_id.
  split; [reflexivity|].
  destruct (macd_label_cases m2 s2 m1 s1) as (Hb & Hs & Hn).
  cbv zeta in Hb, Hs, Hn. repeat split; auto.
Qed.

(** ** Technical indicators *)

Lemma cross_signal_values closes fast slow signal :
  In (cross_signal (calculate_macd closes fast slow signal))
     ["BULLISH_CROSS"; "BEARISH_CROSS"; "BULLISH"; "BEARISH"; "NEUTRAL"]%string.
Proof.
  unfold calculate_macd.
  repeat match goal with
  | |- context [match ?x with _ => _ end] =>
      lazymatch x with
      | context [match _ with _ => _ end] => fail
      | _ => destruct x
      end
  end; cbn; auto 10.
Qed.

Lemma macd_of_frame_values cols rows :
  In (cross_signal (macd_of_frame cols rows))
     ["BULLISH_CROSS"; "BEARISH_CROSS"; "BULLISH"; "BEARISH"; "NEUTRAL"]%string.
Proof.
  unfold macd_of_frame. destruct (_ <? _)%nat; [cbn; auto 10|].
  destruct (close_column cols rows); [apply cross_signal_values|cbn; auto 10].
Qed.

(** After the hourly half the daily fields are the defaults and the score
    is the points of the two labels stored. *)
Lemma hourly_indicators_score cols rows :
  let ind := hourly_indicators cols rows default_indicators in
  ti_ema_signal ind = "NEUTRAL"%string /\
  ti_total_score ind == label_points (ti_rsi_signal ind) + label_points (ti_macd_signal ind) /\
  In (ti_rsi_signal ind)
     ["OVERSOLD"; "OVERBOUGHT"; "BULLISH_ZONE"; "BEARISH_ZONE"; "NEUTRAL"]%string /\
  In (ti_macd_signal ind)
     ["BULLISH_CROSS"; "BEARISH_CROSS"; "BULLISH"; "BEARISH"; "NEUTRAL"]%string.
Proof.
  cbv zeta. unfold hourly_indicators.
  destruct (negb (frame_empty cols rows) && (30 <? length rows)%nat);
    [|cbn; repeat split; auto 10; reflexivity].
  cbv zeta. pose proof (macd_of_frame_values cols rows) as Hm.
  set (m := macd_of_frame cols rows) in *.
  assert (Hmp : (if String.eqb (cross_signal m) "BULLISH_CROSS" then 1.0
                 else if String.eqb (cross_signal m) "BEARISH_CROSS" then 1.0
                 else if String.eqb (cross_signal m) "BULLISH" then 0.5
                 else if String.eqb (cross_signal m) "BEARISH" then 0.5
                 else 0) = label_points (cross_signal m)).
  { cbn in Hm. destruct Hm as [<-|[<-|[<-|[<-|[<-|[]]]]]]; reflexivity. }
  rewrite Hmp.
  assert (Hfin : forall rsi label pts,
    In label ["OVERSOLD"; "OVERBOUGHT"; "BULLISH_ZONE"; "BEARISH_ZONE"; "NEUTRAL"]%string ->
    pts == label_points label ->
    let ind := mkTechnicalIndicators rsi label (macd_line m) (cross_signal m)
                 (histogram m) (ti_ema200_1d default_indicators)
                 (ti_ema_signal default_indicators)
                 (ti_total_score default_indicators + pts
                  + label_points (cross_signal m)) in
    ti_ema_signal ind = "NEUTRAL"%string /\
    ti_total_score ind == label_points (ti_rsi_signal ind) + label_points (ti_macd_signal ind) /\
    In (ti_rsi_signal ind)
      ["OVERSOLD"; "OVERBOUGHT"; "BULLISH_ZONE"; "BEARISH_ZONE"; "NEUTRAL"]%string /\
    In (ti_macd_signal ind)
      ["BULLISH_CROSS"; "BEARISH_CROSS"; "BULLISH"; "BEARISH"; "NEUTRAL"]%string).
  { intros rsi label pts Hl Hp. cbn. rewrite Hp. repeat split; auto. lra. }
  destruct (negb (isnan (rsi_of_frame cols rows 14)));
    [|apply Hfin; [cbn; auto 10|reflexivity]].
  repeat match goal with
  | |- context [if ?b then _ else _] =>
      lazymatch b with
      | context [if _ then _ else _] => fail
      | _ => destruct b
      end
  end; apply Hfin; try (cbn; auto 10; fail); reflexivity.
Qed.

Lemma label_points_range label : 0 <= label_points label <= 1.
Proof.
  unfold label_points. destruct (str_in _ _); [lra|]. destruct (str_in _ _); lra.
Qed.

(** [analyze_technical_indicators]: the total score is the sum of the
    points of the three labels it returns, 1 for OVERSOLD, OVERBOUGHT, a
    MACD cross and a strong distance to the average, 0.5 for the weaker
    labels and 0 for NEUTRAL, so it lies between 0 and 3; each label is one
    of its five values. *)
Theorem technical_score_from_labels dl_4h dl_1d last_price :
  let ind := analyze_technical_indicators dl_4h dl_1d last_price in
  ti_total_score ind ==
    label_points (ti_rsi_signal ind) + label_points (ti_macd_signal ind)
    + label_points (ti_ema_signal ind) /\
  0 <= ti_total_score ind <= 3 /\
  In (ti_rsi_signal ind)
     ["OVERSOLD"; "OVERBOUGHT"; "BULLISH_ZONE"; "BEARISH_ZONE"; "NEUTRAL"]%string /\
  In (ti_macd_signal ind)
     ["BULLISH_CROSS"; "BEARISH_CROSS"; "BULLISH"; "BEARISH"; "NEUTRAL"]%string /\
  In (ti_ema_signal ind)
     ["ABOVE_STRONG"; "ABOVE"; "BELOW_STRONG"; "BELOW"; "NEUTRAL"]%string.
Proof.
  cbv zeta.
  assert (Hsum : forall ind,
    ti_total_score ind ==
      label_points (ti_rsi_signal ind) + label_points (ti_macd_signal ind)
      + label_points (ti_ema_signal ind) ->
    0 <= ti_total_score ind <= 3).
  { intros ind ->.
    pose proof (label_points_range (ti_rsi_signal ind)).
    pose proof (label_points_range (ti_macd_signal ind)).
    pose proof (label_points_range (ti_ema_signal ind)). lra. }
  assert (Hgoal : forall ind,
    ti_total_score ind ==
      label_points (ti_rsi_signal ind) + label_points (ti_macd_signal ind)
      + label_points (ti_ema_signal ind) ->
    In (ti_rsi_signal ind)
      ["OVERSOLD"; "OVERBOUGHT"; "BULLISH_ZONE"; "BEARISH_ZONE"; "NEUTRAL"]%string ->
    In (ti_macd_signal ind)
      ["BULLISH_CROSS"; "BEARISH_CROSS"; "BULLISH"; "BEARISH"; "NEUTRAL"]%string ->
    In (ti_ema_signal ind)
      ["ABOVE_STRONG"; "ABOVE"; "BELOW_STRONG"; "BELOW"; "NEUTRAL"]%string ->
    ti_total_score ind ==
      label_points (ti_rsi_signal ind) + label_points (ti_macd_signal ind)
      + label_points (ti_ema_signal ind) /\
    0 <= ti_total_score ind <= 3 /\
    In (ti_rsi_signal ind)
      ["OVERSOLD"; "OVERBOUGHT"; "BULLISH_ZONE"; "BEARISH_ZONE"; "NEUTRAL"]%string /\
    In (ti_macd_signal ind)
      ["BULLISH_CROSS"; "BEARISH_CROSS"; "BULLISH"; "BEARISH"; "NEUTRAL"]%string /\
    In (ti_ema_signal ind)
      ["ABOVE_STRONG"; "ABOVE"; "BELOW_STRONG"; "BELOW"; "NEUTRAL"]%string).
  { intros ind H1 H2 H3 H4. repeat split; auto; apply Hsum; exact H1. }
  unfold analyze_technical_indicators.
  destruct dl_4h as [e|cols_4h rows_4h].
  { apply Hgoal; cbn; auto 10. reflexivity. }
  destruct (hourly_indicators_score cols_4h rows_4h) as (He & Hs & Hr & Hm).
  cbv zeta in He, Hs, Hr, Hm.
  set (ind := hourly_indicators cols_4h rows_4h default_indicators) in *.
  assert (Hind : ti_total_score ind ==
      label_points (ti_rsi_signal ind) + label_points (ti_macd_signal ind)
      + label_points (ti_ema_signal ind)).
  { rewrite He, Hs. cbn. lra. }
  destruct dl_1d as [e|cols_1d rows_1d].
  { apply Hgoal; auto. rewrite He. cbn. auto 10. }
  unfold daily_indicators.
  destruct (negb (frame_empty cols_1d rows_1d) && (200 <? length rows_1d)%nat);
    [|apply Hgoal; auto; rewrite He; cbn; auto 10].
  cbv zeta.
  destruct (negb (isnan (ema_of_frame cols_1d rows_1d 200)));
    [|apply Hgoal; cbn [ti_total_score ti_rsi_signal ti_macd_signal ti_ema_signal];
      auto; rewrite He; cbn; auto 10].
  destruct (pydiv _ _) as [r|];
    [|apply Hgoal; cbn [ti_total_score ti_rsi_signal ti_macd_signal ti_ema_signal];
      auto; rewrite He; cbn; auto 10].
  destruct (last_price >? _)%F; [destruct (_ >? Fin 2)%F|destruct (_ <? Fin (-2))%F];
    apply Hgoal; cbn [ti_total_score ti_rsi_signal ti_macd_signal ti_ema_signal];
    auto 10; try (cbn; auto 10; fail); rewrite Hs; cbn; lra.
Qed.

Lemma hourly_indicators_labels cols rows :
  let ind := hourly_indicators cols rows default_indicators in
  rsi_label_holds (ti_rsi_4h ind) (ti_rsi_signal ind) /\
  ti_ema_signal ind = "NEUTRAL"%string.
Proof.
  cbv zeta. unfold hourly_indicators.
  destruct (negb (frame_empty cols rows) && (30 <? length rows)%nat);
    [|cbn; unfold rsi_label_holds; repeat split; intros; discriminate].
  cbv zeta. set (rsi := rsi_of_frame cols rows 14).
  destruct (negb (isnan rsi));
    [|cbn; unfold rsi_label_holds; repeat split; intros; discriminate].
  destruct (rsi <? Fin 30)%F eqn:E1;
    [cbn; unfold rsi_label_holds; repeat split; intros; auto; discriminate|].
  destruct (rsi >? Fin 70)%F eqn:E2;
    [cbn; unfold rsi_label_holds; repeat split; intros; auto; discriminate|].
  destruct ((Fin 30 <=? rsi)%F && (rsi <=? Fin 40)%F) eqn:E3.
  { apply andb_true_iff in E3 as [E3 E3'].
    cbn; unfold rsi_label_holds; repeat split; intros; auto; discriminate. }
  destruct ((Fin 60 <=? rsi)%F && (rsi <=? Fin 70)%F) eqn:E4.
  { apply andb_true_iff in E4 as [E4 E4'].
    cbn; unfold rsi_label_holds; repeat split; intros; auto; discriminate. }
  cbn; unfold rsi_label_holds; repeat split; intros; discriminate.
Qed.

(** The labels [analyze_technical_indicators] returns say what the values
    beside them say: OVERSOLD is an RSI under 30, OVERBOUGHT one over 70,
    the two zones the closed ranges 30 to 40 and 60 to 70; ABOVE and
    ABOVE_STRONG are a price over the 200-day average, BELOW and
    BELOW_STRONG every other price, a price equal to the average or a NaN
    price included, on an average that is a number other than zero. *)
Theorem indicator_labels_reflect_values dl_4h dl_1d last_price :
  let ind := analyze_technical_indicators dl_4h dl_1d last_price in
  rsi_label_holds (ti_rsi_4h ind) (ti_rsi_signal ind) /\
  ema_label_holds last_price (ti_ema200_1d ind) (ti_ema_signal ind).
Proof.
  cbv zeta.
  assert (Hneutral : forall ema label, label = "NEUTRAL"%string ->
                                       ema_label_holds last_price ema label).
  { intros ema label ->. split; intros [H|H]; discriminate. }
  unfold analyze_technical_indicators.
  destruct dl_4h as [e|cols_4h rows_4h].
  { split; [|now apply Hneutral].
    cbn. unfold rsi_label_holds. repeat split; intros; discriminate. }
  destruct (hourly_indicators_labels cols_4h rows_4h) as [Hr He].
  cbv zeta in Hr, He.
  set (ind := hourly_indicators cols_4h rows_4h default_indicators) in *.
  destruct dl_1d as [e|cols_1d rows_1d]; [split; [exact Hr|now apply Hneutral]|].
  unfold daily_indicators.
  destruct (negb (frame_empty cols_1d rows_1d) && (200 <? length rows_1d)%nat);
    [|split; [exact Hr|now apply Hneutral]].
  cbv zeta. set (ema200 := ema_of_frame cols_1d rows_1d 200).
  destruct (negb (isnan ema200)) eqn:En;
    [|split; [exact Hr|now apply Hneutral]].
  apply negb_true_iff in En.
  destruct (pydiv _ _) as [r|] eqn:Er; [|split; [exact Hr|now apply Hneutral]].
  apply pydiv_inv in Er as [Er _].
  destruct (last_price >? ema200)%F eqn:Eg;
    [destruct (_ >? Fin 2)%F|destruct (_ <? Fin (-2))%F];
    (split; [exact Hr|]);
    cbn [ti_ema200_1d ti_ema_signal]; split; intros [H|H];
    try discriminate; auto.
Qed.

(** ** Validating twice *)

Ltac twice_cases :=
  cbn;
  repeat match goal with
  | |- context [Qleb ?x ?y] => destruct (Qleb x y) eqn:?; cbn
  | |- context [Qltb ?x ?y] => destruct (Qltb x y) eqn:?; cbn
  end;
  try reflexivity; try discriminate;
  exfalso; q_solve.

Lemma lowered_twice (e a k : Q) x :
  0 < a -> 0 < k ->
  lowered (Fin e) (lowered (Fin e) x a k) a k = lowered (Fin e) x a k.
Proof.
  intros Ha Hk. unfold lowered, fge. assert (0 < a * k) by nra.
  destruct x; twice_cases.
Qed.

Lemma raised_twice (e a k : Q) x :
  0 < a -> 0 < k ->
  raised (Fin e) (raised (Fin e) x a k) a k = raised (Fin e) x a k.
Proof.
  intros Ha Hk. unfold raised. assert (0 < a * k) by nra.
  destruct x; twice_cases.
Qed.

Lemma lowered_chain_twice (e a : Q) tp1 tp2 :
  0 < a -> isnan tp2 = false ->
  let tp1' := lowered (Fin e) tp1 a 1 in
  let tp2' := lowered tp1' (lowered (Fin e) tp2 a 2) a 1 in
  isnan tp2' = false /\
  lowered tp1' (lowered (Fin e) tp2' a 2) a 1 = tp2'.
Proof.
  intros Ha Hn. cbv zeta. unfold lowered, fge.
  destruct tp1, tp2; try discriminate; split; twice_cases.
Qed.

Lemma raised_chain_twice (e a : Q) tp1 tp2 :
  0 < a -> isnan tp2 = false ->
  let tp1' := raised (Fin e) tp1 a 1 in
  let tp2' := raised tp1' (raised (Fin e) tp2 a 2) a 1 in
  isnan tp2' = false /\
  raised tp1' (raised (Fin e) tp2' a 2) a 1 = tp2'.
Proof.
  intros Ha Hn. cbv zeta. unfold raised.
  destruct tp1, tp2; try discriminate; split; twice_cases.
Qed.

(** Validating twice is validating once: on a numeric entry and a numeric,
    strictly positive ATR, [validate_levels] returns levels that a second
    call with the same decision returns unchanged. *)
Theorem validate_levels_idempotent decision (e a : Q) sl tp1 tp2 :
  0 < a ->
  let '(entry', sl', tp1', tp2') :=
    validate_levels decision (Fin e) sl tp1 tp2 (Fin a) in
  validate_levels decision entry' sl' tp1' tp2' (Fin a) = (entry', sl', tp1', tp2').
Proof.
  intros Ha.
  destruct (contains "SHORT" decision) eqn:Es.
  - rewrite validate_levels_short by assumption.
    rewrite validate_levels_short by assumption.
    rewrite raised_twice, lowered_twice by lra.
    destruct (isnan tp2) eqn:En; [now rewrite En|].
    destruct (lowered_chain_twice e a tp1 tp2 Ha En) as [Hn Hz].
    cbv zeta in Hn, Hz. now rewrite Hn, Hz.
  - destruct (contains "LONG" decision) eqn:El.
    + rewrite validate_levels_long by assumption.
      rewrite validate_levels_long by assumption.
      rewrite raised_twice, lowered_twice by lra.
      destruct (isnan tp2) eqn:En; [now rewrite En|].
      destruct (raised_chain_twice e a tp1 tp2 Ha En) as [Hn Hz].
      cbv zeta in Hn, Hz. now rewrite Hn, Hz.
    + unfold validate_levels. cbn [isnan orb]. rewrite !Es, !El. cbn [isnan orb].
      now rewrite ?Es, ?El.
Qed.

Lemma validate_levels_idempotent_witness :
  validate_levels "SHORT_FUERTE" (Fin 100) (Fin 103) (Fin 98) (Fin 96) (Fin 2)
  = (Fin 100, Fin 103, Fin 98, Fin 96) /\
  validate_levels "SHORT_FUERTE" (Fin 100) (Fin 99) (Fin 101) (Fin 100) (Fin 2)
  = (Fin 100, Fin 103, Fin 98, Fin 96).
Proof.
  assert (Ha : 0 < 2) by lra.
  pose proof (validate_levels_idempotent "SHORT_FUERTE" 100 2 (Fin 99) (Fin 101)
                (Fin 100) Ha) as H.
  split; [exact H|reflexivity].
Defined.

(** ** Wyckoff scores and phase multipliers *)

Lemma wyckoff_scored_of (strong possible act_s act_p l1 l2 l3 l4 : string)
    (c1 c2 c3 c4 : bool) :
  strong <> possible -> strong <> "NONE"%string -> possible <> "NONE"%string ->
  let s1 : Q * list string := if c1 then (1, [l1]) else (0, []) in
  let s2 := if c2 then (s1.1 + 1, s1.2 ++ [l2]) else s1 in
  let s3 := if c3 then (s2.1 + 1.5, s2.2 ++ [l3]) else s2 in
  let s4 := if c4 then (s3.1 + 1.5, s3.2 ++ [l4]) else s3 in
  wyckoff_scored strong possible
    (let '(phase, action) :=
       if Qleb 3.0 s4.1 then (strong, act_s)
       else if Qleb 2.0 s4.1 then (possible, act_p)
       else ("NONE", "")%string in
     mkWyckoff (Qleb 2.0 s4.1) phase s4.1 s4.2 action).
Proof.
  intros Hsp Hsn Hpn.
  destruct c1, c2, c3, c4; cbn;
    repeat match goal with
    | |- context [if Qleb ?a ?b then _ else _] =>
        let v := eval vm_compute in (Qleb a b) in
        change (Qleb a b) with v at 1; cbv iota
    end;
    constructor; cbn;
    repeat match goal with
    | |- _ /\ _ => split
    | |- _ <-> _ => split; intros H
    end;
    try reflexivity; try congruence;
    try (vm_compute; first [reflexivity | discriminate]);
    exfalso;
    repeat match goal with
    | H : _ /\ _ |- _ => destruct H
    end;
    match goal with
    | H : Qle _ _ |- _ => vm_compute in H; apply H; reflexivity
    | H : Qlt _ _ |- _ => vm_compute in H; discriminate H
    end.
Qed.

Lemma wyckoff_scored_none strong possible :
  strong <> "NONE"%string -> possible <> "NONE"%string ->
  wyckoff_scored strong possible (mkWyckoff false "NONE" 0 [] "").
Proof.
  intros Hs Hp. constructor; cbn;
    repeat match goal with
    | |- _ /\ _ => split
    | |- _ <-> _ => split; intros H
    end;
    try reflexivity; try congruence;
    try (vm_compute; first [reflexivity | discriminate]);
    exfalso;
    repeat match goal with
    | H : _ /\ _ |- _ => destruct H
    end;
    match goal with
    | H : Qle _ _ |- _ => vm_compute in H; apply H; reflexivity
    | H : Qlt _ _ |- _ => vm_compute in H; discriminate H
    end.
Qed.

(** The two Wyckoff detectors, at the lookback of 60 days they are called
    with, score alike: the score lies between 0 and 5, each signal listed
    stands for 1 to 1.5 points of it, the pattern counts as detected exactly
    from 2 points on, so never on one signal alone, the phase is the STRONG
    one exactly from 3 points on, the POSSIBLE one from 2 up to 3 and NONE
    under 2; a frame of fewer than 60 rows scores 0 and detects nothing. *)
Theorem wyckoff_detection_thresholds df :
  wyckoff_scored "STRONG_ACCUMULATION" "POSSIBLE_ACCUMULATION"
    (detect_accumulation df 60) /\
  wyckoff_scored "STRONG_DISTRIBUTION" "POSSIBLE_DISTRIBUTION"
    (detect_distribution df 60) /\
  ((length df < 60)%nat ->
   score (detect_accumulation df 60) = 0 /\
   detected (detect_accumulation df 60) = false /\
   score (detect_distribution df 60) = 0 /\
   detected (detect_distribution df 60) = false).
Proof.
  unfold detect_accumulation, detect_distribution.
  destruct (length df <? 60)%nat eqn:Elen.
  - split; [apply wyckoff_scored_none; discriminate|].
    split; [apply wyckoff_scored_none; discriminate|]. auto.
  - apply Nat.ltb_ge in Elen. cbv zeta.
    split; [|split; [|intros; lia]].
    + apply (wyckoff_scored_of "STRONG_ACCUMULATION" "POSSIBLE_ACCUMULATION");
        discriminate.
    + apply (wyckoff_scored_of "STRONG_DISTRIBUTION" "POSSIBLE_DISTRIBUTION");
        discriminate.
Qed.

(** [analyze_market_structure]: the multiplier is fixed by the phase, 0.5
    for PURE_CONSOLIDATION, 0.8 for the two phases in a range, 1.1 for a
    possible and 1.2 for a strong accumulation or distribution, 1.0 for
    TRENDING; the three consolidation phases are returned exactly when the
    last twenty days consolidate; outside a consolidation a frame on which
    both patterns or neither are detected is TRENDING. *)
Theorem phase_multiplier_table df last_price :
  let ms := analyze_market_structure df last_price in
  confidence_adjustment ms = phase_multiplier (primary_phase ms) /\
  ci_is_consolidating (consolidation ms)
    = is_consolidating (detect_consolidation df 20) /\
  ci_is_consolidating (consolidation ms)
    = str_in (primary_phase ms)
        ["PURE_CONSOLIDATION"; "ACCUMULATION_IN_RANGE"; "DISTRIBUTION_IN_RANGE"]%string /\
  (ci_is_consolidating (consolidation ms) = false ->
   detected (detect_accumulation df 60) = detected (detect_distribution df 60) ->
   primary_phase ms = "TRENDING"%string).
Proof.
  pose proof (accumulation_phase df 60) as Ha.
  pose proof (distribution_phase df 60) as Hd.
  unfold analyze_market_structure.
  revert Ha Hd.
  generalize (detect_consolidation df 20) (detect_accumulation df 60)
    (detect_distribution df 60). intros c a d Ha Hd.
  cbv beta iota zeta.
  destruct (is_consolidating c).
  - destruct (detected a && _); [cbn; repeat split; auto; discriminate|].
    destruct (detected d && _); cbn; repeat split; auto; discriminate.
  - destruct (detected a) eqn:Ea; destruct (detected d) eqn:Ed; cbn [andb negb].
    + cbn. repeat split; auto.
    + specialize (Ha eq_refl). cbn in Ha.
      destruct Ha as [Ha|[Ha|[]]]; rewrite <- Ha; cbn; repeat split; auto;
        intros; discriminate.
    + specialize (Hd eq_refl). cbn in Hd.
      destruct Hd as [Hd|[Hd|[]]]; rewrite <- Hd; cbn; repeat split; auto;
        intros; discriminate.
    + cbn. repeat split; auto.
Qed.

(** ** Plans and their inputs *)

(** A plan, read back to the inputs it was computed from. *)
Lemma analyze_plan_inputs symbol cols_5m rows_5m dl_4h dl_1d indicators p :
  analyze_pre_ny symbol (Downloaded cols_5m rows_5m) dl_4h dl_1d indicators = Plan p ->
  let data_5m := List.filter row_complete rows_5m in
  let pv := calculate_pivot_points dl_1d in
  let last_price := safe_float_last (column Close data_5m) in
  let atr := safe_atr data_5m 14 in
  (exists cols_4h rows_4h, dl_4h = Downloaded cols_4h rows_4h) /\
  has_required_cols cols_5m = true /\
  error_1d pv = None /\
  isnan (PP pv) = false /\
  (3 <= length data_5m)%nat /\
  isnan last_price = false /\
  feqb last_price (Fin 0) = false /\
  exists gap_signal gap_level recent R2_hist S2_hist strong_resistance strong_support
         gaps_above gaps_below lv,
    detect_cme_gap_improved (df_1d pv) last_price = (gap_signal, gap_level, recent) /\
    branch_levels gap_signal (PP pv) (R1 pv) (S1 pv) last_price atr gap_level
      R2_hist S2_hist strong_resistance strong_support
      (check_high_volume data_5m 20 (Fin 1.5)) indicators
      gaps_above gaps_below = Some lv /\
    p = finish lv atr (analyze_market_structure (df_1d pv) last_price).
Proof.
  unfold analyze_pre_ny. destruct dl_4h as [e|cols_4h rows_4h]; [discriminate|].
  destruct (frame_empty cols_5m rows_5m || negb (has_required_cols cols_5m)) eqn:E5;
    [discriminate|].
  apply orb_false_iff in E5 as [_ Hcols]. apply negb_false_iff in Hcols.
  cbv zeta.
  destruct (error_1d (calculate_pivot_points dl_1d)) eqn:Eerr; [discriminate|].
  destruct (_ || _ || _) eqn:Edata; [discriminate|].
  apply orb_false_iff in Edata as [Edata Hlen].
  apply orb_false_iff in Edata as [_ Hpp]. apply Nat.ltb_ge in Hlen.
  destruct (isnan (safe_float_last _)) eqn:Elp; [discriminate|].
  unfold decide_and_validate.
  destruct (detect_cme_gap_improved _ _) as [[gap_signal gap_level] recent] eqn:Egap.
  destruct (find_all_gaps_comprehensive _ _ _) as [gaps_above gaps_below].
  cbv zeta.
  destruct (strong_level (find_historical_level _ _ true _) _) as [sr|]; [|discriminate].
  destruct (strong_level (find_historical_level _ _ false _) _) as [ss|]; [|discriminate].
  destruct (branch_levels _ _ _ _ _ _ _ _ _ _ _ _ _ _ _) as [lv|] eqn:Elv; [|discriminate].
  destruct (pydiv _ _) as [r|] eqn:Er; [|discriminate].
  intros [= <-]. apply pydiv_inv in Er as [Hz _].
  split; [eauto|]. repeat (split; [first [assumption|reflexivity]|]).
  do 10 eexists. split; [reflexivity|]. split; [exact Elv|reflexivity].
Qed.


Lemma branch_levels_outcome gap_signal PP R1 S1 last_price atr gap_level
    R2_hist S2_hist strong_resistance strong_support high_volume indicators
    gaps_above gaps_below lv :
  branch_levels gap_signal PP R1 S1 last_price atr gap_level R2_hist S2_hist
    strong_resistance strong_support high_volume indicators
    gaps_above gaps_below = Some lv ->
  branch_outcome gap_signal PP last_price gap_level lv.
Proof.
  unfold branch_levels, branch_outcome. cbv zeta.
  destruct (String.eqb gap_signal "SHORT_TO_FILL") eqn:Es;
    [|destruct (String.eqb gap_signal "LONG_TO_FILL") eqn:El;
      [|destruct (String.eqb gap_signal "NO_GAP") eqn:En]].
  - apply String.eqb_eq in Es. intros [= <-]. unfold gap_short_branch. cbv zeta.
    match goal with
    | |- context [if Qleb 3.0 ?c && Qleb 0 ?i then _ else _] =>
        set (conf := c); set (ind := i)
    end.
    destruct (Qleb 3.0 conf && Qleb 0 ind) eqn:Emin.
    + apply andb_true_iff in Emin as [Hc Hi]. q_reflect.
      right. left. destruct (_ || _) eqn:Enear.
      * destruct (Qleb 4.5 conf) eqn:Ef; q_reflect;
          cbn [lv_decision lv_confidence lv_indicator_score lv_entry lv_tp1];
          repeat split; auto 10; try lra.
      * apply orb_false_iff in Enear as [Enear _].
        cbn [lv_decision lv_confidence lv_indicator_score lv_entry lv_tp1].
        repeat split; auto 10; try lra.
    + left. cbn [lv_decision lv_entry]. split; reflexivity.
  - apply String.eqb_eq in El. intros [= <-]. unfold gap_long_branch. cbv zeta.
    match goal with
    | |- context [if Qleb 3.0 ?c && Qleb 0 ?i then _ else _] =>
        set (conf := c); set (ind := i)
    end.
    destruct (Qleb 3.0 conf && Qleb 0 ind) eqn:Emin.
    + apply andb_true_iff in Emin as [Hc Hi]. q_reflect.
      right. right. left. destruct (_ || _) eqn:Enear.
      * destruct (Qleb 4.5 conf) eqn:Ef; q_reflect;
          cbn [lv_decision lv_confidence lv_indicator_score lv_entry lv_tp1];
          repeat split; auto 10; try lra.
      * apply orb_false_iff in Enear as [Enear _].
        cbn [lv_decision lv_confidence lv_indicator_score lv_entry lv_tp1].
        repeat split; auto 10; try lra.
    + left. cbn [lv_decision lv_entry]. split; reflexivity.
  - apply String.eqb_eq in En. unfold no_gap_branch.
    destruct (head_near gaps_above last_price) as [[|]|]; cbn [mbind option_bind];
      try discriminate.
    + cbv zeta. destruct (Qleb _ _) eqn:Ec; intros [= <-]; q_reflect;
        cbn [lv_decision lv_confidence lv_entry]; [|left; split; reflexivity].
      right. right. right. split; [assumption|]. split; [reflexivity|].
          first [left; split; [solve [auto]|lra] | right; split; [solve [auto]|lra]].
    + destruct (head_near gaps_below last_price) as [[|]|]; cbn [mbind option_bind];
        try discriminate.
      * cbv zeta. destruct (Qleb _ _) eqn:Ec; intros [= <-]; q_reflect;
          cbn [lv_decision lv_confidence lv_entry]; [|left; split; reflexivity].
        right. right. right. split; [assumption|]. split; [reflexivity|].
          first [left; split; [solve [auto]|lra] | right; split; [solve [auto]|lra]].
      * cbv zeta. destruct (strong_resistance && _).
        { destruct (Qleb _ _) eqn:Ec; intros [= <-]; q_reflect;
            cbn [lv_decision lv_confidence lv_entry]; [|left; split; reflexivity].
          right. right. right. split; [assumption|]. split; [reflexivity|].
          first [left; split; [solve [auto]|lra] | right; split; [solve [auto]|lra]]. }
        destruct (strong_support && _).
        { destruct (Qleb _ _) eqn:Ec; intros [= <-]; q_reflect;
            cbn [lv_decision lv_confidence lv_entry]; [|left; split; reflexivity].
          right. right. right. split; [assumption|]. split; [reflexivity|].
          first [left; split; [solve [auto]|lra] | right; split; [solve [auto]|lra]]. }
        intros [= <-]. left. split; reflexivity.
  - intros [= <-]. left. split; reflexivity.
Qed.

Lemma calculate_pivot_points_inv dl :
  error_1d (calculate_pivot_points dl) = None ->
  exists cols df prev,
    dl = Downloaded cols df /\ (2 <= length df)%nat /\
    has_required_cols cols = true /\ iloc_neg 2 df = Some prev /\
    isnan (High prev) = false /\ isnan (Low prev) = false /\
    isnan (Close prev) = false /\
    calculate_pivot_points dl =
      (let '(PP, R1, S1) := pivot_formula (High prev) (Low prev) (Close prev) in
       mkPivots PP R1 S1 df None).
Proof.
  unfold calculate_pivot_points. destruct dl as [e|cols df]; [discriminate|].
  destruct (frame_empty cols df || (length df <? 2)%nat || negb (has_required_cols cols))
    eqn:E; [discriminate|].
  apply orb_false_iff in E as [E Hc]. apply orb_false_iff in E as [_ Hlen].
  apply negb_false_iff in Hc. apply Nat.ltb_ge in Hlen.
  destruct (iloc_neg 2 df) as [prev|] eqn:Ep; [|discriminate].
  cbv zeta. rewrite !safe_float_id.
  destruct (isnan (High prev) || isnan (Low prev) || isnan (Close prev)) eqn:En;
    [discriminate|].
  apply orb_false_iff in En as [En Hcl]. apply orb_false_iff in En as [Hh Hl].
  intros _. exists cols, df, prev. repeat split; auto.
Qed.

Lemma finish_scores lv atr ms :
  indicator_score (finish lv atr ms) = lv_indicator_score lv.
Proof.
  unfold finish. destruct (validate_levels _ _ _ _ _ _) as [[[e s] t1] t2].
  reflexivity.
Qed.

Lemma finish_entry lv atr ms : entry_p (finish lv atr ms) = lv_entry lv.
Proof.
  destruct (finish_fields lv atr ms) as (_ & _ & _ & Hval & _).
  cbv zeta in Hval.
  pose proof (validate_levels_entry (lv_decision lv) (lv_entry lv) (lv_sl lv)
                (lv_tp1 lv) (lv_tp2 lv) atr) as He.
  rewrite Hval in He. exact He.
Qed.

(** A plan needs its data: [analyze_pre_ny] returns one only when the
    five-minute download came with the five columns and at least three
    rows without NaN, the hourly download did not fail, the last
    five-minute close is a number other than zero, and the daily download
    has the columns and at least two rows with a numeric high, low and
    close in the second-to-last; the plan's ATR is that of the complete
    five-minute rows and its market structure that of the daily rows. *)
Theorem plan_needs_data symbol dl_5m dl_4h dl_1d indicators p :
  analyze_pre_ny symbol dl_5m dl_4h dl_1d indicators = Plan p ->
  exists cols_5m rows_5m cols_4h rows_4h cols_1d rows_1d prev,
    dl_5m = Downloaded cols_5m rows_5m /\
    dl_4h = Downloaded cols_4h rows_4h /\
    dl_1d = Downloaded cols_1d rows_1d /\
    let data_5m := List.filter row_complete rows_5m in
    let last_price := safe_float_last (column Close data_5m) in
    has_required_cols cols_5m = true /\
    (3 <= length data_5m)%nat /\
    isnan last_price = false /\ feqb last_price (Fin 0) = false /\
    has_required_cols cols_1d = true /\
    (2 <= length rows_1d)%nat /\
    iloc_neg 2 rows_1d = Some prev /\
    isnan (High prev) = false /\ isnan (Low prev) = false /\
    isnan (Close prev) = false /\
    atr_used p = safe_atr data_5m 14 /\
    structure p = analyze_market_structure rows_1d last_price.
Proof.
  intros Hrun. destruct dl_5m as [e|cols_5m rows_5m]; [discriminate|].
  apply analyze_plan_inputs in Hrun
    as ((cols_4h & rows_4h & ->) & Hcols & Herr & Hpp & Hlen & Hlp & Hz
        & gs & gl & rec & R2 & S2 & sr & ss & ga & gb & lv & _ & _ & ->).
  cbv zeta in *.
  apply calculate_pivot_points_inv in Herr
    as (cols_1d & rows_1d & prev & -> & Hlen1 & Hc1 & Hprev & Hh & Hl & Hc & Hpv).
  exists cols_5m, rows_5m, cols_4h, rows_4h, cols_1d, rows_1d, prev.
  destruct (finish_fields lv (safe_atr (List.filter row_complete rows_5m) 14)
              (analyze_market_structure
                 (df_1d (calculate_pivot_points (Downloaded cols_1d rows_1d)))
                 (safe_float_last (column Close (List.filter row_complete rows_5m)))))
    as (_ & Hatr & Hms & _).
  cbv zeta in Hatr, Hms. rewrite Hatr, Hms, Hpv.
  destruct (pivot_formula _ _ _) as [[pp r1] s1]. cbn [df_1d].
  repeat split; auto.
Qed.

Lemma plan_needs_data_witness :
  exists p, sample_run five_minute_bars = Plan p /\ atr_used p = Fin 1.
Proof.
  destruct (sample_run five_minute_bars) as [| |p] eqn:E;
    [vm_compute in E; discriminate E|vm_compute in E; discriminate E|].
  exists p. split; [reflexivity|].
  unfold sample_run in E.
  destruct (plan_needs_data _ _ _ _ _ _ E)
    as (c5 & r5 & c4 & r4 & c1 & r1 & prev & H5 & _ & _ & H).
  cbv zeta in H. injection H5 as <- <-.
  destruct H as (_ & _ & _ & _ & _ & _ & _ & _ & _ & _ & Hatr & _).
  rewrite Hatr. reflexivity.
Defined.

(** ** Entries, thresholds and targets *)

Lemma finish_decision lv atr ms : decision (finish lv atr ms) = lv_decision lv.
Proof. now destruct (finish_fields lv atr ms) as (H & _). Qed.

Lemma finish_confidence lv atr ms :
  confidence_before_structure (finish lv atr ms) = lv_confidence lv.
Proof. now destruct (finish_fields lv atr ms) as (_ & _ & _ & _ & _ & H & _). Qed.

(** What [analyze_pre_ny] decides and where it enters: a decision that
    starts with NO_OPERAR has no entry; every other decision is one of the
    ten trade labels and was reached with a confidence, before the
    market-structure multiplier, of at least 3; PENDIENTE enters at the
    pivot PP, every other trade at the last five-minute close; FUERTE needs
    4.5, MODERADO is under 4.5, a trade at a historical level needs 3.5,
    and a gap-fill trade an indicator score that is not negative. *)
Theorem plan_entry_and_confidence symbol cols_5m rows_5m dl_4h dl_1d indicators p :
  analyze_pre_ny symbol (Downloaded cols_5m rows_5m) dl_4h dl_1d indicators = Plan p ->
  let last_price :=
    safe_float_last (column Close (List.filter row_complete rows_5m)) in
  let d := decision p in
  let c := confidence_before_structure p in
  (entry_p p = NaN /\ String.prefix "NO_OPERAR" d = true) \/
  (In d entry_decisions /\ 3 <= c /\
   (contains "PENDIENTE" d = true -> entry_p p = PP (calculate_pivot_points dl_1d)) /\
   (contains "PENDIENTE" d = false -> entry_p p = last_price) /\
   (contains "FUERTE" d = true -> 4.5 <= c) /\
   (contains "MODERADO" d = true -> c < 4.5) /\
   (contains "Nivel Historico" d = true -> 3.5 <= c) /\
   (contains "Activacion" d = true \/ contains "PENDIENTE" d = true ->
    0 <= indicator_score p)).
Proof.
  intros Hrun.
  apply analyze_plan_inputs in Hrun
    as (_ & _ & _ & _ & _ & _ & _
        & gs & gl & rec & R2 & S2 & sr & ss & ga & gb & lv & _ & Hlv & ->).
  cbv zeta in *. rewrite finish_entry, finish_decision, finish_confidence, finish_scores.
  apply branch_levels_outcome in Hlv. unfold branch_outcome in Hlv. cbv zeta in Hlv.
  destruct Hlv as [[He Hd]|[Hs|[Hl|Hn]]].
  - left. auto.
  - right. destruct Hs as (_ & _ & Hc & Hi & [(Hd & Hf & He)|[(Hd & Hf & He)|(Hd & He & _)]]);
      rewrite Hd, He; cbn [entry_decisions In];
      (split; [auto 12|]); (split; [exact Hc|]);
      repeat split; intros H; try reflexivity; try assumption;
      try (vm_compute in H; first [discriminate H | destruct H; discriminate]).
  - right. destruct Hl as (_ & _ & Hc & Hi & [(Hd & Hf & He)|[(Hd & Hf & He)|(Hd & He & _)]]);
      rewrite Hd, He; cbn [entry_decisions In];
      (split; [auto 12|]); (split; [exact Hc|]);
      repeat split; intros H; try reflexivity; try assumption;
      try (vm_compute in H; first [discriminate H | destruct H; discriminate]).
  - right. destruct Hn as (_ & He & [([Hd|Hd] & Hc)|([Hd|Hd] & Hc)]);
      rewrite Hd, He; cbn [entry_decisions In];
      (split; [auto 12|]); (split; [lra|]);
      repeat split; intros H; try reflexivity; try assumption;
      try (vm_compute in H; first [discriminate H | destruct H; discriminate]).
Qed.

Lemma plan_entry_and_confidence_witness :
  exists p, sample_run five_minute_bars = Plan p /\
    ((entry_p p = NaN /\ String.prefix "NO_OPERAR" (decision p) = true) \/
     (In (decision p) entry_decisions /\ 3 <= confidence_before_structure p /\
      (contains "PENDIENTE" (decision p) = true ->
       entry_p p = PP (calculate_pivot_points (Downloaded required_cols gap_above_days))) /\
      (contains "PENDIENTE" (decision p) = false ->
       entry_p p = safe_float_last
                     (column Close (List.filter row_complete five_minute_bars))) /\
      (contains "FUERTE" (decision p) = true -> 4.5 <= confidence_before_structure p) /\
      (contains "MODERADO" (decision p) = true -> confidence_before_structure p < 4.5) /\
      (contains "Nivel Historico" (decision p) = true ->
       3.5 <= confidence_before_structure p) /\
      (contains "Activacion" (decision p) = true
       \/ contains "PENDIENTE" (decision p) = true -> 0 <= indicator_score p))).
Proof.
  destruct (sample_run five_minute_bars) as [| |p] eqn:E;
    [vm_compute in E; discriminate E|vm_compute in E; discriminate E|].
  exists p. split; [reflexivity|].
  unfold sample_run in E.
  exact (plan_entry_and_confidence _ _ _ _ _ _ _ E).
Defined.

(** *** The target of a gap-fill trade *)

Lemma detect_cme_gap_improved_side df last_price signal lvl recent :
  detect_cme_gap_improved df last_price = (signal, lvl, recent) ->
  (signal = "SHORT_TO_FILL"%string -> (lvl <? last_price)%F = true) /\
  (signal = "LONG_TO_FILL"%string -> (last_price <? lvl)%F = true).
Proof.
  unfold detect_cme_gap_improved.
  destruct (length df <? 5)%nat; [intros [= <- <- <-]; split; discriminate|].
  cbv zeta. set (found := omap _ _).
  pose proof (sorted_perm (fun g => fabs (rg_level g - last_price)%F) found) as Hperm.
  destruct (sorted _ found) as [|g rest]; [intros [= <- <- <-]; split; discriminate|].
  assert (Hg : on_fill_side last_price g).
  { assert (Hin : g ∈ found) by (rewrite <- Hperm; left).
    unfold found in Hin. apply list_elem_of_omap in Hin as (k & _ & Hk).
    now apply recent_gap_at_inv in Hk as (_ & _ & Hk). }
  destruct Hg as [(_ & Hd & Hl)|(_ & Hd & Hl)]; rewrite Hd;
    cbn [String.eqb Ascii.eqb Bool.eqb]; intros [= <- <- <-];
    split; intros H; first [exact Hl|discriminate H].
Qed.

Lemma flt_not_fle x y : (x <? y)%F = true -> (y <=? x)%F = false.
Proof. destruct x, y; cbn; try discriminate; try reflexivity. intros. q_solve. Qed.

Lemma flt_trans x y z : (x <? y)%F = true -> (y <? z)%F = true -> (x <? z)%F = true.
Proof.
  destruct x, y, z; cbn; try discriminate; try reflexivity. intros. q_solve.
Qed.

Lemma not_fle_flt x y :
  isnan x = false -> isnan y = false -> (x <=? y)%F = false -> (y <? x)%F = true.
Proof. destruct x, y; cbn; try discriminate; try reflexivity. intros. q_solve. Qed.

Lemma validate_levels_tp1_short decision entry sl tp1 tp2 atr :
  contains "SHORT" decision = true -> (tp1 >=? entry)%F = false ->
  (validate_levels decision entry sl tp1 tp2 atr).1.2 = tp1.
Proof.
  intros Hd Ht. unfold validate_levels.
  destruct (isnan entry || isnan atr); [reflexivity|].
  rewrite Hd. cbn. now rewrite Ht, andb_false_r.
Qed.

Lemma validate_levels_tp1_long decision entry sl tp1 tp2 atr :
  contains "SHORT" decision = false -> contains "LONG" decision = true ->
  (tp1 <=? entry)%F = false ->
  (validate_levels decision entry sl tp1 tp2 atr).1.2 = tp1.
Proof.
  intros Hs Hd Ht. unfold validate_levels.
  destruct (isnan entry || isnan atr); [reflexivity|].
  rewrite Hs, Hd. cbn. now rewrite Ht, andb_false_r.
Qed.

Lemma finish_tp1 lv atr ms :
  tp1_p (finish lv atr ms) =
    (validate_levels (lv_decision lv) (lv_entry lv) (lv_sl lv) (lv_tp1 lv)
       (lv_tp2 lv) atr).1.2.
Proof.
  destruct (finish_fields lv atr ms) as (_ & _ & _ & Hval & _).
  cbv zeta in Hval. now rewrite Hval.
Qed.

(** A trade that fills a gap aims at the gap: when [analyze_pre_ny] plans
    an entry on a signal of [detect_cme_gap_improved], TP1 is the level of
    the detected gap, whatever the ATR, and [validate_levels] has nothing
    to move: a SHORT_TO_FILL signal gives a SHORT decision with the gap
    strictly under the last price and under the entry, a LONG_TO_FILL
    signal a LONG decision with the gap strictly over both. *)
Theorem gap_fill_target symbol cols_5m rows_5m dl_4h dl_1d indicators p :
  analyze_pre_ny symbol (Downloaded cols_5m rows_5m) dl_4h dl_1d indicators = Plan p ->
  let last_price :=
    safe_float_last (column Close (List.filter row_complete rows_5m)) in
  let '(gap_signal, gap_level, _) :=
    detect_cme_gap_improved (df_1d (calculate_pivot_points dl_1d)) last_price in
  isnan (entry_p p) = false -> gap_signal <> "NO_GAP"%string ->
  tp1_p p = gap_level /\
  ((gap_signal = "SHORT_TO_FILL"%string /\ contains "SHORT" (decision p) = true /\
    (gap_level <? last_price)%F = true /\ (gap_level <? entry_p p)%F = true) \/
   (gap_signal = "LONG_TO_FILL"%string /\ contains "LONG" (decision p) = true /\
    (last_price <? gap_level)%F = true /\ (entry_p p <? gap_level)%F = true)).
Proof.
  intros Hrun.
  apply analyze_plan_inputs in Hrun
    as (_ & _ & _ & Hpp & _ & Hlp & _
        & gs & gl & rec & R2 & S2 & sr & ss & ga & gb & lv & Egap & Hlv & ->).
  cbv zeta in *. rewrite Egap.
  rewrite finish_entry, finish_decision, finish_tp1.
  apply detect_cme_gap_improved_side in Egap as [Hshort Hlong].
  apply branch_levels_outcome in Hlv. unfold branch_outcome in Hlv. cbv zeta in Hlv.
  intros Hentry Hgap.
  destruct Hlv as [[He _]|[Hs|[Hl|Hn]]].
  - rewrite He in Hentry. discriminate.
  - destruct Hs as (Hgs & Htp1 & _ & _ & Hd).
    specialize (Hshort Hgs). rewrite Htp1.
    assert (Hd' : contains "SHORT" (lv_decision lv) = true
                  /\ (gl <? lv_entry lv)%F = true).
    { destruct Hd as [(Hd & _ & He)|[(Hd & _ & He)|(Hd & He & Hfar)]];
        rewrite Hd, He; (split; [reflexivity|]); [exact Hshort|exact Hshort|].
      eapply flt_trans; [exact Hshort|]. now apply not_fle_flt. }
    destruct Hd' as [Hc Hlt].
    split; [|left; auto].
    apply validate_levels_tp1_short; [exact Hc|]. now apply flt_not_fle.
  - destruct Hl as (Hgs & Htp1 & _ & _ & Hd).
    specialize (Hlong Hgs). rewrite Htp1.
    assert (Hd' : contains "SHORT" (lv_decision lv) = false
                  /\ contains "LONG" (lv_decision lv) = true
                  /\ (lv_entry lv <? gl)%F = true).
    { destruct Hd as [(Hd & _ & He)|[(Hd & _ & He)|(Hd & He & Hfar)]];
        rewrite Hd, He; (split; [reflexivity|]); (split; [reflexivity|]);
        [exact Hlong|exact Hlong|].
      eapply flt_trans; [|exact Hlong]. now apply not_fle_flt. }
    destruct Hd' as (Hs & Hc & Hlt).
    split; [|right; auto].
    apply validate_levels_tp1_long; [exact Hs|exact Hc|]. now apply flt_not_fle.
  - destruct Hn as (Hgs & _). contradiction.
Qed.


Lemma gap_fill_target_witness :
  exists p, gap_fill_run = Plan p /\
    decision p = "SHORT_FUERTE (Activacion Inmediata)"%string /\
    tp1_p p = Fin 101 /\ entry_p p = Fin 105.
Proof.
  destruct gap_fill_run as [| |p] eqn:E;
    [vm_compute in E; discriminate E|vm_compute in E; discriminate E|].
  exists p. split; [reflexivity|].
  assert (Hp : isnan (entry_p p) = false /\
               decision p = "SHORT_FUERTE (Activacion Inmediata)"%string /\
               entry_p p = Fin 105).
  { assert (E' := E). vm_compute in E'. injection E' as <-. repeat split. }
  destruct Hp as (Hn & Hd & He).
  split; [exact Hd|]. split; [|exact He].
  unfold gap_fill_run in E.
  pose proof (gap_fill_target _ _ _ _ _ _ _ E) as H. cbv zeta in H.
  assert (Eg : detect_cme_gap_improved
                 (df_1d (calculate_pivot_points (Downloaded required_cols recent_gap_days)))
                 (safe_float_last
                    (column Close (List.filter row_complete five_minute_bars)))
               = ("SHORT_TO_FILL"%string, Fin 101,
                  [mkRecentGap (Fin 101) "GAP_UP" (Fin (200 # 101)) 2 "DOWN_TO_FILL"]))
    by (vm_compute; reflexivity).
  rewrite Eg in H. apply H; [exact Hn|discriminate].
Defined.

(** ** Pivot outcomes *)

(** [calculate_pivot_points] ends in one of two ways.  With an error
    message the three levels are NaN.  There is no error message exactly
    when the download has the five columns and a second-to-last row whose
    high, low and close are not NaN.  The frame handed back is the
    downloaded one in both cases. *)
Theorem pivot_outcomes dl :
  let pv := calculate_pivot_points dl in
  (error_1d pv <> None -> PP pv = NaN /\ R1 pv = NaN /\ S1 pv = NaN) /\
  (error_1d pv = None <->
   exists cols df prev,
     dl = Downloaded cols df /\ has_required_cols cols = true /\
     iloc_neg 2 df = Some prev /\
     isnan (High prev) = false /\ isnan (Low prev) = false /\
     isnan (Close prev) = false) /\
  (forall cols df, dl = Downloaded cols df -> df_1d pv = df).
Proof.
  cbv zeta. split; [|split].
  - unfold calculate_pivot_points. destruct dl as [e|cols df]; [cbn; auto|].
    destruct (_ || _ || _); [cbn; auto|].
    destruct (iloc_neg 2 df) as [prev|]; [|cbn; auto].
    cbv zeta. destruct (_ || _ || _); [cbn; auto|].
    destruct (pivot_formula _ _ _) as [[pp r1] s1]. cbn. congruence.
  - split.
    + intros H. apply calculate_pivot_points_inv in H
        as (cols & df & prev & -> & _ & Hc & Hp & Hh & Hl & Hcl & _).
      exists cols, df, prev. repeat split; assumption.
    + intros (cols & df & prev & -> & Hc & Hp & Hh & Hl & Hcl).
      unfold calculate_pivot_points.
      pose proof (iloc_neg_length _ _ _ Hp) as Hlen.
      pose proof (has_required_cols_nonempty _ Hc) as Hne.
      assert (Hfe : frame_empty cols df = false).
      { destruct cols; [congruence|]. destruct df; [simpl in Hlen; lia|reflexivity]. }
      assert (Hlt : (length df <? 2)%nat = false) by (apply Nat.ltb_ge; lia).
      rewrite Hfe, Hlt, Hc, Hp. cbn [orb negb]. cbv zeta.
      rewrite !safe_float_id, Hh, Hl, Hcl. cbn [orb].
      destruct (pivot_formula _ _ _) as [[pp r1] s1]. reflexivity.
  - intros cols df ->. unfold calculate_pivot_points.
    destruct (_ || _ || _); [reflexivity|].
    destruct (iloc_neg 2 df) as [prev|]; [|reflexivity].
    cbv zeta. destruct (_ || _ || _); [reflexivity|].
    destruct (pivot_formula _ _ _) as [[pp r1] s1]. reflexivity.
Qed.

(** ** Consolidation band *)

Lemma dropna_not_nan l : Forall (fun x => isnan x = false) (dropna l).
Proof.
  unfold dropna. eapply Forall_impl; [apply Forall_filter_bool|].
  intros x Hx. now apply negb_true_iff in Hx.
Qed.

Lemma in_dropna l x : In x l -> isnan x = false -> In x (dropna l).
Proof.
  intros Hin Hx. unfold dropna. apply filter_In. split; [exact Hin|].
  now rewrite Hx.
Qed.

(** The maximum that skips NaN bounds every value that is a number. *)
Lemma series_max_skipna l x :
  In x l -> isnan x = false ->
  isnan (series_max l) = false /\ (x <=? series_max l)%F = true.
Proof.
  intros Hin Hx. pose proof (in_dropna l x Hin Hx) as Hd.
  pose proof (dropna_not_nan l) as Hn.
  unfold series_max. destruct (dropna l) as [|y t]; [destruct Hd|].
  apply Forall_cons_1 in Hn as [Hy Ht].
  destruct (foldl_fmax2_spec t y Hy Ht) as [Hm Hle].
  split.
  - assert (Hall : Forall (fun z => isnan z = false) (y :: t)) by (constructor; auto).
    rewrite Forall_forall in Hall. apply Hall. now apply list_elem_of_In.
  - rewrite Forall_forall in Hle. apply Hle. now apply list_elem_of_In.
Qed.

Lemma series_min_skipna l x :
  In x l -> isnan x = false ->
  isnan (series_min l) = false /\ (series_min l <=? x)%F = true.
Proof.
  intros Hin Hx. pose proof (in_dropna l x Hin Hx) as Hd.
  pose proof (dropna_not_nan l) as Hn.
  unfold series_min. destruct (dropna l) as [|y t]; [destruct Hd|].
  apply Forall_cons_1 in Hn as [Hy Ht].
  destruct (foldl_fmin2_spec t y Hy Ht) as [Hm Hle].
  split.
  - assert (Hall : Forall (fun z => isnan z = false) (y :: t)) by (constructor; auto).
    rewrite Forall_forall in Hall. apply Hall. now apply list_elem_of_In.
  - rewrite Forall_forall in Hle. apply Hle. now apply list_elem_of_In.
Qed.

(** [detect_consolidation]: the resistance is at or over every high of the
    last [lookback] rows and the support at or under every low, NaN values
    set aside; on a positive support the rows consolidate exactly when the
    resistance is less than 5 % over the support; a frame shorter than the
    lookback never consolidates. *)
Theorem consolidation_band df lookback :
  let c := detect_consolidation df lookback in
  let recent := iloc_tail lookback df in
  ((length df < lookback)%nat -> is_consolidating c = false) /\
  ((lookback <= length df)%nat ->
   (forall b, In b recent -> isnan (High b) = false ->
      (High b <=? resistance_level c)%F = true) /\
   (forall b, In b recent -> isnan (Low b) = false ->
      (support_level c <=? Low b)%F = true) /\
   (forall hi lo, resistance_level c = Fin hi -> support_level c = Fin lo ->
      0 < lo -> (is_consolidating c = true <-> hi < 1.05 * lo))).
Proof.
  cbv zeta. unfold detect_consolidation.
  destruct (length df <? lookback)%nat eqn:Elen.
  { apply Nat.ltb_lt in Elen. split; [reflexivity|intros; lia]. }
  apply Nat.ltb_ge in Elen. split; [intros; lia|]. intros _.
  cbv zeta. cbn [resistance_level support_level is_consolidating].
  split; [|split].
  - intros b Hb Hn. apply series_max_skipna; [|exact Hn].
    unfold column. apply in_map_iff. eauto.
  - intros b Hb Hn. apply series_min_skipna; [|exact Hn].
    unfold column. apply in_map_iff. eauto.
  - intros hi lo -> -> Hlo. cbn.
    destruct (Qeqb lo 0) eqn:E0; [q_reflect; lra|].
    cbn. split; intros H; q_reflect; q_norm.
    + assert (Hd : (hi + - lo) * / lo * 100 < 5) by exact H.
      assert (Hi : 0 < / lo) by (apply Qinv_lt_0_compat; exact Hlo).
      assert (Hm : (hi + - lo) * / lo * lo == hi + - lo) by (field; lra).
      nra.
    + assert (Hi : 0 < / lo) by (apply Qinv_lt_0_compat; exact Hlo).
      assert (Hm : (hi + - lo) * / lo * lo == hi + - lo) by (field; lra).
      nra.
Qed.

(** ** High volume *)

Lemma within_not_nan lo hi x : within lo hi x -> isnan x = false.
Proof. destruct x; cbn; tauto. Qed.

Lemma fsum_within lo hi l :
  Forall (within lo hi) l ->
  exists s, fsum l = Fin s /\
    inject_Z (Z.of_nat (length l)) * lo <= s <= inject_Z (Z.of_nat (length l)) * hi.
Proof.
  induction 1 as [|x t Hx Ht IH].
  - exists 0. split; [reflexivity|].
    change (inject_Z (Z.of_nat (length (@nil num)))) with 0. lra.
  - destruct IH as (s & Hs & Hb). destruct x as [q| | |]; try contradiction.
    change (fsum (Fin q :: t)) with (Fin q + fsum t)%F.
    rewrite Hs. cbn [fadd]. eexists. split; [reflexivity|].
    cbn [length]. rewrite Nat2Z.inj_succ. unfold Z.succ. rewrite inject_Z_plus.
    cbn [within] in Hx. rewrite Qred_correct.
    change (inject_Z 1) with 1. nra.
Qed.

Lemma series_mean_within lo hi l :
  l <> [] -> Forall (within lo hi) l -> within lo hi (series_mean l).
Proof.
  intros Hne Hl. unfold series_mean.
  rewrite dropna_id by (eapply Forall_impl; [exact Hl|apply within_not_nan]).
  destruct (fsum_within lo hi l Hl) as (s & -> & Hb). unfold count.
  assert (Hn : 0 < inject_Z (Z.of_nat (length l))).
  { change 0 with (inject_Z 0). rewrite <- Zlt_Qlt.
    destruct l; [congruence|simpl; lia]. }
  revert Hb Hn. generalize (inject_Z (Z.of_nat (length l))). intros n Hb Hn.
  cbn [fdiv]. destruct (Qeqb n 0) eqn:E; [q_reflect; lra|].
  unfold fin. cbn [within]. rewrite Qred_correct.
  assert (Hi : 0 < / n) by now apply Qinv_lt_0_compat.
  assert (Hm : s / n * n == s) by (field; lra).
  unfold Qdiv in *. nra.
Qed.

Lemma length_iloc_window {A} (l : list A) period :
  (1 <= period <= length l)%nat ->
  length (iloc_window period 1 l) = (period - 1)%nat.
Proof.
  intros Hp. unfold iloc_window, neg_start.
  destruct period as [|n]; [lia|]. rewrite length_drop, length_take. lia.
Qed.

(** [check_high_volume] compares the last volume with [multiplier] times
    the mean of the [period - 1] volumes before it: when those lie between
    [lo] and [hi] and the multiplier is not negative, a last volume over
    [multiplier * hi] is high and one of at most [multiplier * lo] is not;
    a frame of fewer than [period] rows never has a high volume. *)
Theorem high_volume_bounds df period (m lo hi v : Q) :
  (2 <= period <= length df)%nat -> 0 <= m ->
  Forall (within lo hi) (iloc_window period 1 (column Volume df)) ->
  iloc_neg 1 (column Volume df) = Some (Fin v) ->
  (m * hi < v -> check_high_volume df period (Fin m) = true) /\
  (v <= m * lo -> check_high_volume df period (Fin m) = false) /\
  (forall rows, (length rows < period)%nat ->
                check_high_volume rows period (Fin m) = false).
Proof.
  intros Hp Hm Hwin Hlast.
  assert (Hshort : forall rows, (length rows < period)%nat ->
                                check_high_volume rows period (Fin m) = false).
  { intros rows Hr. unfold check_high_volume.
    now replace (length rows <? period)%nat with true
      by (symmetry; apply Nat.ltb_lt; lia). }
  unfold check_high_volume.
  replace (length df <? period)%nat with false by (symmetry; apply Nat.ltb_ge; lia).
  rewrite Hlast. cbv zeta. rewrite !safe_float_id.
  assert (Hne : iloc_window period 1 (column Volume df) <> []).
  { intros E. apply (f_equal length) in E.
    rewrite length_iloc_window in E by (unfold column; rewrite length_map; lia).
    simpl in E. lia. }
  pose proof (series_mean_within lo hi _ Hne Hwin) as Havg.
  destruct (series_mean _) as [a| | |]; try contradiction. cbn [within] in Havg.
  cbn [fmul]. unfold fin, fgt. cbn [flt].
  split; [|split; [|exact Hshort]]; intros H; q_reflect; rewrite Qred_correct; nra.
Qed.

Lemma high_volume_bounds_witness :
  check_high_volume five_minute_bars 14 (Fin 0.5) = true.
Proof.
  apply (high_volume_bounds five_minute_bars 14 0.5 1000 1000 1000).
  - cbn. lia.
  - lra.
  - vm_compute. repeat constructor; discriminate.
  - reflexivity.
  - lra.
Defined.

(** ** RSI extremes *)

Lemma window_mean_map {A} (f : A -> num) w (l : list A) :
  (w <= length l)%nat ->
  Forall (fun x => isnan (f x) = false) (drop (length l - w) l) ->
  window_mean w (map f l) = series_mean (map f (drop (length l - w) l)).
Proof.
  intros Hw Hn. unfold window_mean, series_mean. rewrite length_map.
  replace (length l <? w)%nat with false by (symmetry; apply Nat.ltb_ge; lia).
  cbv zeta. rewrite !List.skipn_map.
  assert (Hall : Forall (fun x => isnan x = false) (map f (drop (length l - w) l))).
  { apply List.Forall_map. exact Hn. }
  rewrite (dropna_id _ Hall).
  destruct (existsb isnan _) eqn:E; [|reflexivity].
  apply existsb_exists in E as (x & Hx & Hnan).
  rewrite Forall_forall in Hall. apply list_elem_of_In, Hall in Hx. congruence.
Qed.

Lemma fsum_positive l :
  l <> [] -> Forall positive l -> positive (fsum l).
Proof.
  intros Hne Hl. induction Hl as [|x t Hx Ht IH]; [congruence|].
  change (fsum (x :: t)) with (x + fsum t)%F.
  destruct x as [q| | |]; try contradiction. cbn [positive] in Hx.
  destruct t as [|y t'].
  - cbn. rewrite Qred_correct. lra.
  - assert (Hs : positive (fsum (y :: t'))) by (apply IH; discriminate).
    destruct (fsum (y :: t')) as [s| | |]; try contradiction.
    cbn in Hs |- *. rewrite Qred_correct. lra.
Qed.

Lemma series_mean_positive l :
  l <> [] -> Forall positive l -> positive (series_mean l).
Proof.
  intros Hne Hl. unfold series_mean.
  rewrite dropna_id by (eapply Forall_impl; [exact Hl|]; intros [] H; now cbn in H).
  pose proof (fsum_positive l Hne Hl) as Hs. unfold count.
  assert (Hn : 0 < inject_Z (Z.of_nat (length l))).
  { change 0 with (inject_Z 0). rewrite <- Zlt_Qlt.
    destruct l; [congruence|simpl; lia]. }
  revert Hn. generalize (inject_Z (Z.of_nat (length l))). intros n Hn.
  destruct (fsum l) as [s| | |]; try contradiction. cbn [positive] in Hs.
  cbn [fdiv]. destruct (Qeqb n 0) eqn:E; [q_reflect; lra|].
  unfold fin. cbn [positive]. rewrite Qred_correct.
  apply Qlt_shift_div_l; lra.
Qed.

Lemma series_mean_zero l :
  l <> [] -> Forall (fun x => x = Fin 0) l -> exists z, series_mean l = Fin z /\ z == 0.
Proof.
  intros Hne Hl.
  assert (Hw : Forall (within 0 0) l).
  { eapply Forall_impl; [exact Hl|]. intros x ->. cbn. lra. }
  pose proof (series_mean_within 0 0 l Hne Hw) as Hm.
  destruct (series_mean l) as [z| | |]; try contradiction.
  exists z. split; [reflexivity|]. cbn in Hm. lra.
Qed.

Lemma rsi_of_gains g z : 0 < g -> z == 0 -> rsi_of (Fin g) (Fin z) = Fin 100.
Proof.
  intros Hg Hz. unfold rsi_of. cbn [fdiv].
  replace (Qeqb z 0) with true by (symmetry; now apply Qeqb_iff).
  replace (Qeqb g 0) with false by (symmetry; apply Qeqb_false; lra).
  replace (Qltb 0 g) with true by (symmetry; now apply Qltb_iff).
  reflexivity.
Qed.

Lemma rsi_of_losses z l : z == 0 -> 0 < l -> rsi_of (Fin z) (Fin l) = Fin 0.
Proof.
  intros Hz Hl. unfold rsi_of. cbn [fdiv].
  replace (Qeqb l 0) with false by (symmetry; apply Qeqb_false; lra).
  unfold fin. cbn [fadd]. unfold fin. cbn [fdiv].
  assert (Hq : z / l == 0) by (unfold Qdiv; rewrite Hz; ring).
  assert (H1 : Qred (1 + Qred (z / l)) == 1) by (rewrite !Qred_correct, Hq; lra).
  destruct (Qeqb (Qred (1 + Qred (z / l))) 0) eqn:E; [q_reflect; lra|].
  unfold fin, fsub. cbn [fneg fadd]. unfold fin. f_equal.
  transitivity (Qred 0); [apply Qred_complete|reflexivity].
  rewrite H1, !Qred_correct. reflexivity.
Qed.

Lemma rsi_of_flat z1 z2 : z1 == 0 -> z2 == 0 -> rsi_of (Fin z1) (Fin z2) = NaN.
Proof.
  intros H1 H2. unfold rsi_of. cbn [fdiv].
  replace (Qeqb z2 0) with true by (symmetry; now apply Qeqb_iff).
  replace (Qeqb z1 0) with true by (symmetry; now apply Qeqb_iff).
  reflexivity.
Qed.

Lemma last_changes_nonempty closes period :
  (1 <= period)%nat -> (period + 1 <= length closes)%nat ->
  last_changes closes period <> [].
Proof.
  intros Hperiod Hlen E. apply (f_equal length) in E. unfold last_changes in E.
  rewrite length_drop, length_diff in E. simpl in E. lia.
Qed.

(** The RSI read off the changes it averages. *)
Lemma rsi_by_changes closes period :
  (period + 1 <= length closes)%nat ->
  Forall (fun d => isnan d = false) (last_changes closes period) ->
  calculate_rsi closes period =
    rsi_of (series_mean (where_pos (last_changes closes period)))
           (series_mean (map fneg (where_neg (last_changes closes period)))).
Proof.
  intros Hlen Hn. rewrite calculate_rsi_unfold by exact Hlen.
  unfold where_pos, where_neg. rewrite !List.map_map.
  unfold last_changes in *. rewrite <- (length_diff closes) in Hn |- *.
  assert (Hw : (period <= length (diff closes))%nat) by (rewrite length_diff; lia).
  rewrite (window_mean_map (fun d => if (d >? Fin 0)%F then d else Fin 0)
             period (diff closes) Hw).
  - rewrite (window_mean_map (fun d => fneg (if (d <? Fin 0)%F then d else Fin 0))
               period (diff closes) Hw).
    + reflexivity.
    + eapply Forall_impl; [exact Hn|]. intros d Hd. cbv beta.
      destruct (d <? Fin 0)%F; [now destruct d|reflexivity].
  - eapply Forall_impl; [exact Hn|]. intros d Hd. cbv beta.
    destruct (d >? Fin 0)%F; [exact Hd|reflexivity].
Qed.

Lemma where_pos_positive l : Forall positive l -> where_pos l = l.
Proof.
  induction 1 as [|x t Hx Ht IH]; [reflexivity|].
  unfold where_pos in *. cbn [map]. rewrite IH. f_equal.
  destruct x as [q| | |]; try contradiction. cbn in Hx |- *.
  now replace (Qltb 0 q) with true by (symmetry; apply Qltb_iff; exact Hx).
Qed.

Lemma where_pos_not_positive l :
  Forall (fun d => negative d \/ d = Fin 0) l ->
  Forall (fun x => x = Fin 0) (where_pos l).
Proof.
  intros Hl. unfold where_pos. apply List.Forall_map.
  eapply Forall_impl; [exact Hl|]. intros d [Hd| ->]; [|reflexivity].
  destruct d as [q| | |]; try contradiction. cbn in Hd |- *.
  now replace (Qltb 0 q) with false by (symmetry; apply Qltb_false; lra).
Qed.

Lemma where_neg_negative l :
  Forall negative l -> Forall positive (map fneg (where_neg l)).
Proof.
  intros Hl. unfold where_neg. rewrite List.map_map. apply List.Forall_map.
  eapply Forall_impl; [exact Hl|]. intros d Hd.
  destruct d as [q| | |]; try contradiction. cbn in Hd |- *.
  replace (Qltb q 0) with true by (symmetry; apply Qltb_iff; exact Hd).
  cbn. rewrite Qred_correct. lra.
Qed.

Lemma where_neg_not_negative l :
  Forall (fun d => positive d \/ d = Fin 0) l ->
  Forall (fun x => x = Fin 0) (map fneg (where_neg l)).
Proof.
  intros Hl. unfold where_neg. rewrite List.map_map. apply List.Forall_map.
  eapply Forall_impl; [exact Hl|]. intros d [Hd| ->]; [|reflexivity].
  destruct d as [q| | |]; try contradiction. cbn in Hd |- *.
  now replace (Qltb q 0) with false by (symmetry; apply Qltb_false; lra).
Qed.

(** The three extremes of [calculate_rsi], on a series of at least
    [period + 1] closes and a period of at least one: when each of the last
    [period] changes is a gain the RSI is 100, when each is a loss it is 0,
    and when none is a change, the closes standing still, it is NaN. *)
Theorem rsi_extremes closes period :
  (1 <= period)%nat -> (period + 1 <= length closes)%nat ->
  (Forall positive (last_changes closes period) ->
   calculate_rsi closes period = Fin 100) /\
  (Forall negative (last_changes closes period) ->
   calculate_rsi closes period = Fin 0) /\
  (Forall (fun d => d = Fin 0) (last_changes closes period) ->
   calculate_rsi closes period = NaN).
Proof.
  intros Hperiod Hlen.
  pose proof (last_changes_nonempty closes period Hperiod Hlen) as Hne.
  set (win := last_changes closes period) in *.
  assert (Hne_map : forall f : num -> num, map f win <> []).
  { intros f E. apply Hne. now destruct win. }
  split; [|split]; intros Hwin.
  - rewrite rsi_by_changes; [|exact Hlen|].
    + fold win. rewrite (where_pos_positive win Hwin).
      pose proof (series_mean_positive win Hne Hwin) as Hg.
      destruct (series_mean_zero (map fneg (where_neg win))) as (z & Hz & Hz0).
      { unfold where_neg. rewrite List.map_map. apply Hne_map. }
      { apply where_neg_not_negative. eapply Forall_impl; [exact Hwin|]. auto. }
      rewrite Hz. destruct (series_mean win) as [g| | |]; try contradiction.
      now apply rsi_of_gains.
    + eapply Forall_impl; [exact Hwin|]. intros [] H; now cbn in H.
  - rewrite rsi_by_changes; [|exact Hlen|].
    + fold win.
      pose proof (where_neg_negative win Hwin) as Hpos.
      assert (Hne' : map fneg (where_neg win) <> []).
      { unfold where_neg. rewrite List.map_map. apply Hne_map. }
      pose proof (series_mean_positive _ Hne' Hpos) as Hl.
      destruct (series_mean_zero (where_pos win)) as (z & Hz & Hz0).
      { unfold where_pos. apply Hne_map. }
      { apply where_pos_not_positive. eapply Forall_impl; [exact Hwin|]. auto. }
      rewrite Hz. destruct (series_mean (map fneg (where_neg win))) as [l| | |];
        try contradiction.
      now apply rsi_of_losses.
    + eapply Forall_impl; [exact Hwin|]. intros [] H; now cbn in H.
  - rewrite rsi_by_changes; [|exact Hlen|].
    + fold win.
      destruct (series_mean_zero (where_pos win)) as (z1 & Hz1 & Hz10).
      { unfold where_pos. apply Hne_map. }
      { apply where_pos_not_positive. eapply Forall_impl; [exact Hwin|]. auto. }
      destruct (series_mean_zero (map fneg (where_neg win))) as (z2 & Hz2 & Hz20).
      { unfold where_neg. rewrite List.map_map. apply Hne_map. }
      { apply where_neg_not_negative. eapply Forall_impl; [exact Hwin|]. auto. }
      rewrite Hz1, Hz2. now apply rsi_of_flat.
    + eapply Forall_impl; [exact Hwin|]. now intros d ->.
Qed.

Lemma rsi_extremes_witness :
  calculate_rsi rising_closes 14 = Fin 100 /\
  calculate_rsi (map fneg rising_closes) 14 = Fin 0 /\
  calculate_rsi (repeat (Fin 7) 20) 14 = NaN.
Proof.
  split; [|split].
  - apply (rsi_extremes rising_closes 14); [lia|cbn; lia|].
    vm_compute. repeat constructor.
  - apply (rsi_extremes (map fneg rising_closes) 14); [lia|cbn; lia|].
    vm_compute. repeat constructor.
  - apply (rsi_extremes (repeat (Fin 7) 20) 14); [lia|cbn; lia|].
    vm_compute. repeat constructor.
Defined.

(** ** Level ordering of the plans *)

(** *** Where the levels come from *)

Lemma finite_of x : isnan x = false -> is_infinite x = false -> finite x.
Proof. destruct x; cbn; try discriminate. intros _ _. eexists; reflexivity. Qed.

Lemma finite_not_nan x : finite x -> isnan x = false.
Proof. now intros [q ->]. Qed.

Lemma iloc_neg_In {A} k (l : list A) x : iloc_neg k l = Some x -> In x l.
Proof.
  unfold iloc_neg. destruct (k <=? length l)%nat; [|discriminate].
  intros H. apply list_elem_of_In. eapply list_elem_of_lookup_2. exact H.
Qed.

Lemma pivots_finite dl :
  error_1d (calculate_pivot_points dl) = None ->
  Forall no_infinite_price (frame_rows dl) ->
  let pv := calculate_pivot_points dl in
  finite (PP pv) /\ finite (R1 pv) /\ finite (S1 pv) /\ df_1d pv = frame_rows dl.
Proof.
  intros Herr Hall.
  apply calculate_pivot_points_inv in Herr
    as (cols & df & prev & -> & _ & _ & Hp & Hh & Hl & Hc & Hpv).
  cbv zeta. rewrite Hpv. cbn [frame_rows] in *.
  apply iloc_neg_In in Hp. rewrite List.Forall_forall in Hall.
  destruct (Hall _ Hp) as (Ih & Il & Ic).
  destruct (finite_of _ Hh Ih) as [h ->], (finite_of _ Hl Il) as [l ->],
           (finite_of _ Hc Ic) as [c ->].
  destruct (pivot_formula_fin h l c) as (pp & r1 & s1 & -> & _).
  cbn. repeat split; eexists; reflexivity.
Qed.

Lemma recent_level_finite df p k g :
  Forall no_infinite_price df -> recent_gap_at df p k = Some g ->
  finite (rg_level g).
Proof.
  intros Hall H. apply recent_gap_at_iff in H
    as (prev & curr & Hp & _ & Hn & H).
  apply iloc_neg_In in Hp. rewrite List.Forall_forall in Hall.
  destruct (Hall _ Hp) as (Ih & Il & _).
  unfold pair_is_numeric in Hn. apply negb_true_iff in Hn.
  cbn [existsb] in Hn. repeat (apply orb_false_iff in Hn as [? Hn]).
  destruct H as [(_ & _ & _ & _ & _ & ->)|(_ & _ & _ & _ & _ & _ & ->)];
    cbn [rg_level]; now apply finite_of.
Qed.

(** A signal of [detect_cme_gap_improved] comes with a level of the
    frame. *)
Lemma detect_level_finite df p signal lvl recent :
  Forall no_infinite_price df ->
  detect_cme_gap_improved df p = (signal, lvl, recent) ->
  signal = "NO_GAP"%string \/ finite lvl.
Proof.
  intros Hall. unfold detect_cme_gap_improved.
  destruct (length df <? 5)%nat; [intros [= <- <- <-]; now left|].
  cbv zeta. set (found := omap _ _).
  pose proof (sorted_perm (fun g => fabs (rg_level g - p)%F) found) as Hperm.
  destruct (sorted _ found) as [|g rest]; [intros [= <- <- <-]; now left|].
  assert (Hg : finite (rg_level g)).
  { assert (Hin : g ∈ found) by (rewrite <- Hperm; left).
    unfold found in Hin. apply list_elem_of_omap in Hin as (k & _ & Hk).
    eapply recent_level_finite; eassumption. }
  destruct (String.eqb _ _); [intros [= <- <- <-]; now right|].
  destruct (String.eqb _ _); intros [= <- <- <-]; [now right|now left].
Qed.

Lemma historical_level_finite df p is_resistance lookback :
  Forall no_infinite_price df ->
  let r := find_historical_level df p is_resistance lookback in
  r = NaN \/ finite r.
Proof.
  intros Hall. cbv zeta. unfold find_historical_level.
  destruct (length df <? 3)%nat; [now left|].
  assert (Hwin : Forall no_infinite_price (iloc_window lookback 2 df)).
  { unfold iloc_window. now apply Forall_drop, Forall_take. }
  destruct (iloc_window lookback 2 df) as [|b0 w]; [now left|].
  rewrite List.Forall_forall in Hwin.
  destruct is_resistance.
  - set (rel := List.filter _ _).
    assert (Hrel : forall h, In h rel -> isnan h = false /\ is_infinite h = false).
    { intros h Hh. unfold rel in Hh. apply filter_In in Hh as [Hh Hc].
      unfold column in Hh. apply in_map_iff in Hh as (b & <- & Hb).
      split; [|now destruct (Hwin _ Hb) as (H & _)].
      unfold fgt in Hc. eapply flt_not_nan_r. exact Hc. }
    destruct rel as [|h t] eqn:E; [now left|]. right.
    rewrite safe_float_id.
    destruct (series_min_spec (h :: t)) as [Hin _]; [discriminate| |].
    { apply List.Forall_forall. intros y Hy. now apply Hrel. }
    destruct (Hrel _ Hin). now apply finite_of.
  - set (rel := List.filter _ _).
    assert (Hrel : forall h, In h rel -> isnan h = false /\ is_infinite h = false).
    { intros h Hh. unfold rel in Hh. apply filter_In in Hh as [Hh Hc].
      unfold column in Hh. apply in_map_iff in Hh as (b & <- & Hb).
      split; [|now destruct (Hwin _ Hb) as (_ & H & _)].
      eapply flt_not_nan_l. exact Hc. }
    destruct rel as [|h t] eqn:E; [now left|]. right.
    rewrite safe_float_id.
    destruct (series_max_spec (h :: t)) as [Hin _]; [discriminate| |].
    { apply List.Forall_forall. intros y Hy. now apply Hrel. }
    destruct (Hrel _ Hin). now apply finite_of.
Qed.

Lemma gap_at_finite rec i g :
  Forall no_infinite_price rec -> gap_at rec i = Some g -> gap_finite g.
Proof.
  intros Hall. unfold gap_at. rewrite List.Forall_forall in Hall.
  destruct (rec !! (i - 1)%nat) as [prev|] eqn:Ep; [|discriminate].
  destruct (rec !! i) as [curr|] eqn:Ec; [|discriminate].
  apply list_elem_of_lookup_2, list_elem_of_In, Hall in Ep as (Iph & Ipl & _).
  apply list_elem_of_lookup_2, list_elem_of_In, Hall in Ec as (Ich & Icl & _).
  cbv zeta. rewrite !safe_float_id.
  destruct (existsb isnan _) eqn:En; [discriminate|].
  cbn [existsb] in En. repeat (apply orb_false_iff in En as [? En]).
  destruct (finite_of (High prev)) as [ph ->]; [assumption..|].
  destruct (finite_of (Low prev)) as [pl ->]; [assumption..|].
  destruct (finite_of (High curr)) as [ch ->]; [assumption..|].
  destruct (finite_of (Low curr)) as [cl ->]; [assumption..|].
  destruct (_ >? _)%F.
  - destruct (filled_from_above _ _); [discriminate|].
    destruct (pydiv _ _); [|discriminate]. intros [= <-].
    unfold gap_finite. cbn. repeat split; eexists; reflexivity.
  - destruct (_ <? _)%F; [|discriminate].
    destruct (filled_from_below _ _); [discriminate|].
    destruct (pydiv _ _); [|discriminate]. intros [= <-].
    unfold gap_finite. cbn. repeat split; eexists; reflexivity.
Qed.

Lemma gaps_finite df price lookback ga gb :
  Forall no_infinite_price df ->
  find_all_gaps_comprehensive df price lookback = (ga, gb) ->
  Forall gap_finite ga /\ Forall gap_finite gb.
Proof.
  intros Hall.
  destruct (Nat.lt_ge_cases (length df) 3) as [Hlt|Hge].
  { unfold find_all_gaps_comprehensive.
    replace (length df <? 3)%nat with true by (symmetry; apply Nat.ltb_lt; lia).
    intros [= <- <-]. split; constructor. }
  rewrite find_all_gaps_unfold by assumption. cbv zeta.
  set (rec := recent_rows df lookback).
  assert (Hrec : Forall no_infinite_price rec).
  { unfold rec, recent_rows, iloc_tail.
    destruct (_ <=? _)%nat; [now apply Forall_drop|exact Hall]. }
  assert (Hfound : Forall gap_finite (omap (gap_at rec) (seq 1 (length rec - 1)))).
  { apply List.Forall_forall. intros g Hg. apply in_found in Hg as (i & _ & Hg).
    eapply gap_at_finite; eassumption. }
  intros [= <- <-]. split.
  - rewrite sorted_perm. apply List.Forall_forall. intros g Hg.
    apply filter_In in Hg as [Hg _]. rewrite List.Forall_forall in Hfound. auto.
  - rewrite sorted_reverse_perm. apply List.Forall_forall. intros g Hg.
    apply filter_In in Hg as [Hg _]. rewrite List.Forall_forall in Hfound. auto.
Qed.

Lemma strong_level_true hist p : strong_level hist p = Some true -> isnan hist = false.
Proof. unfold strong_level. destruct (isnan hist); [discriminate|reflexivity]. Qed.

(** *** The raw levels of the branches *)

Lemma gap_short_branch_levels PP R1 S1 lp atr gl R2 S2 hv ind gb :
  let lv := gap_short_branch PP R1 S1 lp atr gl R2 S2 hv ind gb in
  lv_sl lv = (if (R1 >? lp)%F then R1
              else if negb (isnan R2) && (R2 >? lp)%F then R2
              else (lp + atr * Fin 1.5)%F) /\
  lv_tp1 lv = gl /\ lv_tp2 lv = S1 /\
  (lv_tp3 lv = (if negb (isnan S2) && (S2 <? S1)%F then S2
                else (S1 - atr * Fin 2)%F)
   \/ exists g, In g gb /\ lv_tp3 lv = level g).
Proof.
  unfold gap_short_branch. cbv zeta.
  repeat match goal with
  | |- context [lv_sl (if ?c then _ else _)] => destruct c
  end; cbn [lv_sl lv_tp1 lv_tp2 lv_tp3].
  all: split; [reflexivity|split; [reflexivity|split; [reflexivity|]]].
  all: destruct gb as [|g0 t]; [now left|].
  all: destruct (List.filter _ _) as [|g t'] eqn:Ef; [now left|].
  all: right; exists g; split; [|reflexivity].
  all: assert (Hin : In g (g :: t')) by (left; reflexivity).
  all: rewrite <- Ef in Hin; now apply filter_In in Hin as [Hin _].
Qed.

Lemma gap_long_branch_levels PP R1 S1 lp atr gl R2 S2 hv ind ga :
  let lv := gap_long_branch PP R1 S1 lp atr gl R2 S2 hv ind ga in
  lv_sl lv = (if (S1 <? lp)%F then S1
              else if negb (isnan S2) && (S2 <? lp)%F then S2
              else (lp - atr * Fin 1.5)%F) /\
  lv_tp1 lv = gl /\ lv_tp2 lv = R1 /\
  (lv_tp3 lv = (if negb (isnan R2) && (R2 >? R1)%F then R2
                else (R1 + atr * Fin 2)%F)
   \/ exists g, In g ga /\ lv_tp3 lv = level g).
Proof.
  unfold gap_long_branch. cbv zeta.
  repeat match goal with
  | |- context [lv_sl (if ?c then _ else _)] => destruct c
  end; cbn [lv_sl lv_tp1 lv_tp2 lv_tp3].
  all: split; [reflexivity|split; [reflexivity|split; [reflexivity|]]].
  all: destruct ga as [|g0 t]; [now left|].
  all: destruct (List.filter _ _) as [|g t'] eqn:Ef; [now left|].
  all: right; exists g; split; [|reflexivity].
  all: assert (Hin : In g (g :: t')) by (left; reflexivity).
  all: rewrite <- Ef in Hin; now apply filter_In in Hin as [Hin _].
Qed.

Ltac is_finite :=
  repeat match goal with
  | |- finite (if ?c then _ else _) => destruct c
  end;
  solve [eexists; reflexivity | assumption].

(** With numeric pivots, price and ATR, every branch that sets an entry
    sets a numeric stop, TP1 and TP2; its TP3 is numeric too, except in the
    two GAP_HISTORICO branches, which read it from the gap lists and the
    historical level alone. *)
Lemma branch_levels_numeric gs (pp r1 s1 lp a : Q) gl R2 S2 sr ss hv ind ga gb lv :
  branch_levels gs (Fin pp) (Fin r1) (Fin s1) (Fin lp) (Fin a) gl R2 S2
    sr ss hv ind ga gb = Some lv ->
  isnan (lv_entry lv) = false ->
  (gs = "NO_GAP"%string \/ finite gl) ->
  (R2 = NaN \/ finite R2) -> (S2 = NaN \/ finite S2) ->
  (sr = true -> isnan R2 = false) -> (ss = true -> isnan S2 = false) ->
  Forall gap_finite ga -> Forall gap_finite gb ->
  finite (lv_sl lv) /\ finite (lv_tp1 lv) /\ finite (lv_tp2 lv) /\
  (finite (lv_tp3 lv) \/
   (lv_tp3 lv = NaN /\ contains "GAP_HISTORICO" (lv_decision lv) = true)).
Proof.
  intros Hlv Hentry Hgl HR2 HS2 Hsr Hss Hga Hgb.
  rewrite List.Forall_forall in Hga, Hgb.
  unfold branch_levels in Hlv.
  destruct (String.eqb gs "SHORT_TO_FILL") eqn:Es;
    [|destruct (String.eqb gs "LONG_TO_FILL") eqn:El;
      [|destruct (String.eqb gs "NO_GAP") eqn:En]].
  - apply String.eqb_eq in Es. injection Hlv as <-.
    destruct Hgl as [E|Hgl]; [rewrite E in Es; discriminate|].
    destruct (gap_short_branch_levels (Fin pp) (Fin r1) (Fin s1) (Fin lp) (Fin a)
                gl R2 S2 hv ind gb) as (-> & -> & -> & H3).
    split; [|split; [exact Hgl|split; [is_finite|]]].
    + destruct (_ >? _)%F; [is_finite|].
      destruct HR2 as [->|[r2 ->]]; cbn [isnan negb andb]; [is_finite|].
      destruct (_ >? _)%F; is_finite.
    + left. destruct H3 as [->|(g & Hg & ->)]; [|now apply Hgb in Hg as (Hg & _)].
      destruct HS2 as [->|[s2 ->]]; cbn [isnan negb andb]; [is_finite|].
      destruct (_ <? _)%F; is_finite.
  - apply String.eqb_eq in El. injection Hlv as <-.
    destruct Hgl as [E|Hgl]; [rewrite E in El; discriminate|].
    destruct (gap_long_branch_levels (Fin pp) (Fin r1) (Fin s1) (Fin lp) (Fin a)
                gl R2 S2 hv ind ga) as (-> & -> & -> & H3).
    split; [|split; [exact Hgl|split; [is_finite|]]].
    + destruct (_ <? _)%F; [is_finite|].
      destruct HS2 as [->|[s2 ->]]; cbn [isnan negb andb]; [is_finite|].
      destruct (_ <? _)%F; is_finite.
    + left. destruct H3 as [->|(g & Hg & ->)]; [|now apply Hga in Hg as (Hg & _)].
      destruct HR2 as [->|[r2 ->]]; cbn [isnan negb andb]; [is_finite|].
      destruct (_ >? _)%F; is_finite.
  - unfold no_gap_branch in Hlv.
    destruct (head_near ga (Fin lp)) as [[|]|] eqn:Ena; cbn [mbind option_bind] in Hlv;
      try discriminate.
    + destruct ga as [|g t]; [discriminate Ena|].
      destruct (Hga g) as (_ & [tq Htq] & _); [now left|].
      cbv zeta in Hlv. destruct (Qleb _ _); injection Hlv as <-;
        cbn [lv_entry isnan] in Hentry; try discriminate.
      cbn [lv_sl lv_tp1 lv_tp2 lv_tp3 lv_decision].
      split; [cbn; rewrite Htq; is_finite|].
      split; [is_finite|]. split; [is_finite|].
      destruct gb as [|g' t'].
      * destruct HS2 as [->|H]; [right; split; reflexivity|now left].
      * left. now destruct (Hgb g') as (H & _); [now left|].
    + destruct (head_near gb (Fin lp)) as [[|]|] eqn:Enb; cbn [mbind option_bind] in Hlv;
        try discriminate.
      * destruct gb as [|g t]; [discriminate Enb|].
        destruct (Hgb g) as (_ & _ & [bq Hbq]); [now left|].
        cbv zeta in Hlv. destruct (Qleb _ _); injection Hlv as <-;
          cbn [lv_entry isnan] in Hentry; try discriminate.
        cbn [lv_sl lv_tp1 lv_tp2 lv_tp3 lv_decision].
        split; [cbn; rewrite Hbq; is_finite|].
        split; [is_finite|]. split; [is_finite|].
        destruct ga as [|g' t'].
        -- destruct HR2 as [->|H]; [right; split; reflexivity|now left].
        -- left. now destruct (Hga g') as (H & _); [now left|].
      * cbv zeta in Hlv.
        destruct (sr && _) eqn:Er.
        { apply andb_true_iff in Er as [-> _]. specialize (Hsr eq_refl).
          destruct HR2 as [->|[r2 ->]]; [discriminate Hsr|].
          destruct (Qleb _ _); injection Hlv as <-;
            cbn [lv_entry isnan] in Hentry; try discriminate.
          cbn [lv_sl lv_tp1 lv_tp2 lv_tp3 lv_decision].
          repeat (split; [is_finite|]). left.
          destruct HS2 as [->|[s2 ->]]; cbn [isnan negb]; is_finite. }
        destruct (ss && _) eqn:Eu.
        { apply andb_true_iff in Eu as [-> _]. specialize (Hss eq_refl).
          destruct HS2 as [->|[s2 ->]]; [discriminate Hss|].
          destruct (Qleb _ _); injection Hlv as <-;
            cbn [lv_entry isnan] in Hentry; try discriminate.
          cbn [lv_sl lv_tp1 lv_tp2 lv_tp3 lv_decision].
          repeat (split; [is_finite|]). left.
          destruct HR2 as [->|[r2 ->]]; cbn [isnan negb]; is_finite. }
        injection Hlv as <-. discriminate Hentry.
  - injection Hlv as <-. discriminate Hentry.
Qed.

Lemma raised_finite ref x (a k : Q) : finite ref -> finite x -> finite (raised ref x a k).
Proof. intros [r ->] [y ->]. unfold raised. destruct (_ && _); is_finite. Qed.

Lemma lowered_finite ref x (a k : Q) : finite ref -> finite x -> finite (lowered ref x a k).
Proof. intros [r ->] [y ->]. unfold lowered. destruct (_ && _); is_finite. Qed.

(** [validate_levels] and the TP3 step on numeric raw levels. *)
Lemma validated_short_levels decision (e a : Q) sl tp1 tp2 tp3 :
  contains "SHORT" decision = true -> 0 < a ->
  finite sl -> finite tp1 -> finite tp2 -> (tp3 = NaN \/ finite tp3) ->
  forall e' sl' tp1' tp2',
  validate_levels decision (Fin e) sl tp1 tp2 (Fin a) = (e', sl', tp1', tp2') ->
  short_levels e sl' tp1' tp2' (fix_tp3 decision tp2' tp3 (Fin a)) /\
  (fix_tp3 decision tp2' tp3 (Fin a) = NaN -> tp3 = NaN).
Proof.
  intros Hd Ha Hsl Ht1 Ht2 Ht3 e' sl' tp1' tp2' Hval.
  destruct (validate_short decision e a sl tp1 tp2 tp3 Hd Ha _ _ _ _ Hval)
    as (_ & Hs & H1 & _ & H12 & H23).
  rewrite validate_levels_short in Hval by assumption.
  rewrite (finite_not_nan tp2 Ht2) in Hval. injection Hval as <- <- <- <-.
  rewrite fix_tp3_short in * by assumption.
  assert (He : finite (Fin e)) by is_finite.
  destruct (raised_finite (Fin e) sl a 1.5 He Hsl) as [s Es].
  pose proof (lowered_finite (Fin e) tp1 a 1 He Ht1) as Hf1.
  destruct Hf1 as [t1 E1].
  destruct (lowered_finite (lowered (Fin e) tp1 a 1) (lowered (Fin e) tp2 a 2) a 1)
    as [t2 E2]; [rewrite E1; is_finite|now apply lowered_finite|].
  rewrite Es, E1, E2 in *.
  split.
  - exists s, t1, t2. repeat split; auto.
    destruct Ht3 as [->|Ht3]; [now left|]. right.
    rewrite (finite_not_nan tp3 Ht3) in *.
    destruct (lowered_finite (Fin t2) tp3 a 1) as [t3 E3]; [is_finite|exact Ht3|].
    exists t3. split; [exact E3|]. now apply (H23 t2 t3).
  - destruct Ht3 as [->|Ht3]; [reflexivity|].
    rewrite (finite_not_nan tp3 Ht3).
    destruct (lowered_finite (Fin t2) tp3 a 1) as [t3 E3]; [is_finite|exact Ht3|].
    rewrite E3. discriminate.
Qed.

Lemma validated_long_levels decision (e a : Q) sl tp1 tp2 tp3 :
  contains "SHORT" decision = false -> contains "LONG" decision = true -> 0 < a ->
  finite sl -> finite tp1 -> finite tp2 -> (tp3 = NaN \/ finite tp3) ->
  forall e' sl' tp1' tp2',
  validate_levels decision (Fin e) sl tp1 tp2 (Fin a) = (e', sl', tp1', tp2') ->
  long_levels e sl' tp1' tp2' (fix_tp3 decision tp2' tp3 (Fin a)) /\
  (fix_tp3 decision tp2' tp3 (Fin a) = NaN -> tp3 = NaN).
Proof.
  intros Hs Hd Ha Hsl Ht1 Ht2 Ht3 e' sl' tp1' tp2' Hval.
  destruct (validate_long decision e a sl tp1 tp2 tp3 Hs Hd Ha _ _ _ _ Hval)
    as (_ & Hs' & H1 & _ & H12 & H23).
  rewrite validate_levels_long in Hval by assumption.
  rewrite (finite_not_nan tp2 Ht2) in Hval. injection Hval as <- <- <- <-.
  rewrite fix_tp3_long in * by assumption.
  assert (He : finite (Fin e)) by is_finite.
  destruct (lowered_finite (Fin e) sl a 1.5 He Hsl) as [s Es].
  pose proof (raised_finite (Fin e) tp1 a 1 He Ht1) as Hf1.
  destruct Hf1 as [t1 E1].
  destruct (raised_finite (raised (Fin e) tp1 a 1) (raised (Fin e) tp2 a 2) a 1)
    as [t2 E2]; [rewrite E1; is_finite|now apply raised_finite|].
  rewrite Es, E1, E2 in *.
  split.
  - exists s, t1, t2. repeat split; auto.
    destruct Ht3 as [->|Ht3]; [now left|]. right.
    rewrite (finite_not_nan tp3 Ht3) in *.
    destruct (raised_finite (Fin t2) tp3 a 1) as [t3 E3]; [is_finite|exact Ht3|].
    exists t3. split; [exact E3|]. now apply (H23 t2 t3).
  - destruct Ht3 as [->|Ht3]; [reflexivity|].
    rewrite (finite_not_nan tp3 Ht3).
    destruct (raised_finite (Fin t2) tp3 a 1) as [t3 E3]; [is_finite|exact Ht3|].
    rewrite E3. discriminate.
Qed.

(** An entry that is a number is the last price, or the pivot of a pending
    trade, which a price at infinity cannot be waiting for: the last price
    is a number as well. *)
Lemma entry_price_finite gs (pp e : Q) R1 S1 lp atr gl R2 S2 sr ss hv ind ga gb lv :
  branch_levels gs (Fin pp) R1 S1 lp atr gl R2 S2 sr ss hv ind ga gb = Some lv ->
  lv_entry lv = Fin e ->
  (gs = "SHORT_TO_FILL"%string -> (gl <? lp)%F = true) ->
  (gs = "LONG_TO_FILL"%string -> (lp <? gl)%F = true) ->
  finite lp.
Proof.
  intros Hlv He Hshort Hlong. apply branch_levels_outcome in Hlv.
  unfold branch_outcome in Hlv. cbv zeta in Hlv. rewrite He in Hlv.
  destruct Hlv as [(H & _)|[(Hs & _ & _ & _ & H)|[(Hl & _ & _ & _ & H)|(_ & H & _)]]].
  - discriminate H.
  - specialize (Hshort Hs).
    destruct H as [(_ & _ & <-)|[(_ & _ & <-)|(_ & _ & H)]]; [is_finite..|].
    destruct lp, gl; cbn in Hshort, H; try discriminate; is_finite.
  - specialize (Hlong Hl).
    destruct H as [(_ & _ & <-)|[(_ & _ & <-)|(_ & _ & H)]]; [is_finite..|].
    destruct lp, gl; cbn in Hlong, H; try discriminate; is_finite.
  - rewrite <- H. is_finite.
Qed.

(** A plan, with the sources of everything its branch reads. *)
Lemma analyze_plan_sources symbol cols_5m rows_5m dl_4h dl_1d indicators p :
  analyze_pre_ny symbol (Downloaded cols_5m rows_5m) dl_4h dl_1d indicators = Plan p ->
  let data_5m := List.filter row_complete rows_5m in
  let pv := calculate_pivot_points dl_1d in
  let last_price := safe_float_last (column Close data_5m) in
  let atr := safe_atr data_5m 14 in
  let R2_hist := find_historical_level (df_1d pv) last_price true 100 in
  let S2_hist := find_historical_level (df_1d pv) last_price false 100 in
  error_1d pv = None /\ isnan last_price = false /\
  exists gap_signal gap_level recent gaps_above gaps_below
         strong_resistance strong_support lv,
    detect_cme_gap_improved (df_1d pv) last_price = (gap_signal, gap_level, recent) /\
    find_all_gaps_comprehensive (df_1d pv) last_price 120 = (gaps_above, gaps_below) /\
    strong_level R2_hist last_price = Some strong_resistance /\
    strong_level S2_hist last_price = Some strong_support /\
    branch_levels gap_signal (PP pv) (R1 pv) (S1 pv) last_price atr gap_level
      R2_hist S2_hist strong_resistance strong_support
      (check_high_volume data_5m 20 (Fin 1.5)) indicators
      gaps_above gaps_below = Some lv /\
    p = finish lv atr (analyze_market_structure (df_1d pv) last_price).
Proof.
  unfold analyze_pre_ny. destruct dl_4h as [e|cols_4h rows_4h]; [discriminate|].
  destruct (frame_empty cols_5m rows_5m || negb (has_required_cols cols_5m));
    [discriminate|].
  cbv zeta.
  destruct (error_1d (calculate_pivot_points dl_1d)) eqn:Eerr; [discriminate|].
  destruct (_ || _ || _); [discriminate|].
  destruct (isnan (safe_float_last _)) eqn:Elp; [discriminate|].
  unfold decide_and_validate.
  destruct (detect_cme_gap_improved _ _) as [[gap_signal gap_level] recent] eqn:Egap.
  destruct (find_all_gaps_comprehensive _ _ _) as [gaps_above gaps_below] eqn:Egaps.
  cbv zeta.
  destruct (strong_level (find_historical_level _ _ true _) _) as [sr|] eqn:Esr;
    [|discriminate].
  destruct (strong_level (find_historical_level _ _ false _) _) as [ss|] eqn:Ess;
    [|discriminate].
  destruct (branch_levels _ _ _ _ _ _ _ _ _ _ _ _ _ _ _) as [lv|] eqn:Elv; [|discriminate].
  destruct (pydiv _ _) as [r|]; [|discriminate].
  intros [= <-]. split; [reflexivity|]. split; [reflexivity|].
  exists gap_signal, gap_level, recent, gaps_above, gaps_below, sr, ss, lv.
  repeat split; assumption.
Qed.

(** C1, as amended: on daily rows without an infinite high, low or close,
    every plan that [analyze_pre_ny] emits with a numeric entry and a
    numeric, strictly positive ATR has, after [validate_levels] and the TP3
    step, a numeric stop, TP1 and TP2 that are strictly ordered: for a
    SHORT decision stop > entry > TP1 > TP2, for a LONG decision
    stop < entry < TP1 < TP2.  TP3, whenever it is a number, lies strictly
    beyond TP2, and it is a number in every decision but the two
    GAP_HISTORICO ones. *)
Theorem level_ordering symbol dl_5m dl_4h dl_1d indicators p (e a : Q) :
  analyze_pre_ny symbol dl_5m dl_4h dl_1d indicators = Plan p ->
  entry_p p = Fin e ->
  atr_used p = Fin a ->
  0 < a ->
  Forall no_infinite_price (frame_rows dl_1d) ->
  (contains "SHORT" (decision p) = true ->
     short_levels e (sl_p p) (tp1_p p) (tp2_p p) (tp3_p p)) /\
  (contains "LONG" (decision p) = true ->
     long_levels e (sl_p p) (tp1_p p) (tp2_p p) (tp3_p p)) /\
  (tp3_p p = NaN -> contains "GAP_HISTORICO" (decision p) = true).
Proof.
  intros Hrun He Hatr Ha H1.
  destruct dl_5m as [e5|cols_5m rows_5m]; [discriminate Hrun|].
  apply analyze_plan_sources in Hrun. cbv zeta in Hrun.
  destruct Hrun as (Herr & Hlp & gs & gl & recent & ga & gb & sr & ss & lv
                    & Hgap & Hgaps & Hsr & Hss & Hlv & ->).
  destruct (pivots_finite dl_1d Herr H1) as ([pp Hpp] & [r1 Hr1] & [s1 Hs1] & Hdf).
  rewrite Hdf in *. rewrite Hpp, Hr1, Hs1 in *.
  set (lp' := safe_float_last _) in *.
  destruct (finish_fields lv (safe_atr (List.filter row_complete rows_5m) 14)
              (analyze_market_structure (frame_rows dl_1d) lp'))
    as (Hd & Hatr' & _ & Hval & Htp3 & _).
  cbv zeta in *. rewrite Hatr' in Hatr. rewrite Hatr in *.
  pose proof (validate_levels_entry (lv_decision lv) (lv_entry lv) (lv_sl lv)
                (lv_tp1 lv) (lv_tp2 lv) (Fin a)) as Hentry.
  rewrite Hval in Hentry. cbn [fst] in Hentry. rewrite He in Hentry.
  assert (Hnum : isnan (lv_entry lv) = false) by now rewrite <- Hentry.
  destruct (detect_cme_gap_improved_side _ _ _ _ _ Hgap) as [Hshort' Hlong'].
  destruct (entry_price_finite _ _ e _ _ _ _ _ _ _ _ _ _ _ _ _ _ Hlv
              (eq_sym Hentry) Hshort' Hlong') as [lp Elp].
  clearbody lp'. subst lp'.
  destruct (branch_levels_numeric gs pp r1 s1 lp a gl _ _ sr ss _ indicators ga gb lv
              Hlv Hnum) as (Fsl & F1 & F2 & F3).
  { exact (detect_level_finite _ _ _ _ _ H1 Hgap). }
  { now apply historical_level_finite. }
  { now apply historical_level_finite. }
  { intros ->. eapply strong_level_true; eassumption. }
  { intros ->. eapply strong_level_true; eassumption. }
  { exact (proj1 (gaps_finite _ _ _ _ _ H1 Hgaps)). }
  { exact (proj2 (gaps_finite _ _ _ _ _ H1 Hgaps)). }
  assert (F3' : lv_tp3 lv = NaN \/ finite (lv_tp3 lv)) by (destruct F3 as [H|[H _]]; auto).
  assert (Hnan : lv_tp3 lv = NaN -> contains "GAP_HISTORICO" (lv_decision lv) = true).
  { intros E. destruct F3 as [[q Hq]|[_ H]]; [congruence|exact H]. }
  pose proof (branch_levels_decisions _ _ _ _ _ _ _ _ _ _ _ _ _ _ _ _ Hlv Hnum) as Hdec.
  rewrite <- Hentry in Hval.
  set (p := finish lv (Fin a) _) in *.
  rewrite Hd, Htp3.
  assert (Hshort : contains "SHORT" (lv_decision lv) = true ->
            short_levels e (sl_p p) (tp1_p p) (tp2_p p)
              (fix_tp3 (lv_decision lv) (tp2_p p) (lv_tp3 lv) (Fin a)) /\
            (fix_tp3 (lv_decision lv) (tp2_p p) (lv_tp3 lv) (Fin a) = NaN ->
             lv_tp3 lv = NaN)).
  { intros Hs.
    exact (validated_short_levels _ e a _ _ _ _ Hs Ha Fsl F1 F2 F3' _ _ _ _ Hval). }
  assert (Hlong : contains "LONG" (lv_decision lv) = true ->
            long_levels e (sl_p p) (tp1_p p) (tp2_p p)
              (fix_tp3 (lv_decision lv) (tp2_p p) (lv_tp3 lv) (Fin a)) /\
            (fix_tp3 (lv_decision lv) (tp2_p p) (lv_tp3 lv) (Fin a) = NaN ->
             lv_tp3 lv = NaN)).
  { intros Hl.
    exact (validated_long_levels _ e a _ _ _ _
             (long_decisions_not_short _ Hdec Hl) Hl Ha Fsl F1 F2 F3' _ _ _ _ Hval). }
  split; [intros Hs; now apply Hshort|]. split; [intros Hl; now apply Hlong|].
  intros E. apply Hnan.
  assert (Hside : contains "SHORT" (lv_decision lv) = true
                  \/ contains "LONG" (lv_decision lv) = true).
  { revert Hdec. generalize (lv_decision lv). intros d. cbn.
    intros H. repeat destruct H as [<-|H]; first [now left|now right]. }
  destruct Hside as [Hs|Hl]; [now apply (proj2 (Hshort Hs))|now apply (proj2 (Hlong Hl))].
Qed.


(** C1 as stated fails on four runs.  On the daily rows of [sample_run]
    with an ATR of 1 the plan SHORT_GAP_HISTORICO has no TP3 (NaN: no gap
    below and no historical low under the price), so TP2 > TP3 does not
    hold; with flat five-minute rows the ATR is 0 and TP1 is put on the
    entry.  On daily rows whose previous high is infinite the pivot S1 is
    [inf - inf], so the plan SHORT_FUERTE has no TP2.  And an infinite
    last price is an entry that is not NaN and that no stop lies above. *)
Lemma level_ordering_counterexample :
  (exists p, sample_run five_minute_bars = Plan p /\
     decision p = "SHORT_GAP_HISTORICO (Resistencia)"%string /\
     entry_p p = Fin 105 /\ atr_used p = Fin 1 /\
     tp2_p p = Fin 102 /\ tp3_p p = NaN /\
     (tp2_p p >? tp3_p p)%F = false) /\
  (exists p, sample_run flat_five_minute_bars = Plan p /\
     decision p = "SHORT_GAP_HISTORICO (Resistencia)"%string /\
     entry_p p = Fin 105 /\ atr_used p = Fin 0 /\
     tp1_p p = Fin 105 /\
     (entry_p p >? tp1_p p)%F = false) /\
  (exists p, infinite_high_run = Plan p /\
     decision p = "SHORT_FUERTE (Activacion Inmediata)"%string /\
     entry_p p = Fin 105 /\ atr_used p = Fin 1 /\
     tp1_p p = Fin 101 /\ tp2_p p = NaN /\
     (tp1_p p >? tp2_p p)%F = false) /\
  (exists p, infinite_close_run = Plan p /\
     decision p = "SHORT_FUERTE (Activacion Inmediata)"%string /\
     entry_p p = PInf /\ atr_used p = Fin 1 /\
     sl_p p = PInf /\
     (sl_p p >? entry_p p)%F = false).
Proof.
  repeat split; eexists; (split; [vm_compute; reflexivity|]).
  all: cbn.
  all: repeat split.
Qed.

(** The run on the open gap of [recent_gap_days]: SHORT_FUERTE at 105 with
    stop 106 1/3, TP1 101 (the gap), TP2 100 and TP3 99. *)
Lemma level_ordering_witness :
  exists p, gap_fill_run = Plan p /\
    short_levels 105 (sl_p p) (tp1_p p) (tp2_p p) (tp3_p p) /\
    tp3_p p = Fin 99.
Proof.
  eexists. split; [vm_compute; reflexivity|]. split; [|reflexivity].
  apply (level_ordering "BTC-USD"
           (Downloaded required_cols five_minute_bars)
           (Downloaded required_cols five_minute_bars)
           (Downloaded required_cols recent_gap_days)
           bearish_indicators _ 105 1).
  - vm_compute. reflexivity.
  - reflexivity.
  - reflexivity.
  - reflexivity.
  - vm_compute. repeat constructor.
  - reflexivity.
Defined.
